(** * Relationship-coach simulator: a shallow embedding of the agent pipeline

    The development follows the Python sources:
      - [app/agents/base.py]       the [Memory] store and [BaseAgent];
      - [app/agents/matchmaker.py] [extract_json] and [MatchmakerAgent];
      - [app/agents/evaluator.py]  [NeutralEvaluatorAgent];
      - [app/registry.py], [app/users.py], [app/main.py], [app/intake_live.py].

    Conventions.
      - A Python [str] is a [string]; a character of the model is a code
        point below 256, and the [str] methods below are Python's on that
        alphabet.
      - A Python [int] is a [Z], a Python [float] a binary64 [float].
      - A [dict] keyed by strings whose order is observable (it is
        serialised by [json.dumps]) is an association list; the registries
        keyed by identifiers are [gmap]s.
      - Python's standard library ([json], [float], number formatting) and
        the outside world (the LLM provider, the clock, [uuid4], the process
        environment) are parameters: a record of functions each.
      - Effects are explicit: a computation takes the world and returns its
        outcome together with the world it leaves behind, also when it
        raises. *)

From Stdlib Require Import ZArith String Ascii List Lia Uint63 FloatClass PrimFloat.
From stdpp Require Import base option list gmap strings pretty.
Import ListNotations.

#[local] Set Warnings "-register-all,-inexact-float".
Local Open Scope string_scope.
Local Open Scope list_scope.
Local Open Scope Z_scope.

(** ** Python strings *)

Module PyStr.

Definition chr (n : nat) : string := String (ascii_of_nat n) EmptyString.

Definition NL : string := chr 10.
Definition DQ : string := chr 34.
(** U+00D7, the multiplication sign of the memory texts. *)
Definition TIMES : string := chr 215.
(** U+2022 and U+2026 lie outside the alphabet; they occur in prompt
    text only, which no operation of the model inspects, and are spelled
    by their UTF-8 bytes there. *)
Definition BULLET : string :=
  String (ascii_of_nat 226) (String (ascii_of_nat 128) (chr 162)).

Definition ELLIPSIS : string :=
  String (ascii_of_nat 226) (String (ascii_of_nat 128) (chr 166)).

Definition code (c : ascii) : nat := nat_of_ascii c.

(** [str.isspace] on one character. *)
Definition isspace (c : ascii) : bool :=
  let n := code c in
  ((9 <=? n) && (n <=? 13) || (28 <=? n) && (n <=? 32)
   || (n =? 133) || (n =? 160))%nat.

(** The line boundaries of [str.splitlines], apart from CR. *)
Definition islinebreak (c : ascii) : bool :=
  let n := code c in
  ((10 <=? n) && (n <=? 12) || (28 <=? n) && (n <=? 30) || (n =? 133))%nat.

Definition lower_char (c : ascii) : ascii :=
  let n := code c in
  if ((65 <=? n) && (n <=? 90)
      || (192 <=? n) && (n <=? 222) && negb (n =? 215))%nat
  then ascii_of_nat (n + 32) else c.

Fixpoint lower (s : string) : string :=
  match s with
  | EmptyString => EmptyString
  | String c s' => String (lower_char c) (lower s')
  end.

Fixpoint lstrip (s : string) : string :=
  match s with
  | EmptyString => EmptyString
  | String c s' => if isspace c then lstrip s' else s
  end.

Fixpoint rstrip (s : string) : string :=
  match s with
  | EmptyString => EmptyString
  | String c s' =>
      match rstrip s' with
      | EmptyString => if isspace c then EmptyString else String c EmptyString
      | r => String c r
      end
  end.

Definition strip (s : string) : string := rstrip (lstrip s).

Fixpoint mem_char (c : ascii) (chars : string) : bool :=
  match chars with
  | EmptyString => false
  | String d chars' => Ascii.eqb c d || mem_char c chars'
  end.

(** [s.lstrip(chars)]. *)
Fixpoint lstrip_chars (chars s : string) : string :=
  match s with
  | EmptyString => EmptyString
  | String c s' => if mem_char c chars then lstrip_chars chars s' else s
  end.

Definition startswith (s p : string) : bool := String.prefix p s.

(** [sub in s]. *)
Fixpoint contains (sub s : string) : bool :=
  String.prefix sub s
  || match s with
     | EmptyString => false
     | String _ s' => contains sub s'
     end.

(** [s.find(c)] for a one-character needle: the first index, or -1. *)
Fixpoint find (c : ascii) (s : string) : Z :=
  match s with
  | EmptyString => -1
  | String d s' =>
      if Ascii.eqb d c then 0
      else let r := find c s' in if r <? 0 then -1 else r + 1
  end.

(** [s.rfind(c)]: the last index, or -1. *)
Fixpoint rfind (c : ascii) (s : string) : Z :=
  match s with
  | EmptyString => -1
  | String d s' =>
      let r := rfind c s' in
      if 0 <=? r then r + 1 else if Ascii.eqb d c then 0 else -1
  end.

(** [s[lo:hi]] with Python's treatment of negative and large bounds. *)
Definition clamp (len i : Z) : Z :=
  if i <? 0 then Z.max 0 (len + i) else Z.min i len.

Definition slice (s : string) (lo hi : Z) : string :=
  let len := Z.of_nat (String.length s) in
  let a := clamp len lo in
  let b := clamp len hi in
  String.substring (Z.to_nat a) (Z.to_nat (b - a)) s.

(** [s[:n]] for a literal bound. *)
Definition take (n : nat) (s : string) : string := String.substring 0 n s.

Definition snoc (s : string) (c : ascii) : string :=
  s +:+ String c EmptyString.

(** [s.splitlines()]: no empty last line, CR LF is one boundary. *)
Fixpoint splitlines_from (cur s : string) : list string :=
  match s with
  | EmptyString =>
      match cur with EmptyString => [] | _ => [cur] end
  | String c s' =>
      if (code c =? 13)%nat then
        match s' with
        | String d s'' =>
            if (code d =? 10)%nat
            then cur :: splitlines_from EmptyString s''
            else cur :: splitlines_from EmptyString s'
        | EmptyString => [cur]
        end
      else if islinebreak c then cur :: splitlines_from EmptyString s'
      else splitlines_from (snoc cur c) s'
  end.

Definition splitlines (s : string) : list string :=
  splitlines_from EmptyString s.

(** [s.split(sep)] for a one-character separator. *)
Fixpoint split_from (sep : ascii) (cur s : string) : list string :=
  match s with
  | EmptyString => [cur]
  | String c s' =>
      if Ascii.eqb c sep then cur :: split_from sep EmptyString s'
      else split_from sep (snoc cur c) s'
  end.

Definition split (sep : ascii) (s : string) : list string :=
  split_from sep EmptyString s.

(** [s.split()]: the maximal runs of characters that are not whitespace. *)
Fixpoint words_from (cur s : string) : list string :=
  match s with
  | EmptyString =>
      match cur with EmptyString => [] | _ => [cur] end
  | String c s' =>
      if isspace c then
        match cur with
        | EmptyString => words_from EmptyString s'
        | _ => cur :: words_from EmptyString s'
        end
      else words_from (snoc cur c) s'
  end.

Definition words (s : string) : list string := words_from EmptyString s.

(** [sep.join(parts)]. *)
Definition join (sep : string) (parts : list string) : string :=
  String.concat sep parts.

(** Truthiness of a [str]. *)
Definition nonempty (s : string) : bool :=
  match s with EmptyString => false | _ => true end.

End PyStr.

(** [l[:k]] on a list, for any integer [k]. *)
Definition py_take {A} (k : Z) (l : list A) : list A :=
  if k <? 0 then firstn (length l - Z.to_nat (- k)) l
  else firstn (Z.to_nat k) l.

(** [l[-1]] on a list. *)
Definition py_last {A} (l : list A) : option A := List.last (map Some l) None.

(** ** Python values and dictionaries *)

(** The values that [json.loads] builds and [json.dumps] prints; a [dict]
    keeps its keys in insertion order. *)
Inductive value : Type :=
  | VNone
  | VBool (b : bool)
  | VInt (z : Z)
  | VFloat (f : float)
  | VStr (s : string)
  | VList (l : list value)
  | VDict (d : list (string * value)).

Abbreviation dict := (list (string * value)).

Module Dict.

(** [d.get(k)], [None] of Python being [None] here. *)
Fixpoint get (k : string) (d : dict) : option value :=
  match d with
  | [] => None
  | (k', v) :: d' => if String.eqb k' k then Some v else get k d'
  end.

Definition has (k : string) (d : dict) : bool :=
  match get k d with Some _ => true | None => false end.

(** [d.get(k, default)]. *)
Definition get_or (k : string) (default : value) (d : dict) : value :=
  match get k d with Some v => v | None => default end.

(** [d[k] = v]: an existing key keeps its place. *)
Fixpoint set (k : string) (v : value) (d : dict) : dict :=
  match d with
  | [] => [(k, v)]
  | (k', v') :: d' =>
      if String.eqb k' k then (k', v) :: d' else (k', v') :: set k v d'
  end.

(** [d.setdefault(k, v)]. *)
Definition setdefault (k : string) (v : value) (d : dict) : dict :=
  if has k d then d else d ++ [(k, v)].

End Dict.

(** Truthiness, as [if x:] and [x or y] test it. *)
Definition truthy (v : value) : bool :=
  match v with
  | VNone => false
  | VBool b => b
  | VInt z => negb (z =? 0)
  | VFloat f => negb (PrimFloat.eqb f 0%float)
  | VStr s => PyStr.nonempty s
  | VList l => match l with [] => false | _ => true end
  | VDict d => match d with [] => false | _ => true end
  end.

(** Python's standard library, as far as the program calls it. *)
Class PyRuntime := {
  (** [json.loads(s)], [None] when it raises. *)
  json_loads : string -> option value;
  (** [json.dumps(v)]. *)
  json_dumps : value -> string;
  (** [json.dumps(v, indent=2)]. *)
  json_dumps_indent2 : value -> string;
  (** [a == b]. *)
  py_eq : value -> value -> bool;
  (** [str(v)], as an f-string formats a value. *)
  py_str : value -> string;
  (** [float(v)], [None] when it raises. *)
  py_float : value -> option float;
  (** [sum(xs)] on floats. *)
  py_sum : list float -> float;
  (** [xs.sort(key=lambda x: x[0])] on pairs keyed by a float. *)
  py_sort_by_key : list (float * string) -> list (float * string);
  (** [f"{x:.1f}"]. *)
  format_1f : float -> string;
}.

(** ** app/agents/base.py: the memory store *)

Record entry := Entry { text : string; metadata : dict }.

Record Memory := mkMemory {
  _entries : list entry;
  _metadata : dict;
}.

Module Mem.

(** An operation on a [Memory]: its result and the memory it leaves. *)
Definition op (A : Type) : Type := Memory -> A * Memory.

(** [Memory()]. *)
Definition init : Memory := mkMemory [] [].

(** [metadata or {}]. *)
Definition or_empty (md : option dict) : dict :=
  match md with
  | Some d => match d with [] => [] | _ => d end
  | None => []
  end.

Definition write (txt : string) (md : option dict) : op unit :=
  fun m => (tt, mkMemory (_entries m ++ [Entry txt (or_empty md)]) (_metadata m)).

Definition hit (q : string) (e : entry) : bool :=
  PyStr.contains q (PyStr.lower (text e)).

Definition search (query : string) (k : Z) : op (list entry) :=
  fun m =>
    let q := PyStr.strip (PyStr.lower query) in
    let hits := List.filter (hit q) (_entries m) in
    (py_take k hits, m).

Section WithRuntime.
Context `{PyRuntime}.

(** The loop of [search_metadata] over the entries, newest first. *)
Fixpoint search_metadata_loop (key : string) (v : value) (k : Z)
    (es : list entry) (hits : list entry) : list entry :=
  match es with
  | [] => hits
  | e :: es' =>
      let md := metadata e in
      if py_eq (Dict.get_or key VNone md) v then
        let hits' := hits ++ [e] in
        if Z.of_nat (length hits') >=? k then hits'
        else search_metadata_loop key v k es' hits'
      else search_metadata_loop key v k es' hits
  end.

Definition search_metadata (key : string) (v : value) (k : Z)
    : op (list entry) :=
  fun m => (search_metadata_loop key v k (rev (_entries m)) [], m).

Definition latest_by_type (entry_type : string) : op (option entry) :=
  fun m =>
    let '(hits, m') := search_metadata "type" (VStr entry_type) 1 m in
    (match hits with e :: _ => Some e | [] => None end, m').

End WithRuntime.

Definition all : op (list entry) :=
  fun m => (_entries m, m).

Definition set_metadata (key : string) (v : value) : op unit :=
  fun m => (tt, mkMemory (_entries m) (Dict.set key v (_metadata m))).

Definition get_metadata (key : string) (default : value) : op value :=
  fun m => (Dict.get_or key default (_metadata m), m).

Definition clear : op unit :=
  fun _ => (tt, mkMemory [] []).

End Mem.

(** [l[i]] on a list, negative indices counting from the end. *)
Definition py_index {A} (l : list A) (i : Z) : option A :=
  let n := Z.of_nat (length l) in
  let j := if i <? 0 then i + n else i in
  if (0 <=? j) && (j <? n) then nth_error l (Z.to_nat j) else None.

(** ** Exceptions, users, agents and the world *)

Inductive exn : Type :=
  | ValueError (msg : string)
  | KeyError (key : string)
  | IndexError
  | AttributeError
  (** [float(v)] on a value it rejects. *)
  | ConversionError
  (** [httpx.HTTPError], what [OpenRouterClient.chat] is documented to
      raise. *)
  | HTTPError
  | HTTPException (status : Z) (detail : string)
  | TypeError.

Inductive outcome (A : Type) : Type :=
  | Ok (a : A)
  | Raise (e : exn).
Arguments Ok {A} a.
Arguments Raise {A} e.

(** app/users.py: a user profile. *)
Record User := mkUser {
  user_id : string;
  display_name : string;
  bio : string;
  traits : list string;
  boundaries : list string;
  notes : string;
}.

Definition value_of_user (u : User) : value :=
  VDict [("user_id", VStr (user_id u));
         ("display_name", VStr (display_name u));
         ("bio", VStr (bio u));
         ("traits", VList (map VStr (traits u)));
         ("boundaries", VList (map VStr (boundaries u)));
         ("notes", VStr (notes u))].

(** app/agents/matchmaker.py: [MatchmakerAgent]. *)
Record MatchmakerAgent := mkMatchmaker {
  ma_name : string;
  ma_role : string;
  ma_memory : Memory;
  ma_user_id : string;
  ma_user_profile : User;
}.

(** app/agents/evaluator.py: [NeutralEvaluatorAgent]. *)
Record NeutralEvaluatorAgent := mkEvaluator {
  ev_name : string;
  ev_role : string;
  ev_memory : Memory;
}.

(** app/intake_live.py: a session of [_sessions]. *)
Record Session := mkSession {
  session_id : string;
  s_user_id : string;
  step_index : Z;
  questions : list string;
  answers : list string;
  created_at : float;
  is_complete : bool;
}.

(** app/openrouter_client.py: [OpenRouterClient]. *)
Record OpenRouterClient := mkClient {
  api_key : string;
  model : string;
  base_url : string;
}.

(** The place in the program that issues a chat call. *)
Inductive CallSite : Type :=
  | IntakeSummary
  | MatchReport
  | Scene
  | TestMoment
  | DialogueTurn (turn : nat)
  | EvaluatorNotes
  | DeltaInsight
  | Reflection
  | ScoreDate
  | PipelineReport
  | NextQuestion.

(** One chat call as it happened: who asked what, and what came back
    ([None]: the call raised). *)
Record Call := mkCall {
  site : CallSite;
  client_of : OpenRouterClient;
  messages : list (string * string);
  temperature : float;
  reply : option string;
}.

(** The state of the process: the registry with its agents, the
    live-intake sessions, and the history of what was asked of the outside
    world. *)
Record World := mkWorld {
  users : list User;
  matchmakers : gmap string MatchmakerAgent;
  evaluator : NeutralEvaluatorAgent;
  sessions : gmap string Session;
  calls : list Call;
  ticks : nat;
  uuids : nat;
}.

(** The outside world. *)
Class Outside := {
  (** [os.environ]. *)
  environ : string -> option string;
  (** The provider's answer to the [n]-th chat call of the process, [None]
      when the call raises. *)
  llm : nat -> OpenRouterClient -> list (string * string) -> float
        -> option string;
  (** What the [n]-th chat call raises when it raises: [httpx.HTTPError]
      from the request or from [raise_for_status], the [ValueError] of
      [response.json()] on a body that is not JSON, or the [KeyError],
      [IndexError] or [TypeError] of [data["choices"][0]["message"]["content"]]
      on a body of another shape. *)
  llm_error : nat -> OpenRouterClient -> list (string * string) -> float
              -> exn;
  (** [time.time()] at its [n]-th reading. *)
  clock : nat -> float;
  (** [str(uuid4())] at its [n]-th draw. *)
  uuid4 : nat -> string;
}.

Definition set_matchmakers
    (f : gmap string MatchmakerAgent -> gmap string MatchmakerAgent)
    (w : World) : World :=
  mkWorld (users w) (f (matchmakers w)) (evaluator w) (sessions w)
          (calls w) (ticks w) (uuids w).

Definition set_evaluator (f : NeutralEvaluatorAgent -> NeutralEvaluatorAgent)
    (w : World) : World :=
  mkWorld (users w) (matchmakers w) (f (evaluator w)) (sessions w)
          (calls w) (ticks w) (uuids w).

Definition set_sessions (f : gmap string Session -> gmap string Session)
    (w : World) : World :=
  mkWorld (users w) (matchmakers w) (evaluator w) (f (sessions w))
          (calls w) (ticks w) (uuids w).

Definition set_calls (f : list Call -> list Call) (w : World) : World :=
  mkWorld (users w) (matchmakers w) (evaluator w) (sessions w)
          (f (calls w)) (ticks w) (uuids w).

Definition set_ticks (f : nat -> nat) (w : World) : World :=
  mkWorld (users w) (matchmakers w) (evaluator w) (sessions w)
          (calls w) (f (ticks w)) (uuids w).

Definition set_uuids (f : nat -> nat) (w : World) : World :=
  mkWorld (users w) (matchmakers w) (evaluator w) (sessions w)
          (calls w) (ticks w) (f (uuids w)).

Definition ma_set_memory (f : Memory -> Memory) (a : MatchmakerAgent)
    : MatchmakerAgent :=
  mkMatchmaker (ma_name a) (ma_role a) (f (ma_memory a)) (ma_user_id a)
               (ma_user_profile a).

Definition ev_set_memory (f : Memory -> Memory) (a : NeutralEvaluatorAgent)
    : NeutralEvaluatorAgent :=
  mkEvaluator (ev_name a) (ev_role a) (f (ev_memory a)).

(** ** Computations *)

(** A computation runs in a world and leaves a world, whether it returns
    or raises: what it wrote before raising stays written. *)
Definition M (A : Type) : Type := World -> outcome A * World.

Definition ret {A} (a : A) : M A := fun w => (Ok a, w).

Definition raise {A} (e : exn) : M A := fun w => (Raise e, w).

Definition bind {A B} (m : M A) (k : A -> M B) : M B :=
  fun w =>
    match m w with
    | (Ok a, w') => k a w'
    | (Raise e, w') => (Raise e, w')
    end.

(** [try: m except Exception: h]. *)
Definition try_except {A} (m : M A) (h : M A) : M A :=
  fun w =>
    match m w with
    | (Ok a, w') => (Ok a, w')
    | (Raise _, w') => h w'
    end.

Declare Scope py_scope.
Delimit Scope py_scope with py.
Notation "x <- m ;; k" := (bind m (fun x => k))
  (at level 100, m at next level, right associativity) : py_scope.
Notation "m ;;; k" := (bind m (fun _ => k))
  (at level 100, right associativity) : py_scope.
Local Open Scope py_scope.

(** [if c: m]. *)
Definition when (c : bool) (m : M unit) : M unit :=
  if c then m else ret tt.

(** [for x in xs: s = body(x, s)]. *)
Fixpoint for_each {A S} (xs : list A) (body : A -> S -> M S) (s : S) : M S :=
  match xs with
  | [] => ret s
  | x :: xs' => s' <- body x s ;; for_each xs' body s'
  end.

(** The agent object behind a reference: [None] of Python, or a reference
    to nothing, has no memory. *)
Definition deref (w : World) (agent : option string) : option MatchmakerAgent :=
  match agent with
  | Some ref => matchmakers w !! ref
  | None => None
  end.

(** [agent.memory.write(text, metadata)] on a matchmaker. *)
Definition matchmaker_write (ref : string) (txt : string) (md : dict) : M unit :=
  fun w =>
    match matchmakers w !! ref with
    | Some a =>
        (Ok tt,
         set_matchmakers
           (insert ref (ma_set_memory (fun m => snd (Mem.write txt (Some md) m)) a))
           w)
    | None => (Raise AttributeError, w)
    end.

(** [self.memory.write(text, metadata)] on the evaluator. *)
Definition evaluator_write (txt : string) (md : dict) : M unit :=
  fun w =>
    (Ok tt,
     set_evaluator (ev_set_memory (fun m => snd (Mem.write txt (Some md) m))) w).

(** ** Prompt texts

    The templates of the sources, character for character; a double quote
    of a template is [DQ]. *)

Module Prompts.
Section WithRuntime.
Context `{PyRuntime}.

Local Abbreviation DQ := PyStr.DQ.
Local Abbreviation BULLET := PyStr.BULLET.
Local Abbreviation TIMES := PyStr.TIMES.

(** [run_intake_summary]: the base prompt. *)
Definition intake_prompt_base (user : User) : string :=
  "You are analyzing a dating profile for intake. Based on this profile, generate a structured summary.

User Profile:
- Name: " +:+
  display_name user +:+
  "
- Bio: " +:+
  bio user +:+
  "
- Traits: " +:+
  PyStr.join ", " (traits user) +:+
  "
- Boundaries: " +:+
  PyStr.join ", " (boundaries user).

(** [run_intake_summary]: the live intake notes. *)
Definition intake_prompt_notes (extra_context : string) : string :=
  "

Live Intake Notes (Q/A):
" +:+
  extra_context.

(** [run_intake_summary]: the JSON structure requirements. *)
Definition intake_prompt_rules : string :=
  "

Generate a JSON response with this exact structure:
{
  " +:+
  DQ +:+ "preferences" +:+ DQ +:+ ": [
    " +:+
  DQ +:+ "preference 1" +:+ DQ +:+ ",
    " +:+
  DQ +:+ "preference 2" +:+ DQ +:+ ",
    " +:+
  DQ +:+ "preference 3" +:+ DQ +:+ ",
    " +:+
  DQ +:+ "preference 4" +:+ DQ +:+ ",
    " +:+
  DQ +:+ "preference 5" +:+ DQ +:+ ",
    " +:+
  DQ +:+ "preference 6" +:+ DQ +:+ "
  ],
  " +:+
  DQ +:+ "dealbreakers" +:+ DQ +:+ ": [
    " +:+
  DQ +:+ "dealbreaker 1" +:+ DQ +:+ ",
    " +:+
  DQ +:+ "dealbreaker 2" +:+ DQ +:+ ",
    " +:+
  DQ +:+ "dealbreaker 3" +:+ DQ +:+ "
  ],
  " +:+
  DQ +:+ "dating_thesis" +:+ DQ +:+ ": " +:+ DQ +:+ "One sentence summarizing their dating philosophy and what they're looking for" +:+ DQ +:+ "
}

Rules:
- Return ONLY valid JSON (no markdown, no extra text).
- Be specific and insightful. Infer preferences from traits/bio/boundaries.
- If Live Intake Notes are provided, incorporate those insights into the summary.
".

(** [generate_match_report]: the quote clause, before [rstrip]. *)
Definition quote_clause_text (exch_quote : string) : string :=
  "
You also have a snippet from their most recent simulated date exchange:
QUOTE: " +:+
  DQ +:+ exch_quote +:+
  DQ +:+ "

Include EXACTLY ONE bullet in REASONING that cites the QUOTE and ties it to a preference or dealbreaker from the intake summaries.
".

(** [generate_match_report]. *)
Definition match_report_prompt (user_a user_b : User) (intake_a intake_b : value) (quote_clause : string) : string :=
  "You are a neutral matchmaking evaluator. Analyze these two dating profiles and their intake summaries to determine compatibility.

USER A: " +:+
  display_name user_a +:+
  "
Bio: " +:+
  bio user_a +:+
  "
Intake Summary:
" +:+
  json_dumps_indent2 intake_a +:+
  "

USER B: " +:+
  display_name user_b +:+
  "
Bio: " +:+
  bio user_b +:+
  "
Intake Summary:
" +:+
  json_dumps_indent2 intake_b +:+
  "
" +:+
  quote_clause +:+
  "

Generate a match evaluation report with this structure:

VERDICT: [ACCEPT or REJECT]

REASONING:
" +:+
  BULLET +:+ " [Reason 1 grounded in intake summaries]
" +:+
  BULLET +:+ " [Reason 2 grounded in intake summaries]
" +:+
  BULLET +:+ " [Reason 3 grounded in intake summaries]

PREDICTED FRICTION POINT:
[One specific area where conflict might arise based on their profiles]

SUGGESTED FIRST DATE:
[One icebreaker activity or conversation starter that plays to their strengths]

Rules:
- Be specific and reference actual preferences/dealbreakers from the intake summaries
- ACCEPT if compatibility is strong; REJECT if dealbreakers conflict
- Keep it concise and demo-friendly
- Return plain text, not JSON
".

(** [score_date_exchange]. *)
Definition score_prompt (scene transcript_text : string) (intake_a intake_b : value) : string :=
  "You are scoring a first date exchange. Analyze the conversation and return a JSON score.

Scene: " +:+
  scene +:+
  "

Transcript:
" +:+
  transcript_text +:+
  "

Intake Summary A:
" +:+
  json_dumps_indent2 intake_a +:+
  "

Intake Summary B:
" +:+
  json_dumps_indent2 intake_b +:+
  "

Generate a JSON response with this EXACT structure:
{
  " +:+
  DQ +:+ "score_a" +:+ DQ +:+ ": <0-10 integer, how well A performed>,
  " +:+
  DQ +:+ "score_b" +:+ DQ +:+ ": <0-10 integer, how well B performed>,
  " +:+
  DQ +:+ "compatibility" +:+ DQ +:+ ": <0-100 integer, overall compatibility>,
  " +:+
  DQ +:+ "reasons" +:+ DQ +:+ ": [
    " +:+
  DQ +:+ "reason 1 grounded in behavior" +:+ DQ +:+ ",
    " +:+
  DQ +:+ "reason 2 grounded in behavior" +:+ DQ +:+ ",
    " +:+
  DQ +:+ "reason 3 grounded in behavior" +:+ DQ +:+ "
  ],
  " +:+
  DQ +:+ "quote" +:+ DQ +:+ ": " +:+ DQ +:+ "one short memorable quote from the transcript (under 100 chars)" +:+ DQ +:+ "
}

Rules:
- Return ONLY valid JSON, no markdown, no extra text
- Scores should reflect communication quality, boundary respect, and alignment with intake preferences
- Quote should be verbatim from transcript
".

(** [run_date_exchange]: 1) scene. *)
Definition scene_prompt (user_a user_b : User) : string :=
  "You are setting the scene for a first date between " +:+ display_name user_a +:+
  " and " +:+ display_name user_b +:+
  ".

Generate a 2-4 sentence scene description. Choose a setting (restaurant, coffee shop, park, art gallery, etc.) that feels natural for a first date. Be specific and atmospheric.

Return ONLY the scene description, no extra commentary.
".

(** [run_date_exchange]: 2) test moment. *)
Definition test_moment_prompt : string :=
  "Generate a brief test moment for a first date. This should be a minor awkward or challenging situation that reveals how people handle discomfort.

Examples:
- [The waiter brings the wrong order]
- [An awkward joke lands badly]
- [Someone's phone rings with an urgent call]
- [A minor disagreement about the menu]

Return ONLY the bracketed stage direction, keep it under 15 words.
".

(** [run_date_exchange]: 3) the system prompt of a turn. *)
Definition system_prompt (current_user : User) (current_intake : value) (scene running : string) : string :=
  "You are roleplaying as " +:+ display_name current_user +:+
  " on a first date.

Your profile:
- Bio: " +:+
  bio current_user +:+
  "
- Traits: " +:+
  PyStr.join ", " (traits current_user) +:+
  "
- Boundaries: " +:+
  PyStr.join ", " (boundaries current_user) +:+
  "

Your intake summary:
" +:+
  json_dumps_indent2 current_intake +:+
  "

Scene:
" +:+
  scene +:+
  "

Conversation so far:
" +:+
  running +:+
  "

Stay in character. Keep your response natural and conversational (2-4 sentences max).
".

(** [run_date_exchange]: 4) evaluator notes. *)
Definition notes_prompt (user_a user_b : User) (scene transcript_text : string) : string :=
  "You observed this first date exchange between " +:+ display_name user_a +:+
  " and " +:+ display_name user_b +:+
  ".

Scene: " +:+
  scene +:+
  "

Transcript:
" +:+
  transcript_text +:+
  "

Write 3 concise bullet-point observations about their interaction. Focus on:
- How they handled the test moment
- Communication styles and compatibility
- Red flags or green flags

Return ONLY the 3 bullets, no extra commentary.
".

(** [generate_pipeline_report]. *)
Definition pipeline_report_prompt (user_a user_b : User) (intake_a intake_b : value) (exchanges : list dict) (avg_compat avg_a avg_b : float) (quotes_text : string) : string :=
  "You are generating a final matchmaking pipeline report after observing " +:+ pretty (length exchanges) +:+
  " simulated date exchange(s).

USER A: " +:+
  display_name user_a +:+
  "
Intake Summary:
" +:+
  json_dumps_indent2 intake_a +:+
  "

USER B: " +:+
  display_name user_b +:+
  "
Intake Summary:
" +:+
  json_dumps_indent2 intake_b +:+
  "

AGGREGATE SCORES:
- Average Compatibility: " +:+
  format_1f avg_compat +:+
  "/100
- " +:+
  display_name user_a +:+
  " Performance: " +:+ format_1f avg_a +:+
  "/10
- " +:+
  display_name user_b +:+
  " Performance: " +:+ format_1f avg_b +:+
  "/10

MEMORABLE QUOTES FROM EXCHANGES:
" +:+
  quotes_text +:+
  "

Generate a final match evaluation report with this structure:

VERDICT: [ACCEPT or REJECT]

REASONING:
" +:+
  BULLET +:+ " [Reason 1 - reference at least ONE quote from above]
" +:+
  BULLET +:+ " [Reason 2 - grounded in scores and intake summaries]
" +:+
  BULLET +:+ " [Reason 3 - grounded in scores and intake summaries]

PREDICTED FRICTION POINT:
[One specific area where conflict might arise]

SUGGESTED FIRST DATE:
[One icebreaker activity that plays to their strengths]

Rules:
- ACCEPT if avg compatibility >= 60, otherwise REJECT
- At least ONE bullet in REASONING must cite a quote
- Be specific and reference actual data
- Return plain text, not JSON
".

(** [_generate_delta_insight]. *)
Definition delta_insight_prompt (user_a user_b : User) (intake_a intake_b : value) (scene transcript_text notes_text : string) : string :=
  "You are the neutral evaluator. Produce a short " +:+ DQ +:+ "delta insight" +:+ DQ +:+ " connecting intake expectations to observed behavior.

Scene:
" +:+
  scene +:+
  "

Intake A (" +:+
  display_name user_a +:+
  "):
" +:+
  json_dumps_indent2 intake_a +:+
  "

Intake B (" +:+
  display_name user_b +:+
  "):
" +:+
  json_dumps_indent2 intake_b +:+
  "

Observed transcript:
" +:+
  transcript_text +:+
  "

Evaluator notes:
" +:+
  notes_text +:+
  "

Return EXACTLY this structure (plain text, no markdown):

A_DELTA: <1 sentence: one intake expectation vs one observed behavior>
B_DELTA: <1 sentence: one intake expectation vs one observed behavior>
SHARED_SIGNAL: <1 sentence: what the interaction suggests about compatibility>

Rules:
- Reference at least one concrete behavior from the transcript in each DELTA.
- Keep each line under ~180 characters.
".

(** [_write_matchmaker_reflection]. *)
Definition reflection_prompt (self_user other_user : User) (self_intake : value) (scene transcript_text : string) : string :=
  "You are the MatchmakerAgent advocating for " +:+ display_name self_user +:+
  ".

Their intake summary (what they want / avoid):
" +:+
  json_dumps_indent2 self_intake +:+
  "

They just went on a simulated first date with " +:+
  display_name other_user +:+
  ".

Scene:
" +:+
  scene +:+
  "

Transcript:
" +:+
  transcript_text +:+
  "

Write a short advocate reflection with EXACTLY this structure (plain text, no markdown):

GREEN_FLAGS:
- <bullet 1 grounded in transcript>
- <bullet 2 grounded in transcript>

CONCERNS:
- <bullet 1 grounded in transcript and tied to a dealbreaker or boundary>
- <bullet 2 grounded in transcript and tied to a preference mismatch>

NEXT_QUESTION:
<one follow-up question you would ask " +:+
  display_name self_user +:+
  " in a real intake>

Rules:
- Keep bullets crisp and specific.
- Cite at least one direct behavior or line from the transcript in GREEN_FLAGS and CONCERNS.
".

(** [_generate_next_question]. *)
Definition next_question_prompt (prev_question prev_answer : string) (step_index : Z) : string :=
  "You are conducting a dating intake interview. Generate the next question (question #" +:+ pretty (step_index + 1) +:+
  " of 5).

Previous question: " +:+
  prev_question +:+
  "
Their answer: " +:+
  prev_answer +:+
  "

Generate a follow-up question that:
1) References their previous answer in ONE sentence (adaptive feel)
2) Stays short and conversational
3) Explores a different aspect of dating/relationships (values, communication style, deal-breakers, lifestyle compatibility, emotional needs)
4) Is open-ended and encourages thoughtful response

Return ONLY the question text, no extra commentary.
".

End WithRuntime.
End Prompts.

(** ** app/openrouter_client.py *)

Module OpenRouter.
Section WithOutside.
Context `{Outside}.

(** [OpenRouterClient()]: the constructor reads two environment variables
    and raises [KeyError] at the first one that is not set. *)
Definition new : M OpenRouterClient :=
  match environ "OPENROUTER_API_KEY" with
  | None => raise (KeyError "OPENROUTER_API_KEY")
  | Some key =>
      match environ "OPENROUTER_MODEL" with
      | None => raise (KeyError "OPENROUTER_MODEL")
      | Some mdl => ret (mkClient key mdl "https://openrouter.ai/api/v1")
      end
  end.

(** [client.chat(messages, temperature)]: one request to the provider;
    the call is recorded with the place it was issued from. A call that
    fails raises what the outside world makes it raise: the error of the
    request, of the status, of decoding the body or of reading the answer
    out of it. *)
Definition chat (from : CallSite) (client : OpenRouterClient)
    (msgs : list (string * string)) (temp : float) : M string :=
  fun w =>
    let r := llm (length (calls w)) client msgs temp in
    let w' := set_calls (fun cs => cs ++ [mkCall from client msgs temp r]) w in
    match r with
    | Some s => (Ok s, w')
    | None => (Raise (llm_error (length (calls w)) client msgs temp), w')
    end.

(** [time.time()]. *)
Definition time_time : M float :=
  fun w => (Ok (clock (ticks w)), set_ticks S w).

End WithOutside.
End OpenRouter.

(** ** app/agents/matchmaker.py *)

Module Matchmaker.
Section WithRuntime.
Context `{PyRuntime} `{Outside}.

(** [extract_json(text)]: [None] when [json.loads] raises. *)
Definition extract_json (text : string) : option value :=
  let t := PyStr.strip text in
  (* Remove markdown code fences if present *)
  let t :=
    if PyStr.startswith t "```" then
      let lines := PyStr.splitlines t in
      let lines := match lines with [] => lines | _ :: rest => rest end in
      let lines :=
        match py_last lines with
        | Some l =>
            if PyStr.startswith (PyStr.strip l) "```"
            then removelast lines else lines
        | None => lines
        end in
      PyStr.strip (PyStr.join PyStr.NL lines)
    else t in
  (* Extract the first {...} block *)
  let start := PyStr.find "{" t in
  let end_ := PyStr.rfind "}" t in
  let t :=
    if negb (start =? -1) && negb (end_ =? -1) && (end_ >? start)
    then PyStr.slice t start (end_ + 1) else t in
  json_loads t.

(** [MatchmakerAgent(user_id, user_profile)]. *)
Definition init (uid : string) (user_profile : User) : MatchmakerAgent :=
  let memory := Mem.init in
  let memory := snd (Mem.set_metadata "user_id" (VStr uid) memory) in
  let memory := snd (Mem.set_metadata "profile" (value_of_user user_profile) memory) in
  mkMatchmaker ("Matchmaker_" +:+ uid)
               ("Advocate and simulator for user " +:+ uid)
               memory uid user_profile.

(** The agent a method runs on. *)
Definition self_of (self : string) : M MatchmakerAgent :=
  fun w =>
    match matchmakers w !! self with
    | Some a => (Ok a, w)
    | None => (Raise AttributeError, w)
    end.

(** [process(input_data)]: the placeholder. *)
Definition process (self : string) (input_data : dict) : M dict :=
  agent <- self_of self ;;
  let task_type := Dict.get_or "task_type" (VStr "unknown") input_data in
  ret [("agent", VStr (ma_name agent));
       ("user_id", VStr (ma_user_id agent));
       ("task_type", task_type);
       ("status", VStr "not_implemented");
       ("message",
        VStr ("MatchmakerAgent for " +:+ ma_user_id agent
              +:+ " received task: " +:+ py_str task_type))].

(** The [try] block of [run_intake_summary] and its [except] branch: the
    parsed object with its three defaults, or the fallback when
    [extract_json] raises or the parsed value is not a [dict]. *)
Definition summary_of (response_text : string) : dict :=
  match extract_json response_text with
  | Some (VDict summary) =>
      let summary := Dict.setdefault "preferences" (VList []) summary in
      let summary := Dict.setdefault "dealbreakers" (VList []) summary in
      let summary := Dict.setdefault "dating_thesis" (VStr EmptyString) summary in
      summary
  | _ =>
      [("preferences", VList [VStr "Unable to parse preferences"]);
       ("dealbreakers", VList [VStr "Unable to parse dealbreakers"]);
       ("dating_thesis", VStr (PyStr.take 240 (PyStr.strip response_text)))]
  end.

Definition intake_prompt (user : User) (extra_context : option string) : string :=
  let prompt := Prompts.intake_prompt_base user in
  let prompt :=
    match extra_context with
    | Some c =>
        if PyStr.nonempty c then prompt +:+ Prompts.intake_prompt_notes c
        else prompt
    | None => prompt
    end in
  prompt +:+ Prompts.intake_prompt_rules.

Definition intake_memory_text (user : User) (summary : dict) : string :=
  "Intake summary for " +:+ display_name user +:+ ": "
  +:+ json_dumps (VDict summary).

(** [run_intake_summary(openrouter_client, extra_context)]. *)
Definition run_intake_summary (self : string) (openrouter_client : OpenRouterClient)
    (extra_context : option string) : M dict :=
  agent <- self_of self ;;
  let user := ma_user_profile agent in
  let prompt := intake_prompt user extra_context in
  let msgs := [("user", prompt)] in
  response_text <- OpenRouter.chat IntakeSummary openrouter_client msgs 0.7%float ;;
  let summary := summary_of response_text in
  (* Store in agent memory *)
  let txt := intake_memory_text user summary in
  now <- OpenRouter.time_time ;;
  matchmaker_write self txt
    [("type", VStr "intake_summary");
     ("user_id", VStr (ma_user_id agent));
     ("timestamp", VFloat now)] ;;;
  ret summary.

End WithRuntime.
End Matchmaker.

(** ** app/agents/evaluator.py *)

(** A turn of the transcript: [{"speaker", "name", "text"}]. *)
Record Turn := mkTurn {
  speaker : string;
  name : string;
  said : string;
}.

Definition value_of_turn (t : Turn) : value :=
  VDict [("speaker", VStr (speaker t)); ("name", VStr (name t));
         ("text", VStr (said t))].

Module Evaluator.
Section WithRuntime.
Context `{PyRuntime} `{Outside}.

(** [NeutralEvaluatorAgent()]. *)
Definition init : NeutralEvaluatorAgent :=
  mkEvaluator "Agent#3_NeutralEvaluator"
              "Objective match evaluator and explainability provider"
              Mem.init.

(** [process(input_data)]: the placeholder. *)
Definition process (input_data : dict) : M dict :=
  fun w =>
    let task_type := Dict.get_or "task_type" (VStr "unknown") input_data in
    (Ok [("agent", VStr (ev_name (evaluator w)));
         ("task_type", task_type);
         ("status", VStr "not_implemented");
         ("message",
          VStr ("NeutralEvaluator received task: " +:+ py_str task_type))],
     w).

Definition no_intake_summary : value :=
  VDict [("preferences", VList [VStr "No intake summary available"]);
         ("dealbreakers", VList [VStr "No intake summary available"]);
         ("dating_thesis", VStr "No intake summary available")].

(** The body of [_extract_intake_summary] once the agent is known to have
    a memory. An entry is a [dict] of two keys, so [if entry:] holds for
    every entry. *)
Definition intake_summary_in (memory : Memory) : value :=
  let results := fst (Mem.search "Intake summary" 5 memory) in
  match py_last results with
  | Some entry =>
      let txt := text entry in
      let start := PyStr.find "{" txt in
      let end_ := PyStr.rfind "}" txt in
      if negb (start =? -1) && negb (end_ =? -1) && (end_ >? start) then
        match json_loads (PyStr.slice txt start (end_ + 1)) with
        | Some v => v
        | None => no_intake_summary
        end
      else no_intake_summary
  | None => no_intake_summary
  end.

(** [_extract_intake_summary(agent)]. *)
Definition _extract_intake_summary (agent : option string) : M value :=
  fun w =>
    match deref w agent with
    | None => (Ok no_intake_summary, w)
    | Some a => (Ok (intake_summary_in (ma_memory a)), w)
    end.

(** What [_extract_intake_summary(agent)] returns in a world. *)
Definition intake_of (w : World) (agent : option string) : value :=
  match deref w agent with
  | Some a => intake_summary_in (ma_memory a)
  | None => no_intake_summary
  end.

Definition transcript_text_of (transcript : list Turn) : string :=
  PyStr.join PyStr.NL (map (fun t => name t +:+ ": " +:+ said t) transcript).

(** The metadata of the entries about a pair of users, and of the entries
    about a partner. *)
Definition pair_metadata (type : string) (user_a user_b : User) (ts : float)
    : dict :=
  [("type", VStr type);
   ("user_a_id", VStr (user_id user_a));
   ("user_b_id", VStr (user_id user_b));
   ("timestamp", VFloat ts)].

Definition partner_metadata (type : string) (partner : User) (ts : float)
    : dict :=
  [("type", VStr type);
   ("partner_user_id", VStr (user_id partner));
   ("timestamp", VFloat ts)].

(** [f"{title}: {user_a['display_name']} x {user_b['display_name']}\n"],
    the first line of the evaluator's entries. *)
Definition headline (title : string) (user_a user_b : User) : string :=
  title +:+ ": " +:+ display_name user_a +:+ " " +:+ PyStr.TIMES +:+ " "
  +:+ display_name user_b +:+ PyStr.NL.

Definition date_exchange_text (partner : User) (scene transcript_text : string)
    : string :=
  "Date exchange with " +:+ display_name partner +:+ ":" +:+ PyStr.NL
  +:+ scene +:+ PyStr.NL +:+ PyStr.NL +:+ transcript_text.

Definition date_exchange_eval_text (user_a user_b : User)
    (scene transcript_text : string) (evaluator_notes : list string) : string :=
  headline "Date exchange" user_a user_b
  +:+ "Scene: " +:+ scene +:+ PyStr.NL
  +:+ "Transcript:" +:+ PyStr.NL +:+ transcript_text +:+ PyStr.NL
  +:+ "Notes: " +:+ PyStr.join "; " evaluator_notes.

Definition reflection_text (other_user : User) (reflection : string) : string :=
  "Matchmaker reflection after date with " +:+ display_name other_user
  +:+ ":" +:+ PyStr.NL +:+ reflection.

(** The [try] block of [score_date_exchange] and its [except] branch. *)
Definition score_of_response (response : string) : dict :=
  match Matchmaker.extract_json response with
  | Some (VDict score_data) =>
      let score_data := Dict.setdefault "score_a" (VInt 5) score_data in
      let score_data := Dict.setdefault "score_b" (VInt 5) score_data in
      let score_data := Dict.setdefault "compatibility" (VInt 50) score_data in
      let score_data :=
        Dict.setdefault "reasons" (VList [VStr "Unable to parse reasons"])
                        score_data in
      let score_data := Dict.setdefault "quote" (VStr EmptyString) score_data in
      score_data
  | _ =>
      [("score_a", VInt 5);
       ("score_b", VInt 5);
       ("compatibility", VInt 50);
       ("reasons", VList [VStr "Scoring failed - unable to parse LLM response"]);
       ("quote", VStr EmptyString)]
  end.

(** [score_date_exchange(scene, transcript, intake_a, intake_b, client)]. *)
Definition score_date_exchange (scene : string) (transcript : list Turn)
    (intake_a intake_b : value) (openrouter_client : OpenRouterClient) : M dict :=
  let transcript_text := transcript_text_of transcript in
  let prompt := Prompts.score_prompt scene transcript_text intake_a intake_b in
  response <- OpenRouter.chat ScoreDate openrouter_client [("user", prompt)]
                0.5%float ;;
  ret (score_of_response response).

(** ["\n".join([f"- {n}" for n in (evaluator_notes or [])]) or
    "- (no notes)"]. *)
Definition notes_text_of (evaluator_notes : list string) : string :=
  let joined :=
    PyStr.join PyStr.NL (map (fun n => "- " +:+ n) evaluator_notes) in
  if PyStr.nonempty joined then joined else "- (no notes)".

(** [_generate_delta_insight(...)]. *)
Definition _generate_delta_insight (user_a user_b : User)
    (intake_a intake_b : value) (scene transcript_text : string)
    (evaluator_notes : list string) (openrouter_client : OpenRouterClient)
    : M string :=
  let notes_text := notes_text_of evaluator_notes in
  let prompt :=
    Prompts.delta_insight_prompt user_a user_b intake_a intake_b scene
      transcript_text notes_text in
  try_except
    (out <- OpenRouter.chat DeltaInsight openrouter_client [("user", prompt)]
              0.5%float ;;
     ret (PyStr.strip out))
    (ret EmptyString).

(** [_write_matchmaker_reflection(agent, ...)]. *)
Definition _write_matchmaker_reflection (agent : option string)
    (self_user other_user : User) (self_intake : value)
    (scene transcript_text : string) (openrouter_client : OpenRouterClient)
    (timestamp : float) : M string :=
  fun w =>
    match agent, deref w agent with
    | Some ref, Some _ =>
        let prompt :=
          Prompts.reflection_prompt self_user other_user self_intake scene
            transcript_text in
        try_except
          (reflection <- OpenRouter.chat Reflection openrouter_client
                           [("user", prompt)] 0.6%float ;;
           let reflection := PyStr.strip reflection in
           matchmaker_write ref (reflection_text other_user reflection)
             (partner_metadata "matchmaker_reflection" other_user timestamp) ;;;
           ret reflection)
          (ret EmptyString)
          w
    | _, _ => (Ok EmptyString, w)
    end.

(** [if agent and hasattr(agent, "memory"): agent.memory.write(...)]. *)
Definition write_if_present (agent : option string) (txt : string) (md : dict)
    : M unit :=
  fun w =>
    match agent, deref w agent with
    | Some ref, Some _ => matchmaker_write ref txt md w
    | _, _ => (Ok tt, w)
    end.

(** The user prompt of a dialogue turn. *)
Definition user_prompt (test_moment : string) (turn : nat) : string :=
  if (turn =? 2)%nat
  then test_moment +:+ PyStr.NL +:+ "Respond naturally to what just happened."
  else "Continue the conversation naturally.".

(** The body of the loop [for turn in range(6)]; the loop carries the
    transcript and the running text. *)
Definition dialogue_turn (user_a user_b : User) (intake_a intake_b : value)
    (scene test_moment : string) (openrouter_client : OpenRouterClient)
    (turn : nat) (st : list Turn * string) : M (list Turn * string) :=
  let '(transcript, running) := st in
  let is_user_a := (turn mod 2 =? 0)%nat in
  let current_user := if is_user_a then user_a else user_b in
  let current_intake := if is_user_a then intake_a else intake_b in
  let speaker_label := if is_user_a then "A" else "B" in
  let system_prompt :=
    Prompts.system_prompt current_user current_intake scene running in
  response <- OpenRouter.chat (DialogueTurn turn) openrouter_client
                [("system", system_prompt);
                 ("user", user_prompt test_moment turn)]
                0.7%float ;;
  let response := PyStr.strip response in
  ret (transcript ++ [mkTurn speaker_label (display_name current_user) response],
       running +:+ display_name current_user +:+ ": " +:+ response
       +:+ PyStr.NL).

(** The comprehension that turns the notes response into at most three
    notes. The bullet U+2022 that [lstrip] also removes lies outside the
    alphabet. *)
Definition evaluator_notes_of (notes_response : string) : list string :=
  firstn 3
    (map (fun line => PyStr.strip (PyStr.lstrip_chars "-*" (PyStr.strip line)))
       (List.filter
          (fun line =>
             PyStr.nonempty (PyStr.strip line)
             && negb (PyStr.startswith (PyStr.strip line) "#"))
          (PyStr.split "010"%char (PyStr.strip notes_response)))).

(** [test_moment], bracketed when the model did not bracket it. *)
Definition bracketed (test_moment : string) : string :=
  let test_moment := PyStr.strip test_moment in
  if negb (PyStr.startswith test_moment "[")
  then "[" +:+ test_moment +:+ "]" else test_moment.

(** [run_date_exchange(user_a, agent_a, user_b, agent_b, client)]. *)
Definition run_date_exchange (user_a : User) (agent_a : option string)
    (user_b : User) (agent_b : option string)
    (openrouter_client : OpenRouterClient) : M dict :=
  intake_a <- _extract_intake_summary agent_a ;;
  intake_b <- _extract_intake_summary agent_b ;;
  (* 1) Scene *)
  scene <- OpenRouter.chat Scene openrouter_client
             [("user", Prompts.scene_prompt user_a user_b)] 0.7%float ;;
  let scene := PyStr.strip scene in
  (* 2) Test moment *)
  test_moment <- OpenRouter.chat TestMoment openrouter_client
                   [("user", Prompts.test_moment_prompt)] 0.8%float ;;
  let test_moment := bracketed test_moment in
  (* 3) Conversation (6 turns) *)
  st <- for_each (seq 0 6)
          (dialogue_turn user_a user_b intake_a intake_b scene test_moment
             openrouter_client)
          ([], EmptyString) ;;
  let transcript := fst st in
  let transcript_text := transcript_text_of transcript in
  (* 4) Evaluator notes *)
  notes_response <- OpenRouter.chat EvaluatorNotes openrouter_client
                      [("user",
                        Prompts.notes_prompt user_a user_b scene transcript_text)]
                      0.6%float ;;
  let evaluator_notes := evaluator_notes_of notes_response in
  ts <- OpenRouter.time_time ;;
  (* Improvement #1 (Delta Insight) *)
  delta_insight <- _generate_delta_insight user_a user_b intake_a intake_b
                     scene transcript_text evaluator_notes openrouter_client ;;
  when (PyStr.nonempty delta_insight)
    (evaluator_write
       (headline "Delta insight" user_a user_b +:+ delta_insight)
       (pair_metadata "date_delta_insight" user_a user_b ts)) ;;;
  (* Store date exchange in each matchmaker memory *)
  write_if_present agent_a
    (date_exchange_text user_b scene transcript_text)
    (partner_metadata "date_exchange" user_b ts) ;;;
  write_if_present agent_b
    (date_exchange_text user_a scene transcript_text)
    (partner_metadata "date_exchange" user_a ts) ;;;
  evaluator_write
    (date_exchange_eval_text user_a user_b scene transcript_text evaluator_notes)
    (pair_metadata "date_exchange_eval" user_a user_b ts) ;;;
  (* Improvement #2 (Matchmaker Reflections) *)
  reflection_a <- _write_matchmaker_reflection agent_a user_a user_b intake_a
                    scene transcript_text openrouter_client ts ;;
  reflection_b <- _write_matchmaker_reflection agent_b user_b user_a intake_b
                    scene transcript_text openrouter_client ts ;;
  let reflections :=
    Dict.set (user_id user_b) (VStr reflection_b)
      [(user_id user_a, VStr reflection_a)] in
  (* 5) Score *)
  score <- score_date_exchange scene transcript intake_a intake_b
             openrouter_client ;;
  evaluator_write
    (headline "Date score" user_a user_b +:+ json_dumps_indent2 (VDict score))
    (pair_metadata "date_score" user_a user_b ts) ;;;
  ret [("scene", VStr scene);
       ("transcript", VList (map value_of_turn transcript));
       ("evaluator_notes", VList (map VStr evaluator_notes));
       ("delta_insight", VStr delta_insight);
       ("reflections", VDict reflections);
       ("score", VDict score)].

(** [e.get("score") or {}]. *)
Definition score_or_empty (e : dict) : value :=
  match Dict.get "score" e with
  | Some v => if truthy v then v else VDict []
  | None => VDict []
  end.

(** [s.get(k, default)] on a value: only a [dict] has [get]. *)
Definition value_get (k : string) (default : value) (s : value) : outcome value :=
  match s with
  | VDict d => Ok (Dict.get_or k default d)
  | _ => Raise AttributeError
  end.

(** [[float(s.get(k, 0)) for s in scores]]. *)
Fixpoint floats_of (k : string) (scores : list value) : outcome (list float) :=
  match scores with
  | [] => Ok []
  | s :: rest =>
      match value_get k (VInt 0) s with
      | Raise e => Raise e
      | Ok v =>
          match py_float v with
          | None => Raise ConversionError
          | Some f =>
              match floats_of k rest with
              | Ok fs => Ok (f :: fs)
              | Raise e => Raise e
              end
          end
      end
  end.

(** [sum(vals) / len(vals) if vals else 0.0]. *)
Definition average (vals : list float) : float :=
  match vals with
  | [] => 0%float
  | _ => (py_sum vals / PrimFloat.of_uint63 (Uint63.of_Z (Z.of_nat (length vals))))%float
  end.

(** [[s.get("quote", "") for s in scores if s.get("quote")]]. *)
Fixpoint quotes_of (scores : list value) : outcome (list value) :=
  match scores with
  | [] => Ok []
  | s :: rest =>
      match value_get "quote" VNone s, value_get "quote" (VStr EmptyString) s with
      | Ok c, Ok q =>
          match quotes_of rest with
          | Ok qs => Ok (if truthy c then q :: qs else qs)
          | Raise e => Raise e
          end
      | Raise e, _ | _, Raise e => Raise e
      end
  end.

Definition lift {A} (o : outcome A) : M A := fun w => (o, w).

(** [generate_pipeline_report(user_a, agent_a, user_b, agent_b, exchanges,
    client)]. *)
Definition generate_pipeline_report (user_a : User) (agent_a : option string)
    (user_b : User) (agent_b : option string) (exchanges : list dict)
    (openrouter_client : OpenRouterClient) : M string :=
  intake_a <- _extract_intake_summary agent_a ;;
  intake_b <- _extract_intake_summary agent_b ;;
  let scores := map score_or_empty exchanges in
  compat_vals <- lift (floats_of "compatibility" scores) ;;
  a_vals <- lift (floats_of "score_a" scores) ;;
  b_vals <- lift (floats_of "score_b" scores) ;;
  let avg_compat := average compat_vals in
  let avg_a := average a_vals in
  let avg_b := average b_vals in
  quotes <- lift (quotes_of scores) ;;
  let quotes_text :=
    match quotes with
    | [] => "- (no quote extracted)"
    | _ =>
        PyStr.join PyStr.NL
          (map (fun q => "- " +:+ PyStr.DQ +:+ py_str q +:+ PyStr.DQ)
               (firstn 3 quotes))
    end in
  let prompt :=
    Prompts.pipeline_report_prompt user_a user_b intake_a intake_b exchanges
      avg_compat avg_a avg_b quotes_text in
  report <- OpenRouter.chat PipelineReport openrouter_client [("user", prompt)]
              0.6%float ;;
  now <- OpenRouter.time_time ;;
  evaluator_write
    (headline "Pipeline report" user_a user_b +:+ PyStr.strip report)
    (pair_metadata "pipeline_report" user_a user_b now) ;;;
  ret (PyStr.strip report).

(** The loop of [collect] in [_extract_latest_date_exchange] over the
    entries of one agent. *)
Fixpoint collect_loop (partner_id : string) (es : list entry)
    (candidates : list (float * string)) : outcome (list (float * string)) :=
  match es with
  | [] => Ok candidates
  | e :: rest =>
      let md := metadata e in
      if negb (py_eq (Dict.get_or "type" VNone md) (VStr "date_exchange")) then
        collect_loop partner_id rest candidates
      else if truthy (Dict.get_or "partner_user_id" VNone md)
              && negb (py_eq (Dict.get_or "partner_user_id" VNone md)
                             (VStr partner_id)) then
        collect_loop partner_id rest candidates
      else
        let stamp := Dict.get_or "timestamp" VNone md in
        match py_float (if truthy stamp then stamp else VFloat 0%float) with
        | None => Raise ConversionError
        | Some ts =>
            let txt := text e in
            if PyStr.nonempty txt
            then collect_loop partner_id rest (candidates ++ [(ts, txt)])
            else collect_loop partner_id rest candidates
        end
  end.

Definition collect (w : World) (agent : option string) (partner_id : string)
    (candidates : list (float * string)) : outcome (list (float * string)) :=
  match deref w agent with
  | None => Ok candidates
  | Some a =>
      collect_loop partner_id (fst (Mem.all (ma_memory a))) candidates
  end.

(** [_extract_latest_date_exchange(agent_a, agent_b, user_a, user_b)]. *)
Definition _extract_latest_date_exchange (agent_a agent_b : option string)
    (user_a user_b : User) : M (option string) :=
  fun w =>
    match collect w agent_a (user_id user_b) [] with
    | Raise e => (Raise e, w)
    | Ok candidates =>
        match collect w agent_b (user_id user_a) candidates with
        | Raise e => (Raise e, w)
        | Ok candidates =>
            match candidates with
            | [] => (Ok None, w)
            | _ => (Ok (snd <$> py_last (py_sort_by_key candidates)), w)
            end
        end
    end.

(** [_extract_short_quote(exchange_text, max_len)]. *)
Definition _extract_short_quote (exchange_text : string) (max_len : Z) : string :=
  let lines :=
    map PyStr.strip
      (List.filter (PyStr.contains ":") (PyStr.splitlines exchange_text)) in
  let q :=
    match py_last lines with
    | Some l => l
    | None => PyStr.strip exchange_text
    end in
  let q := PyStr.join " " (PyStr.words q) in
  if Z.of_nat (String.length q) >? max_len
  then PyStr.rstrip (PyStr.slice q 0 (max_len - 1)) +:+ PyStr.ELLIPSIS
  else q.

(** [generate_match_report(user_a, agent_a, user_b, agent_b, client)]. *)
Definition generate_match_report (user_a : User) (agent_a : option string)
    (user_b : User) (agent_b : option string)
    (openrouter_client : OpenRouterClient) : M string :=
  intake_a <- _extract_intake_summary agent_a ;;
  intake_b <- _extract_intake_summary agent_b ;;
  exch <- _extract_latest_date_exchange agent_a agent_b user_a user_b ;;
  let exch_quote :=
    match exch with
    | Some e => if PyStr.nonempty e then Some (_extract_short_quote e 160) else None
    | None => None
    end in
  let quote_clause :=
    match exch_quote with
    | Some q =>
        if PyStr.nonempty q then PyStr.rstrip (Prompts.quote_clause_text q)
        else EmptyString
    | None => EmptyString
    end in
  let prompt :=
    Prompts.match_report_prompt user_a user_b intake_a intake_b quote_clause in
  report <- OpenRouter.chat MatchReport openrouter_client [("user", prompt)]
              0.7%float ;;
  now <- OpenRouter.time_time ;;
  evaluator_write
    (headline "Match evaluation" user_a user_b +:+ report)
    (pair_metadata "match_report" user_a user_b now) ;;;
  ret (PyStr.strip report).

End WithRuntime.
End Evaluator.

(** ** app/users.py and app/registry.py *)

Module Registry.

(** [get_demo_users()]. *)
Definition get_demo_users : list User :=
  [ mkUser "user_001" "Jordan"
      "Software engineer who values direct communication and emotional honesty. Loves hiking, board games, and deep conversations over coffee."
      ["Direct communicator"; "Values clarity and honesty";
       "Introverted but warm"; "Analytical thinker"; "Loyal and committed";
       "Enjoys structured plans"]
      ["No public embarrassment or being put on the spot";
       "Needs alone time to recharge";
       "Prefers addressing conflicts directly rather than avoiding them"]
      "Partner-inspired profile with direct conflict style and sensitivity to public embarrassment";
    mkUser "user_002" "Alex"
      "Creative designer who loves spontaneity and adventure. Enjoys live music, trying new restaurants, and weekend road trips."
      ["Spontaneous and adventurous"; "Emotionally expressive";
       "Extroverted and social"; "Creative problem solver";
       "Optimistic outlook"; "Loves surprises and novelty"]
      ["Needs freedom and independence"; "Dislikes rigid schedules";
       "Values emotional connection over logic"]
      "Foil profile - surface compatible with Jordan but fails in simulation due to conflict avoidance vs. directness mismatch";
    mkUser "user_003" "Sam"
      "Therapist who brings empathy and patience to relationships. Enjoys reading, yoga, and meaningful one-on-one time."
      ["Empathetic listener"; "Patient and understanding";
       "Values emotional intelligence"; "Calm under pressure";
       "Enjoys deep connections"; "Thoughtful and reflective"]
      ["No passive-aggressive behavior"; "Needs emotional reciprocity";
       "Values vulnerability and openness"]
      "Potentially strong match with Jordan - both value directness and emotional honesty" ].

Section WithRuntime.
Context `{PyRuntime} `{Outside}.

(** [AgentRegistry()]: one matchmaker per demo user, one evaluator; no
    session has been started and nothing has been asked yet. *)
Definition initial : World :=
  let us := get_demo_users in
  mkWorld us
    (fold_left
       (fun ms u => <[user_id u := Matchmaker.init (user_id u) u]> ms)
       us ∅)
    Evaluator.init ∅ [] 0%nat 0%nat.

(** [get_user(user_id)]. *)
Definition get_user (uid : string) : M (option User) :=
  fun w => (Ok (List.find (fun u => String.eqb (user_id u) uid) (users w)), w).

(** [get_matchmaker(user_id)]: a reference to the agent, when there is
    one. *)
Definition get_matchmaker (uid : string) : M (option string) :=
  fun w =>
    (Ok match matchmakers w !! uid with Some _ => Some uid | None => None end,
     w).

End WithRuntime.
End Registry.

(** ** app/main.py *)

Module Main.
Section WithRuntime.
Context `{PyRuntime} `{Outside}.

(** [_agent_has_intake_summary(agent)]. *)
Definition _agent_has_intake_summary (agent : option string) : M bool :=
  fun w =>
    match deref w agent with
    | None => (Ok false, w)
    | Some a =>
        let mem := ma_memory a in
        if existsb
             (fun e => py_eq (Dict.get_or "type" VNone (metadata e))
                             (VStr "intake_summary"))
             (rev (fst (Mem.all mem)))
        then (Ok true, w)
        else
          match fst (Mem.search "Intake summary" 1 mem) with
          | [] => (Ok false, w)
          | _ => (Ok true, w)
          end
    end.

(** The lookups every endpoint on a pair of users starts with. *)
Definition user_or_404 (uid : string) : M User :=
  user <- Registry.get_user uid ;;
  match user with
  | Some u => ret u
  | None => raise (HTTPException 404 ("User " +:+ uid +:+ " not found"))
  end.

Definition matchmaker_or_404 (uid : string) (what : string) : M (option string) :=
  agent <- Registry.get_matchmaker uid ;;
  match agent with
  | Some _ => ret agent
  | None => raise (HTTPException 404 (what +:+ uid +:+ " not found"))
  end.

(** [POST /api/intake/{user_id}]. *)
Definition create_intake (uid : string) : M dict :=
  _ <- user_or_404 uid ;;
  _ <- matchmaker_or_404 uid "Matchmaker agent for " ;;
  client <- OpenRouter.new ;;
  summary <- Matchmaker.run_intake_summary uid client None ;;
  ret [("user_id", VStr uid); ("summary", VDict summary)].

(** [if not _agent_has_intake_summary(agent): await
    agent.run_intake_summary(client)]. *)
Definition ensure_intake (agent : option string) (client : OpenRouterClient)
    : M unit :=
  has <- _agent_has_intake_summary agent ;;
  if has then ret tt
  else
    match agent with
    | Some ref => _ <- Matchmaker.run_intake_summary ref client None ;; ret tt
    | None => raise AttributeError
    end.

(** [POST /api/report/{user_a_id}/{user_b_id}]. *)
Definition generate_report (user_a_id user_b_id : string) : M dict :=
  user_a <- user_or_404 user_a_id ;;
  user_b <- user_or_404 user_b_id ;;
  agent_a <- matchmaker_or_404 user_a_id "Matchmaker for " ;;
  agent_b <- matchmaker_or_404 user_b_id "Matchmaker for " ;;
  client <- OpenRouter.new ;;
  report <- Evaluator.generate_match_report user_a agent_a user_b agent_b client ;;
  ret [("report", VStr report)].

(** [POST /api/date/exchange/{user_a_id}/{user_b_id}]. *)
Definition run_date_exchange (user_a_id user_b_id : string) : M dict :=
  user_a <- user_or_404 user_a_id ;;
  user_b <- user_or_404 user_b_id ;;
  agent_a <- matchmaker_or_404 user_a_id "Matchmaker for " ;;
  agent_b <- matchmaker_or_404 user_b_id "Matchmaker for " ;;
  client <- OpenRouter.new ;;
  ensure_intake agent_a client ;;;
  ensure_intake agent_b client ;;;
  Evaluator.run_date_exchange user_a agent_a user_b agent_b client.

(** The loop [for _ in range(3)] of [run_pipeline]. *)
Definition pipeline_round (user_a : User) (agent_a : option string)
    (user_b : User) (agent_b : option string) (client : OpenRouterClient)
    (_ : nat) (exchanges : list dict) : M (list dict) :=
  e <- Evaluator.run_date_exchange user_a agent_a user_b agent_b client ;;
  ret (exchanges ++ [e]).

(** [POST /api/pipeline/{user_a_id}/{user_b_id}]. *)
Definition run_pipeline (user_a_id user_b_id : string) : M dict :=
  user_a <- user_or_404 user_a_id ;;
  user_b <- user_or_404 user_b_id ;;
  agent_a <- matchmaker_or_404 user_a_id "Matchmaker for " ;;
  agent_b <- matchmaker_or_404 user_b_id "Matchmaker for " ;;
  client <- OpenRouter.new ;;
  ensure_intake agent_a client ;;;
  ensure_intake agent_b client ;;;
  exchanges <- for_each (seq 0 3)
                 (pipeline_round user_a agent_a user_b agent_b client) [] ;;
  final_report <- Evaluator.generate_pipeline_report user_a agent_a user_b
                    agent_b exchanges client ;;
  ret [("user_a_id", VStr user_a_id);
       ("user_b_id", VStr user_b_id);
       ("dates", VList (map VDict exchanges));
       ("final_report", VStr final_report)].

End WithRuntime.
End Main.

(** ** app/intake_live.py *)

(** What [submit_answer] returns. *)
Record Answer := mkAnswer {
  a_session_id : string;
  a_question : option string;
  a_step_index : Z;
  a_is_complete : bool;
  a_final_summary : option dict;
}.

Module IntakeLive.

Definition _FALLBACK_QUESTIONS : list string :=
  [ "How do you like to handle conflict or tension when it comes up with a partner?";
    "What are your biggest dealbreakers or red flags in dating?";
    "What does a great week in a relationship look like for you (time together vs. alone, routines, etc.)?";
    "What kind of emotional support do you like to give and receive?" ].

Definition first_question : string :=
  "What matters most to you in a romantic relationship, and how would you describe your ideal relationship dynamic?".

Section WithRuntime.
Context `{PyRuntime} `{Outside}.

(** [start_session(user_id)]: the new session's id, its first question
    and step index. *)
Definition start_session (uid : string) : M (string * string * Z) :=
  fun w =>
    let sid := uuid4 (uuids w) in
    let w := set_uuids S w in
    let now := clock (ticks w) in
    let w := set_ticks S w in
    let session := mkSession sid uid 0 [first_question] [] now false in
    (Ok (sid, first_question, 0), set_sessions (insert sid session) w).

(** The session dict is shared with [_sessions]: every assignment to it
    is an update of the store. *)
Definition store (sid : string) (s : Session) : M unit :=
  fun w => (Ok tt, set_sessions (insert sid s) w).

(** [_generate_next_question(questions, answers, step_index)]. *)
Definition _generate_next_question (qs ans : list string) (step : Z) : M string :=
  match py_last qs, py_last ans with
  | Some prev_question, Some prev_answer =>
      client <- OpenRouter.new ;;
      let prompt := Prompts.next_question_prompt prev_question prev_answer step in
      let fallback :=
        let fallback_idx :=
          Z.max 0 (Z.min (step - 1)
                         (Z.of_nat (length _FALLBACK_QUESTIONS) - 1)) in
        match py_index _FALLBACK_QUESTIONS fallback_idx with
        | Some q => ret q
        | None => raise IndexError
        end in
      attempt <- try_except
                   (next_question <- OpenRouter.chat NextQuestion client
                                       [("user", prompt)] 0.6%float ;;
                    ret (Some (PyStr.strip next_question)))
                   (ret None) ;;
      match attempt with
      | Some q => if PyStr.nonempty q then ret q else fallback
      | None => fallback
      end
  | _, _ => raise IndexError
  end.

(** [f"Q{i}: {q}\nA{i}: {a}"] over [enumerate(zip(questions, answers), 1)]. *)
Fixpoint qa_pairs_from (i : Z) (qs ans : list string) : list string :=
  match qs, ans with
  | q :: qs', a :: ans' =>
      ("Q" +:+ pretty i +:+ ": " +:+ q +:+ PyStr.NL
       +:+ "A" +:+ pretty i +:+ ": " +:+ a)
      :: qa_pairs_from (i + 1) qs' ans'
  | _, _ => []
  end.

Definition with_answer (a : string) (s : Session) : Session :=
  mkSession (session_id s) (s_user_id s) (step_index s) (questions s)
            (answers s ++ [a]) (created_at s) (is_complete s).

Definition with_step (n : Z) (s : Session) : Session :=
  mkSession (session_id s) (s_user_id s) n (questions s) (answers s)
            (created_at s) (is_complete s).

Definition completed (s : Session) : Session :=
  mkSession (session_id s) (s_user_id s) (step_index s) (questions s)
            (answers s) (created_at s) true.

Definition with_question (q : string) (s : Session) : Session :=
  mkSession (session_id s) (s_user_id s) (step_index s) (questions s ++ [q])
            (answers s) (created_at s) (is_complete s).

(** [if agent: agent.memory.write(text=f"Q: ...\nA: ...", metadata=...)],
    the note of a question and its answer in the agent's memory. *)
Definition note_answer (agent : option string) (sid current_question
    answer_text : string) (step : Z) : M unit :=
  match agent with
  | Some ref =>
      now <- OpenRouter.time_time ;;
      matchmaker_write ref
        ("Q: " +:+ current_question +:+ PyStr.NL +:+ "A: " +:+ answer_text)
        [("type", VStr "intake_live");
         ("session_id", VStr sid);
         ("step_index", VInt step);
         ("timestamp", VFloat now)]
  | None => ret tt
  end.

(** The final summary: a fixed dict without an agent, else the agent's
    intake summary with the questions and answers as extra context. *)
Definition final_summary_of (agent : option string) (extra_context : string)
    : M dict :=
  match agent with
  | None =>
      ret [("preferences", VList []);
           ("dealbreakers", VList []);
           ("dating_thesis", VStr "No agent available for this user.")]
  | Some ref =>
      client <- OpenRouter.new ;;
      Matchmaker.run_intake_summary ref client (Some extra_context)
  end.

(** [submit_answer(session_id, answer_text)]. *)
Definition submit_answer (sid answer_text : string) : M Answer :=
  found <- (fun w => (Ok (sessions w !! sid), w)) ;;
  match found with
  | None => raise (ValueError ("Session " +:+ sid +:+ " not found"))
  | Some session =>
      if is_complete session then
        raise (ValueError ("Session " +:+ sid +:+ " is already complete"))
      else
        (* Store the answer *)
        let session := with_answer answer_text session in
        store sid session ;;;
        (* Write Q/A to agent memory *)
        agent <- Registry.get_matchmaker (s_user_id session) ;;
        match py_index (questions session) (step_index session) with
        | None => raise IndexError
        | Some current_question =>
            note_answer agent sid current_question answer_text
              (step_index session) ;;;
            (* Move to next step *)
            let session := with_step (step_index session + 1) session in
            store sid session ;;;
            if step_index session >=? 5 then
              (* Completed all 5 questions -> finalize *)
              let session := completed session in
              store sid session ;;;
              let qa_pairs :=
                qa_pairs_from 1 (questions session) (answers session) in
              let extra_context :=
                PyStr.join (PyStr.NL +:+ PyStr.NL) qa_pairs in
              final_summary <- final_summary_of agent extra_context ;;
              ret (mkAnswer sid None (step_index session) true
                            (Some final_summary))
            else
              (* Otherwise generate next question (adaptive with fallback) *)
              next_question <- _generate_next_question (questions session)
                                 (answers session) (step_index session) ;;
              let session := with_question next_question session in
              store sid session ;;;
              ret (mkAnswer sid (Some next_question) (step_index session) false
                            None)
        end
  end.

(** [get_status(session_id)]. *)
Definition get_status (sid : string) : M dict :=
  found <- (fun w => (Ok (sessions w !! sid), w)) ;;
  match found with
  | None => raise (ValueError ("Session " +:+ sid +:+ " not found"))
  | Some session =>
      ret [("session_id", VStr (session_id session));
           ("user_id", VStr (s_user_id session));
           ("step_index", VInt (step_index session));
           ("total_questions", VInt 5);
           ("questions_answered", VInt (Z.of_nat (length (answers session))));
           ("is_complete", VBool (is_complete session));
           ("created_at", VFloat (created_at session))]
  end.

End WithRuntime.
End IntakeLive.
(** ** A runtime and an outside world to run the program on

    [Ref] implements the standard-library functions on the fragment the
    examples use: JSON documents whose numbers are integers and whose
    strings carry no [\u] escape, and comparisons that involve no float.
    Outside the fragment [json_loads] answers [None]. Every general
    statement below quantifies over the runtime; [Ref] only serves to
    evaluate the program on concrete inputs. *)

Module Ref.

Definition is_json_ws (c : ascii) : bool :=
  let n := PyStr.code c in ((n =? 32) || (n =? 9) || (n =? 10) || (n =? 13))%nat.

Fixpoint skip_ws (s : string) : string :=
  match s with
  | String c s' => if is_json_ws c then skip_ws s' else s
  | EmptyString => EmptyString
  end.

Definition is_digit (c : ascii) : bool :=
  let n := PyStr.code c in ((48 <=? n) && (n <=? 57))%nat.

Definition unescape (c : ascii) : option ascii :=
  let n := PyStr.code c in
  if ((n =? 34) || (n =? 92) || (n =? 47))%nat then Some c
  else if (n =? 98)%nat then Some (ascii_of_nat 8)
  else if (n =? 102)%nat then Some (ascii_of_nat 12)
  else if (n =? 110)%nat then Some (ascii_of_nat 10)
  else if (n =? 114)%nat then Some (ascii_of_nat 13)
  else if (n =? 116)%nat then Some (ascii_of_nat 9)
  else None.

(** The characters of a string literal after its opening quote. *)
Fixpoint string_body (s acc : string) : option (string * string) :=
  match s with
  | EmptyString => None
  | String c s' =>
      if (PyStr.code c =? 34)%nat then Some (acc, s')
      else if (PyStr.code c =? 92)%nat then
        match s' with
        | String e s'' =>
            match unescape e with
            | Some ch => string_body s'' (PyStr.snoc acc ch)
            | None => None
            end
        | EmptyString => None
        end
      else if (PyStr.code c <? 32)%nat then None
      else string_body s' (PyStr.snoc acc c)
  end.

Fixpoint digits (s : string) (acc : Z) : Z * string :=
  match s with
  | String c s' =>
      if is_digit c then digits s' (10 * acc + Z.of_nat (PyStr.code c - 48))
      else (acc, s)
  | EmptyString => (acc, s)
  end.

Definition starts_fraction (s : string) : bool :=
  match s with
  | String c _ =>
      let n := PyStr.code c in ((n =? 46) || (n =? 101) || (n =? 69))%nat
  | EmptyString => false
  end.

(** An integer literal without its sign: no leading zero, no fraction. *)
Definition natural (s : string) : option (Z * string) :=
  match s with
  | String c s' =>
      if (PyStr.code c =? 48)%nat then
        match s' with
        | String d _ =>
            if is_digit d || starts_fraction s' then None else Some (0, s')
        | EmptyString => Some (0, s')
        end
      else if is_digit c then
        let '(z, rest) := digits s 0 in
        if starts_fraction rest then None else Some (z, rest)
      else None
  | EmptyString => None
  end.

Definition after (p s : string) : option string :=
  if String.prefix p s
  then Some (String.substring (String.length p) (String.length s) s)
  else None.

Fixpoint elements (pv : string -> option (value * string)) (fuel : nat)
    (s : string) (acc : list value) : option (list value * string) :=
  match fuel with
  | O => None
  | S f =>
      match pv s with
      | None => None
      | Some (v, r) =>
          match skip_ws r with
          | String c r' =>
              if (PyStr.code c =? 44)%nat then elements pv f r' (acc ++ [v])
              else if (PyStr.code c =? 93)%nat then Some (acc ++ [v], r')
              else None
          | EmptyString => None
          end
      end
  end.

Fixpoint members (pv : string -> option (value * string)) (fuel : nat)
    (s : string) (acc : dict) : option (dict * string) :=
  match fuel with
  | O => None
  | S f =>
      match skip_ws s with
      | String q s1 =>
          if (PyStr.code q =? 34)%nat then
            match string_body s1 EmptyString with
            | None => None
            | Some (k, s2) =>
                match skip_ws s2 with
                | String c s3 =>
                    if (PyStr.code c =? 58)%nat then
                      match pv s3 with
                      | None => None
                      | Some (v, r) =>
                          match skip_ws r with
                          | String d r' =>
                              if (PyStr.code d =? 44)%nat
                              then members pv f r' (Dict.set k v acc)
                              else if (PyStr.code d =? 125)%nat
                              then Some (Dict.set k v acc, r')
                              else None
                          | EmptyString => None
                          end
                      end
                    else None
                | EmptyString => None
                end
            end
          else None
      | EmptyString => None
      end
  end.

Fixpoint parse_value (fuel : nat) (s : string) : option (value * string) :=
  match fuel with
  | O => None
  | S f =>
      let s := skip_ws s in
      match s with
      | EmptyString => None
      | String c s' =>
          let n := PyStr.code c in
          if (n =? 34)%nat then
            match string_body s' EmptyString with
            | Some (str, r) => Some (VStr str, r)
            | None => None
            end
          else if (n =? 91)%nat then
            match skip_ws s' with
            | String d r =>
                if (PyStr.code d =? 93)%nat then Some (VList [], r)
                else
                  match elements (parse_value f) (String.length s') s' [] with
                  | Some (l, r) => Some (VList l, r)
                  | None => None
                  end
            | EmptyString => None
            end
          else if (n =? 123)%nat then
            match skip_ws s' with
            | String d r =>
                if (PyStr.code d =? 125)%nat then Some (VDict [], r)
                else
                  match members (parse_value f) (String.length s') s' [] with
                  | Some (d, r) => Some (VDict d, r)
                  | None => None
                  end
            | EmptyString => None
            end
          else if (n =? 45)%nat then
            match natural s' with
            | Some (z, r) => Some (VInt (- z), r)
            | None => None
            end
          else
            match after "null" s, after "true" s, after "false" s with
            | Some r, _, _ => Some (VNone, r)
            | _, Some r, _ => Some (VBool true, r)
            | _, _, Some r => Some (VBool false, r)
            | _, _, _ =>
                match natural s with
                | Some (z, r) => Some (VInt z, r)
                | None => None
                end
            end
      end
  end.

(** [json.loads] on the fragment. *)
Definition json_loads (s : string) : option value :=
  match parse_value (S (String.length s)) s with
  | Some (v, r) =>
      match skip_ws r with
      | EmptyString => Some v
      | _ => None
      end
  | None => None
  end.

Definition hex_digit (n : nat) : string :=
  String.substring n 1 "0123456789abcdef".

Definition escape_char (c : ascii) : string :=
  let n := PyStr.code c in
  if (n =? 34)%nat then "\" +:+ PyStr.DQ
  else if (n =? 92)%nat then "\\"
  else if (n =? 10)%nat then "\n"
  else if (n =? 13)%nat then "\r"
  else if (n =? 9)%nat then "\t"
  else if (n =? 8)%nat then "\b"
  else if (n =? 12)%nat then "\f"
  else if ((n <? 32) || (127 <? n))%nat
  then "\u00" +:+ hex_digit (n / 16) +:+ hex_digit (n mod 16)
  else String c EmptyString.

Fixpoint escape (s : string) : string :=
  match s with
  | EmptyString => EmptyString
  | String c s' => escape_char c +:+ escape s'
  end.

Definition quoted (s : string) : string := PyStr.DQ +:+ escape s +:+ PyStr.DQ.

(** A float is outside the fragment; it prints as a token no example
    reads. *)
Definition float_token : string := "<float>".

(** [json.dumps(v)]. *)
Fixpoint json_dumps (v : value) : string :=
  match v with
  | VNone => "null"
  | VBool true => "true"
  | VBool false => "false"
  | VInt z => pretty z
  | VFloat _ => float_token
  | VStr s => quoted s
  | VList l => "[" +:+ PyStr.join ", " (map json_dumps l) +:+ "]"
  | VDict d =>
      "{" +:+ PyStr.join ", "
                (map (fun kv => quoted (fst kv) +:+ ": " +:+ json_dumps (snd kv)) d)
      +:+ "}"
  end.

Fixpoint spaces (n : nat) : string :=
  match n with O => EmptyString | S n' => " " +:+ spaces n' end.

(** [json.dumps(v, indent=2)] at a nesting level. *)
Fixpoint dumps_at (level : nat) (v : value) : string :=
  let inner := PyStr.NL +:+ spaces (2 * S level) in
  let close := PyStr.NL +:+ spaces (2 * level) in
  match v with
  | VList [] => "[]"
  | VDict [] => "{}"
  | VList l =>
      "[" +:+ inner
      +:+ PyStr.join ("," +:+ inner) (map (dumps_at (S level)) l)
      +:+ close +:+ "]"
  | VDict d =>
      "{" +:+ inner
      +:+ PyStr.join ("," +:+ inner)
            (map (fun kv => quoted (fst kv) +:+ ": " +:+ dumps_at (S level) (snd kv)) d)
      +:+ close +:+ "}"
  | _ => json_dumps v
  end.

Definition json_dumps_indent2 (v : value) : string := dumps_at 0 v.

(** [a == b] on the fragment: a [bool] compares as the integer it is, a
    [dict] regardless of the order of its keys. *)
Fixpoint py_eq (a b : value) : bool :=
  match a, b with
  | VNone, VNone => true
  | VBool x, VBool y => Bool.eqb x y
  | VBool x, VInt z | VInt z, VBool x => (if x then 1 else 0) =? z
  | VInt x, VInt y => x =? y
  | VFloat x, VFloat y => PrimFloat.eqb x y
  | VStr x, VStr y => String.eqb x y
  | VList x, VList y =>
      (fix eq_list (x y : list value) : bool :=
         match x, y with
         | [], [] => true
         | u :: x', v :: y' => py_eq u v && eq_list x' y'
         | _, _ => false
         end) x y
  | VDict x, VDict y =>
      (length x =? length y)%nat
      && (fix sub (x : dict) : bool :=
            match x with
            | [] => true
            | (k, u) :: x' =>
                match Dict.get k y with
                | Some v => py_eq u v && sub x'
                | None => false
                end
            end) x
  | _, _ => false
  end.

(** [str(v)] on the fragment: strings, integers, [None] and booleans. *)
Definition py_str (v : value) : string :=
  match v with
  | VStr s => s
  | VInt z => pretty z
  | VNone => "None"
  | VBool true => "True"
  | VBool false => "False"
  | _ => json_dumps v
  end.

(** [float(v)] on the fragment: floats, booleans and the integers a
    binary64 holds exactly. *)
Definition py_float (v : value) : option float :=
  match v with
  | VFloat f => Some f
  | VBool b => Some (if b then 1%float else 0%float)
  | VInt z =>
      if (0 <=? z) && (z <? 2 ^ 53) then Some (PrimFloat.of_uint63 (Uint63.of_Z z))
      else if (- 2 ^ 53 <? z) && (z <? 0)
      then Some (- PrimFloat.of_uint63 (Uint63.of_Z (- z)))%float
      else None
  | _ => None
  end.

Definition py_sum (xs : list float) : float :=
  fold_left PrimFloat.add xs 0%float.

Fixpoint insert_by_key (x : float * string) (l : list (float * string))
    : list (float * string) :=
  match l with
  | [] => [x]
  | y :: l' =>
      if PrimFloat.ltb (fst x) (fst y) then x :: l else y :: insert_by_key x l'
  end.

(** A stable sort by the key. *)
Definition py_sort_by_key (l : list (float * string)) : list (float * string) :=
  fold_left (fun acc x => insert_by_key x acc) l [].

(** [numerator / denominator] rounded to the nearest integer, a tie to
    the even one. *)
Definition round_half_even (num den : Z) : Z :=
  let q := num / den in
  let r := num mod den in
  if 2 * r <? den then q
  else if den <? 2 * r then q + 1
  else if Z.even q then q else q + 1.

(** [f"{x:.1f}"]: a finite float is its mantissa times a power of two,
    which is rounded at the first decimal. *)
Definition format_1f (x : float) : string :=
  let '(m, e) := PrimFloat.frshiftexp (PrimFloat.abs x) in
  let n := Uint63.to_Z (PrimFloat.normfr_mantissa m) in
  let e := Uint63.to_Z e - 2101 - 53 in
  let tenths :=
    if e <? 0 then round_half_even (10 * n) (2 ^ (- e)) else 10 * n * 2 ^ e in
  let digits := pretty (tenths / 10) +:+ "." +:+ pretty (tenths mod 10) in
  match PrimFloat.classify x with
  | NaN => "nan"
  | PInf => "inf"
  | NInf => "-inf"
  | PNormal | PSubn | PZero => digits
  | NNormal | NSubn | NZero => "-" +:+ digits
  end.

Definition runtime : PyRuntime :=
  Build_PyRuntime json_loads json_dumps json_dumps_indent2 py_eq py_str
                  py_float py_sum py_sort_by_key format_1f.

(** An outside world: the environment is set, the clock counts, the ids
    are numbered, and the provider is handed in. *)
Definition outside (answer : nat -> list (string * string) -> option string)
    : Outside :=
  {| environ := fun k =>
       if String.eqb k "OPENROUTER_API_KEY" then Some "key"
       else if String.eqb k "OPENROUTER_MODEL" then Some "model"
       else None;
     llm := fun n _ msgs _ => answer n msgs;
     llm_error := fun _ _ _ _ => HTTPError;
     clock := fun n => PrimFloat.of_uint63 (Uint63.of_Z (Z.of_nat n));
     uuid4 := fun n => "session-" +:+ pretty n |}.

Definition client : OpenRouterClient :=
  mkClient "key" "model" "https://openrouter.ai/api/v1".

End Ref.

(** ** Definitions that follow the words of the specification *)

Module Spec.

(** The entries of a memory whose text, lowercased, contains the query
    lowercased and stripped, in insertion order. *)
Definition matching (query : string) (m : Memory) : list entry :=
  List.filter
    (fun e => PyStr.contains (PyStr.strip (PyStr.lower query))
                             (PyStr.lower (text e)))
    (_entries m).

(** The index of the first occurrence of a character, if it occurs. *)
Fixpoint first_index (c : ascii) (s : string) : option nat :=
  match s with
  | EmptyString => None
  | String d s' =>
      if Ascii.eqb d c then Some O
      else match first_index c s' with Some i => Some (S i) | None => None end
  end.

(** The index of the last occurrence of a character, if it occurs. *)
Fixpoint last_index (c : ascii) (s : string) : option nat :=
  match s with
  | EmptyString => None
  | String d s' =>
      match last_index c s' with
      | Some j => Some (S j)
      | None => if Ascii.eqb d c then Some O else None
      end
  end.

(** "If a { occurs and the last } occurs after the first {, take the
    substring from the first { through the last }, otherwise keep the
    whole string." *)
Definition between_braces (t : string) : string :=
  match first_index "{" t, last_index "}" t with
  | Some i, Some j =>
      if (i <? j)%nat then String.substring i (j - i + 1) t else t
  | _, _ => t
  end.

(** "If the result starts with three backquotes, drop its first line and,
    when the last line [is a fence], also drop the last line, then strip
    again." *)
Definition without_fences (is_fence : string -> bool) (t : string) : string :=
  if PyStr.startswith t "```" then
    let lines := tail (PyStr.splitlines t) in
    let lines :=
      match py_last lines with
      | Some l => if is_fence l then removelast lines else lines
      | None => lines
      end in
    PyStr.strip (PyStr.join PyStr.NL lines)
  else t.

(** The text [extract_json] hands to [json.loads], as the claim words it:
    the last line is a fence when it starts with three backquotes. *)
Definition json_text (t : string) : string :=
  between_braces
    (without_fences (fun l => PyStr.startswith l "```") (PyStr.strip t)).

(** The same, a last line being a fence when it starts with three
    backquotes once stripped. *)
Definition json_text_lenient (t : string) : string :=
  between_braces
    (without_fences (fun l => PyStr.startswith (PyStr.strip l) "```")
                    (PyStr.strip t)).

(** The defaults of a score, the score of a failed parse, and the
    defaults and the fallback of an intake summary. *)
Definition score_defaults : dict :=
  [("score_a", VInt 5); ("score_b", VInt 5); ("compatibility", VInt 50);
   ("reasons", VList [VStr "Unable to parse reasons"]);
   ("quote", VStr EmptyString)].

Definition score_failure : dict :=
  [("score_a", VInt 5); ("score_b", VInt 5); ("compatibility", VInt 50);
   ("reasons", VList [VStr "Scoring failed - unable to parse LLM response"]);
   ("quote", VStr EmptyString)].

Definition summary_defaults : dict :=
  [("preferences", VList []); ("dealbreakers", VList []);
   ("dating_thesis", VStr EmptyString)].

Definition summary_fallback (response_text : string) : dict :=
  [("preferences", VList [VStr "Unable to parse preferences"]);
   ("dealbreakers", VList [VStr "Unable to parse dealbreakers"]);
   ("dating_thesis", VStr (PyStr.take 240 (PyStr.strip response_text)))].

(** A parsed object with the missing keys filled from the defaults: a key
    of the object keeps its value, a key of the defaults that the object
    lacks gets the default, and there is no other key. *)
Definition filled (defaults parsed result : dict) : Prop :=
  forall k,
    Dict.get k result
    = match Dict.get k parsed with
      | Some v => Some v
      | None => Dict.get k defaults
      end.

Section WithRuntime.
Context `{PyRuntime}.

(** The JSON embedded in a text: what lies from its first { through its
    last }, parsed; nothing when the braces are missing or out of order,
    or when the text between them does not parse. *)
Definition embedded_json (txt : string) : option value :=
  match first_index "{" txt, last_index "}" txt with
  | Some i, Some j =>
      if (i <? j)%nat then json_loads (String.substring i (j - i + 1) txt)
      else None
  | _, _ => None
  end.

(** The entries of a memory whose text contains "intake summary" whatever
    the case, oldest first. *)
Definition intake_entries (m : Memory) : list entry :=
  List.filter
    (fun e => PyStr.contains "intake summary" (PyStr.lower (text e)))
    (_entries m).

Definition no_intake_summary : value :=
  VDict [("preferences", VList [VStr "No intake summary available"]);
         ("dealbreakers", VList [VStr "No intake summary available"]);
         ("dating_thesis", VStr "No intake summary available")].

(** The summary read from a memory: the JSON embedded in the
    [min(n, 5)]-th oldest of its [n] intake entries, the fixed dict when
    there is no such entry or no JSON in it. *)
Definition intake_summary_of (m : Memory) : value :=
  let hits := intake_entries m in
  match nth_error hits (Nat.min (length hits) 5 - 1) with
  | Some e =>
      match embedded_json (text e) with
      | Some v => v
      | None => no_intake_summary
      end
  | None => no_intake_summary
  end.

End WithRuntime.

End Spec.

(** ** Concrete inputs *)

Module Sample.

(** A memory of two entries, both of which contain the letter a. *)
Definition two_notes : Memory :=
  mkMemory [Entry "a" []; Entry "ab" []] [].

(** A fenced answer whose closing fence is indented. *)
Definition indented_fence : string :=
  "```" +:+ PyStr.NL +:+ "[1]" +:+ PyStr.NL +:+ "  ```".

(** A provider that gives the same answer to every call. *)
Definition always (answer : string) : Outside :=
  Ref.outside (fun _ _ => Some answer).

(** A score that names one key only. *)
Definition partial_score : string :=
  "{" +:+ PyStr.DQ +:+ "score_a" +:+ PyStr.DQ +:+ ": 7}".

Definition jordan : User := hd (mkUser "" "" "" [] [] "") Registry.get_demo_users.

Definition alex : User :=
  hd (mkUser "" "" "" [] [] "") (tl Registry.get_demo_users).

(** The text of an intake entry whose summary carries its number. *)
Definition numbered_summary (n : Z) : entry :=
  Entry ("Intake summary for Jordan: {" +:+ PyStr.DQ +:+ "n" +:+ PyStr.DQ
         +:+ ": " +:+ pretty n +:+ "}")
        [("type", VStr "intake_summary")].

(** The registry after six intake summaries of the first user. *)
Definition six_summaries : World :=
  set_matchmakers
    (insert "user_001"
       (ma_set_memory
          (fun m => mkMemory (map numbered_summary [1; 2; 3; 4; 5; 6])
                             (_metadata m))
          (Matchmaker.init "user_001" jordan)))
    Registry.initial.

(** The registry after a live session of the first user was started and
    [n] answers were given to it. *)
Fixpoint answered (n : nat) : World :=
  match n with
  | O => snd (@IntakeLive.start_session (always "ok") "user_001"
                Registry.initial)
  | S k =>
      snd (@IntakeLive.submit_answer Ref.runtime (always "ok") "session-0"
             "yes" (answered k))
  end.

End Sample.

(** ** What a computation does to the world *)

Inductive effect : Type :=
  (** a chat call joins the history *)
  | Asked (c : Call)
  (** the clock is read *)
  | ReadClock
  (** the evaluator's memory gets an entry *)
  | EvaluatorWrote (e : entry)
  (** the memory of a matchmaker gets an entry *)
  | MatchmakerWrote (ref : string) (e : entry).

Definition remember (e : entry) (m : Memory) : Memory :=
  mkMemory (_entries m ++ [e]) (_metadata m).

Definition apply_effect (w : World) (f : effect) : World :=
  match f with
  | Asked c => set_calls (fun cs => cs ++ [c]) w
  | ReadClock => set_ticks S w
  | EvaluatorWrote e => set_evaluator (ev_set_memory (remember e)) w
  | MatchmakerWrote ref e =>
      match matchmakers w !! ref with
      | Some a => set_matchmakers (insert ref (ma_set_memory (remember e) a)) w
      | None => w
      end
  end.

(** The world after a list of effects. *)
Definition after (es : list effect) (w : World) : World :=
  fold_left apply_effect es w.

Definition asked (es : list effect) : list Call :=
  flat_map (fun f => match f with Asked c => [c] | _ => [] end) es.

Definition evaluator_wrote (es : list effect) : list entry :=
  flat_map (fun f => match f with EvaluatorWrote e => [e] | _ => [] end) es.

Definition matchmaker_wrote (ref : string) (es : list effect) : list entry :=
  flat_map
    (fun f =>
       match f with
       | MatchmakerWrote r e => if String.eqb r ref then [e] else []
       | _ => []
       end)
    es.

Definition clock_reads (es : list effect) : nat :=
  length (List.filter (fun f => match f with ReadClock => true | _ => false end) es).

Section WithOutside.
Context `{Outside}.

(** The call that [chat] records in a world. *)
Definition logged (from : CallSite) (client : OpenRouterClient)
    (msgs : list (string * string)) (temp : float) (w : World) : Call :=
  mkCall from client msgs temp (llm (length (calls w)) client msgs temp).

(** The calls of a list are what the provider answered when they are the
    calls number [n], [n + 1], ... of the process. *)
Definition honest (n : nat) (cs : list Call) : Prop :=
  forall k c,
    nth_error cs k = Some c ->
    reply c = llm (n + k) (client_of c) (messages c) (temperature c).

(** A computation step: the effects that lead from a world to the next,
    the calls among them answered by the provider. *)
Definition does (w : World) (es : list effect) (w' : World) : Prop :=
  w' = after es w /\ honest (length (calls w)) (asked es).

(** The provider answers every call. *)
Definition answers_all : Prop :=
  forall n client msgs temp, is_Some (llm n client msgs temp).

(** A computation that returns in every world. *)
Definition returns {A} (m : M A) : Prop :=
  forall w, exists a w', m w = (Ok a, w').

End WithOutside.

(** ** A date exchange as a function of what the provider answered *)

(** The answers one date exchange consumes: for the delta insight [None]
    is a call that raised; for a reflection [None] is no call (the agent is
    absent) and [Some None] a call that raised. *)
Record Replies := mkReplies {
  on_scene : string;
  on_test_moment : string;
  on_turns : list string;
  on_notes : string;
  on_delta : option string;
  on_reflection_a : option (option string);
  on_reflection_b : option (option string);
  on_score : string;
}.

Module Exchange.
Section WithRuntime.
Context `{PyRuntime}.

Variables (user_a user_b : User) (agent_a agent_b : option string).
Variables (intake_a intake_b : value) (client : OpenRouterClient) (ts : float).

Definition stripped (o : option string) : string :=
  match o with Some s => PyStr.strip s | None => EmptyString end.

Definition reflection_of (o : option (option string)) : string :=
  match o with Some r => stripped r | None => EmptyString end.

Definition asks (from : CallSite) (prompt : string) (temp : float)
    (answer : option string) : effect :=
  Asked (mkCall from client [("user", prompt)] temp answer).

Section Pieces.
Variables (scene test_moment transcript_text : string).

(** The turns from turn number [turn] on, given the answers: the calls
    asked and the transcript reached. *)
Fixpoint turns_from (turn : nat) (transcript : list Turn) (running : string)
    (replies : list string) : list Call * list Turn :=
  match replies with
  | [] => ([], transcript)
  | r :: rest =>
      let is_user_a := (turn mod 2 =? 0)%nat in
      let current_user := if is_user_a then user_a else user_b in
      let current_intake := if is_user_a then intake_a else intake_b in
      let c :=
        mkCall (DialogueTurn turn) client
          [("system",
            Prompts.system_prompt current_user current_intake scene running);
           ("user", Evaluator.user_prompt test_moment turn)]
          0.7%float (Some r) in
      let t :=
        mkTurn (if is_user_a then "A" else "B") (display_name current_user)
               (PyStr.strip r) in
      let '(cs, tr) :=
        turns_from (S turn) (transcript ++ [t])
          (running +:+ display_name current_user +:+ ": " +:+ PyStr.strip r
           +:+ PyStr.NL)
          rest in
      (c :: cs, tr)
  end.

(** The transcript that the answers to the turns [turn], [turn + 1], ...
    make: user A speaks at the even turns, and a turn says the answer,
    stripped. *)
Fixpoint spoken (turn : nat) (replies : list string) : list Turn :=
  match replies with
  | [] => []
  | r :: rest =>
      let is_user_a := (turn mod 2 =? 0)%nat in
      mkTurn (if is_user_a then "A" else "B")
             (display_name (if is_user_a then user_a else user_b))
             (PyStr.strip r)
      :: spoken (S turn) rest
  end.

(** A reflection: no call for an absent agent, else a call and, when it
    is answered, an entry in the agent's memory. *)
Definition reflection_effects (agent : option string)
    (self_user other_user : User) (self_intake : value)
    (o : option (option string)) : list effect :=
  match agent, o with
  | Some ref, Some answer =>
      asks Reflection
        (Prompts.reflection_prompt self_user other_user self_intake scene
           transcript_text)
        0.6%float answer
      :: match answer with
         | Some s =>
             [MatchmakerWrote ref
                (Entry (Evaluator.reflection_text other_user (PyStr.strip s))
                       (Evaluator.partner_metadata "matchmaker_reflection"
                          other_user ts))]
         | None => []
         end
  | _, _ => []
  end.

Definition stores (agent : option string) (partner : User) : list effect :=
  match agent with
  | Some ref =>
      [MatchmakerWrote ref
         (Entry (Evaluator.date_exchange_text partner scene transcript_text)
                (Evaluator.partner_metadata "date_exchange" partner ts))]
  | None => []
  end.

End Pieces.

Variable R : Replies.

Definition scene : string := PyStr.strip (on_scene R).

Definition test_moment : string := Evaluator.bracketed (on_test_moment R).

Definition turn_calls : list Call :=
  fst (turns_from scene test_moment 0 [] EmptyString (on_turns R)).

Definition transcript : list Turn :=
  snd (turns_from scene test_moment 0 [] EmptyString (on_turns R)).

Definition transcript_text : string := Evaluator.transcript_text_of transcript.

Definition evaluator_notes : list string :=
  Evaluator.evaluator_notes_of (on_notes R).

Definition delta_insight : string := stripped (on_delta R).

Definition score : dict := Evaluator.score_of_response (on_score R).

(** Everything the exchange does, in order. *)
Definition effects : list effect :=
  [asks Scene (Prompts.scene_prompt user_a user_b) 0.7%float (Some (on_scene R));
   asks TestMoment Prompts.test_moment_prompt 0.8%float
        (Some (on_test_moment R))]
  ++ map Asked turn_calls
  ++ [asks EvaluatorNotes
        (Prompts.notes_prompt user_a user_b scene transcript_text) 0.6%float
        (Some (on_notes R));
      ReadClock;
      asks DeltaInsight
        (Prompts.delta_insight_prompt user_a user_b intake_a intake_b scene
           transcript_text (Evaluator.notes_text_of evaluator_notes))
        0.5%float (on_delta R)]
  ++ (if PyStr.nonempty delta_insight
      then [EvaluatorWrote
              (Entry (Evaluator.headline "Delta insight" user_a user_b
                      +:+ delta_insight)
                     (Evaluator.pair_metadata "date_delta_insight" user_a
                        user_b ts))]
      else [])
  ++ stores scene transcript_text agent_a user_b
  ++ stores scene transcript_text agent_b user_a
  ++ [EvaluatorWrote
        (Entry (Evaluator.date_exchange_eval_text user_a user_b scene
                  transcript_text evaluator_notes)
               (Evaluator.pair_metadata "date_exchange_eval" user_a user_b ts))]
  ++ reflection_effects scene transcript_text agent_a user_a user_b intake_a
       (on_reflection_a R)
  ++ reflection_effects scene transcript_text agent_b user_b user_a intake_b
       (on_reflection_b R)
  ++ [asks ScoreDate
        (Prompts.score_prompt scene transcript_text intake_a intake_b)
        0.5%float (Some (on_score R));
      EvaluatorWrote
        (Entry (Evaluator.headline "Date score" user_a user_b
                +:+ json_dumps_indent2 (VDict score))
               (Evaluator.pair_metadata "date_score" user_a user_b ts))].

(** The dict the exchange returns. *)
Definition result : dict :=
  [("scene", VStr scene);
   ("transcript", VList (map value_of_turn transcript));
   ("evaluator_notes", VList (map VStr evaluator_notes));
   ("delta_insight", VStr delta_insight);
   ("reflections",
    VDict (Dict.set (user_id user_b) (VStr (reflection_of (on_reflection_b R)))
             [(user_id user_a, VStr (reflection_of (on_reflection_a R)))]));
   ("score", VDict score)].

(** The answers in the order they were given; an answer is [None] for a
    call that raised. *)
Definition answers : list (option string) :=
  [Some (on_scene R); Some (on_test_moment R)]
  ++ map Some (on_turns R)
  ++ [Some (on_notes R); on_delta R]
  ++ match on_reflection_a R with Some o => [o] | None => [] end
  ++ match on_reflection_b R with Some o => [o] | None => [] end
  ++ [Some (on_score R)].

End WithRuntime.
End Exchange.


(** ** Calls and state *)

Module Facade.

(** One for an agent that exists, zero for [None] or a reference to
    nothing. *)
Definition present (w : World) (agent : option string) : nat :=
  match deref w agent with Some _ => 1%nat | None => 0%nat end.

(** "Executing the operation issues exactly one chat call to the LLM
    provider and leaves the agent's state (its memory entries and metadata)
    unchanged." *)
Definition single_call_and_no_trace {A} (operation : M A) : Prop :=
  forall w,
    let w' := snd (operation w) in
    length (calls w') = S (length (calls w))
    /\ matchmakers w' = matchmakers w
    /\ evaluator w' = evaluator w.

End Facade.

(** ** The order of the calls *)

Module Order.



Section WithRuntime.
Context `{PyRuntime}.


End WithRuntime.
End Order.

(** ** The live-intake session as a state machine *)

Module Live.

(** "step_index equals the number of stored answers, the number of stored
    questions equals min(step_index + 1, 5), 0 <= step_index <= 5, and
    is_complete holds exactly when step_index = 5." *)
Definition session_inv (s : Session) : Prop :=
  step_index s = Z.of_nat (length (answers s))
  /\ Z.of_nat (length (questions s)) = Z.min (step_index s + 1) 5
  /\ 0 <= step_index s <= 5
  /\ (is_complete s = true <-> step_index s = 5).

(** The session after an answer was stored and the step moved on. *)
Definition advanced (answer_text : string) (s : Session) : Session :=
  IntakeLive.with_step (step_index s + 1) (IntakeLive.with_answer answer_text s).

Section WithRuntime.
Context `{PyRuntime} `{Outside}.

(** The worlds reached from one without sessions by starting sessions, by
    answers that [submit_answer] accepted, and by whatever else leaves the
    sessions alone. *)
Inductive reachable : World -> Prop :=
  | reach_fresh (w : World) :
      sessions w = ∅ -> reachable w
  | reach_start (w : World) (uid : string) :
      reachable w -> reachable (snd (IntakeLive.start_session uid w))
  | reach_answer (w w' : World) (sid answer_text : string) (r : Answer) :
      reachable w ->
      IntakeLive.submit_answer sid answer_text w = (Ok r, w') ->
      reachable w'
  | reach_other (w w' : World) :
      reachable w -> sessions w' = sessions w -> reachable w'.

(** Both environment variables of the client are set. *)
Definition configured : Prop :=
  is_Some (environ "OPENROUTER_API_KEY")
  /\ is_Some (environ "OPENROUTER_MODEL").

(** A computation that leaves the sessions alone, however it ends. *)
Definition keeps_sessions {A} (m : M A) : Prop :=
  forall w o w', m w = (o, w') -> sessions w' = sessions w.

(** A computation that leaves the agents that exist in existence. *)
Definition keeps_agents {A} (m : M A) : Prop :=
  forall w o w' ref,
    m w = (o, w') ->
    is_Some (matchmakers w !! ref) -> is_Some (matchmakers w' !! ref).



End WithRuntime.
End Live.

(** ** The memory store: what the lookups by metadata find *)

Module MemSpec.
Section WithRuntime.
Context `{PyRuntime}.

(** The entries that hold [v] under [key] in their metadata, in the order
    they were written. *)
Definition tagged (key : string) (v : value) (m : Memory) : list entry :=
  List.filter (fun e => py_eq (Dict.get_or key VNone (metadata e)) v)
              (_entries m).

End WithRuntime.
End MemSpec.
(** ** app/main.py: the live-intake endpoints *)

Module LiveRoutes.
Section WithRuntime.
Context `{PyRuntime} `{Outside}.

(** [try: m except ValueError as e: raise HTTPException(404, str(e))]. *)
Definition value_error_as_404 {A} (m : M A) : M A :=
  fun w =>
    match m w with
    | (Raise (ValueError msg), w') => (Raise (HTTPException 404 msg), w')
    | r => r
    end.

(** [POST /api/intake/live/start/{user_id}]. *)
Definition start_live_intake (uid : string) : M (string * string * Z) :=
  _ <- Main.user_or_404 uid ;;
  IntakeLive.start_session uid.

(** [POST /api/intake/live/answer/{session_id}]. *)
Definition submit_live_answer (sid answer_text : string) : M Answer :=
  let answer_text := PyStr.strip answer_text in
  if negb (PyStr.nonempty answer_text)
  then raise (HTTPException 400 "answer_text is required")
  else value_error_as_404 (IntakeLive.submit_answer sid answer_text).

(** [GET /api/intake/live/status/{session_id}]. *)
Definition get_live_intake_status (sid : string) : M dict :=
  value_error_as_404 (IntakeLive.get_status sid).

End WithRuntime.
End LiveRoutes.

(** ** Further concrete inputs *)

Module Scenario.

(** An outside world in which no environment variable is set. *)
Definition unset : Outside :=
  {| environ := fun _ => None;
     llm := fun _ _ _ _ => Some "ok";
     llm_error := fun _ _ _ _ => HTTPError;
     clock := fun n => PrimFloat.of_uint63 (Uint63.of_Z (Z.of_nat n));
     uuid4 := fun n => "session-" +:+ pretty n |}.

(** An outside world whose provider fails at every call. *)
Definition silent : Outside := Ref.outside (fun _ _ => None).



(** The registry after a live session of the first user was started. *)
Definition started : World :=
  snd (@IntakeLive.start_session unset "user_001" Registry.initial).

(** A provider's score whose compatibility is a word, not a number. *)
Definition worded_score : string :=
  "{" +:+ PyStr.DQ +:+ "compatibility" +:+ PyStr.DQ +:+ ": "
  +:+ PyStr.DQ +:+ "high" +:+ PyStr.DQ +:+ "}".

End Scenario.
(** ** Worlds that have only grown *)

Module Growth.

(** A memory that has only grown: its metadata are as they were and its
    earlier entries come first, unchanged. *)
Definition memory_grew (m m' : Memory) : Prop :=
  _metadata m' = _metadata m
  /\ exists more, _entries m' = _entries m ++ more.

Definition matchmaker_grew (a a' : MatchmakerAgent) : Prop :=
  ma_name a' = ma_name a
  /\ ma_role a' = ma_role a
  /\ ma_user_id a' = ma_user_id a
  /\ ma_user_profile a' = ma_user_profile a
  /\ memory_grew (ma_memory a) (ma_memory a').

(** A world that has only grown: the same users and the same agents, whose
    memories have only grown, and a history of calls that was only
    extended. The sessions are left out. *)
Definition grew (w w' : World) : Prop :=
  users w' = users w
  /\ (exists more, calls w' = calls w ++ more)
  /\ ev_name (evaluator w') = ev_name (evaluator w)
  /\ ev_role (evaluator w') = ev_role (evaluator w)
  /\ memory_grew (ev_memory (evaluator w)) (ev_memory (evaluator w'))
  /\ (forall ref a,
        matchmakers w !! ref = Some a ->
        exists a', matchmakers w' !! ref = Some a' /\ matchmaker_grew a a')
  /\ (forall ref, matchmakers w !! ref = None -> matchmakers w' !! ref = None).

(** A computation after which the world has only grown, however it
    ends. *)
Definition only_grows {A} (m : M A) : Prop :=
  forall w o w', m w = (o, w') -> grew w w'.

End Growth.
(** ** app/main.py: the chunks of a streamed answer *)

Module ChatStream.

(** [range(start, stop, step)] for a step of at least 1: the fuel is the
    distance to cover. *)
Fixpoint range_from (fuel : nat) (i stop step : Z) : list Z :=
  match fuel with
  | O => []
  | S fuel' =>
      if i <? stop then i :: range_from fuel' (i + step) stop step else []
  end.

Definition py_range (start stop step : Z) : list Z :=
  range_from (Z.to_nat (stop - start)) start stop step.

Definition chunk_size : Z := 60.

(** The chunks [response_text[i : i + chunk_size]] of the loop
    [for i in range(0, len(response_text), chunk_size)] of [chat_stream],
    in the order their delta events are yielded. *)
Definition chunks (response_text : string) : list string :=
  map (fun i => PyStr.slice response_text i (i + chunk_size))
      (py_range 0 (Z.of_nat (String.length response_text)) chunk_size).

End ChatStream.
(** ** app/letta_routes.py: the configuration of a request to Letta *)

Module Letta.

(** [s.rstrip(chars)]. *)
Fixpoint rstrip_chars (chars s : string) : string :=
  match s with
  | EmptyString => EmptyString
  | String c s' =>
      match rstrip_chars chars s' with
      | EmptyString =>
          if PyStr.mem_char c chars then EmptyString else String c EmptyString
      | r => String c r
      end
  end.

(** How a helper of the module ends: with its value, with the
    [RuntimeError] of a missing configuration, or with an
    [HTTPException]. *)
Inductive result (A : Type) : Type :=
  | Returned (a : A)
  | RuntimeError (msg : string)
  | HTTPError (status : Z) (detail : string).
Arguments Returned {A} a.
Arguments RuntimeError {A} msg.
Arguments HTTPError {A} status detail.

(** [mapping.get(key)] on a dict of strings. *)
Fixpoint get (key : string) (mapping : list (string * string)) : option string :=
  match mapping with
  | [] => None
  | (k, v) :: rest => if String.eqb k key then Some v else get key rest
  end.

Section WithOutside.
Context `{Outside}.

(** [os.getenv(name, "")]. *)
Definition getenv (name : string) : string :=
  match environ name with Some v => v | None => "" end.

(** [_get_letta_config()]. *)
Definition _get_letta_config : result (string * string) :=
  let base_url := rstrip_chars "/" (getenv "LETTA_BASE_URL") in
  let api_key := getenv "LETTA_API_KEY" in
  if negb (PyStr.nonempty base_url) || negb (PyStr.nonempty api_key)
  then RuntimeError "LETTA_BASE_URL and LETTA_API_KEY must be set in env"
  else Returned (base_url, api_key).

(** [_agent_id_for_user(user_id)]. *)
Definition _agent_id_for_user (uid : string) : result string :=
  let mapping :=
    [("user_001", getenv "LETTA_MATCHMAKER_A_ID");
     ("user_002", getenv "LETTA_MATCHMAKER_B_ID");
     ("user_003", getenv "LETTA_MATCHMAKER_C_ID")] in
  let agent_id :=
    match get uid mapping with
    | Some v => if PyStr.nonempty v then v else ""
    | None => ""
    end in
  if negb (PyStr.nonempty agent_id)
  then HTTPError 400 ("No Letta agent ID configured for " +:+ uid)
  else Returned agent_id.

End WithOutside.
End Letta.

Module LettaScenario.

(** An outside world with a Letta configuration: the base address was
    given with trailing slashes, and the first user only has an agent. *)
Definition configured : Outside :=
  {| environ := fun k =>
       if String.eqb k "LETTA_BASE_URL" then Some "http://letta//"
       else if String.eqb k "LETTA_API_KEY" then Some "secret"
       else if String.eqb k "LETTA_MATCHMAKER_A_ID" then Some "agent-a"
       else None;
     llm := fun _ _ _ _ => None;
     llm_error := fun _ _ _ _ => HTTPError;
     clock := fun _ => 0%float;
     uuid4 := fun _ => "" |}.

End LettaScenario.
(** ** What a short quote is made of *)

Module QuoteSpec.



End QuoteSpec.
(** ** The entries of one date exchange *)

Module Stamp.

(** An entry written at the time [ts] under one of the types [types]. *)
Definition stamped (ts : float) (types : list string) (e : entry) : Prop :=
  Dict.get "timestamp" (metadata e) = Some (VFloat ts)
  /\ exists t, In t types /\ Dict.get "type" (metadata e) = Some (VStr t).

(** What a write among the effects is allowed to be: [P] for an entry of
    the evaluator, [Q] for an entry of a matchmaker. *)
Definition written_as (P : entry -> Prop) (Q : string -> entry -> Prop)
    (f : effect) : Prop :=
  match f with
  | EvaluatorWrote e => P e
  | MatchmakerWrote ref e => Q ref e
  | _ => True
  end.

End Stamp.
(** * Properties *)

(** ** The memory store *)

Section MemoryFacts.
Context `{PyRuntime}.

Lemma or_empty_spec (md : option dict) :
  Mem.or_empty md = match md with Some d => d | None => [] end.
Proof. destruct md as [[|p d]|]; reflexivity. Qed.

(** C9. The store is append-only. Each of [write], [search],
    [search_metadata], [latest_by_type], [all], [set_metadata] and
    [get_metadata] leaves the entries that were there, in their order;
    the six that are not [write] leave the list of entries as it was, and
    [write] adds one entry at the end, made of the text and of the
    metadata given, or of the empty dict when the metadata is [None]. *)
Theorem memory_append_only (m : Memory) :
  (forall txt md,
      _entries (snd (Mem.write txt md m))
      = _entries m ++ [Entry txt (match md with Some d => d | None => [] end)])
  /\ (forall q k, _entries (snd (Mem.search q k m)) = _entries m)
  /\ (forall key v k, _entries (snd (Mem.search_metadata key v k m)) = _entries m)
  /\ (forall ty, _entries (snd (Mem.latest_by_type ty m)) = _entries m)
  /\ _entries (snd (Mem.all m)) = _entries m
  /\ (forall key v, _entries (snd (Mem.set_metadata key v m)) = _entries m)
  /\ (forall key d, _entries (snd (Mem.get_metadata key d m)) = _entries m).
Proof.
  repeat split; intros; try reflexivity.
  cbn [Mem.write snd _entries]. now rewrite or_empty_spec.
Qed.

End MemoryFacts.

(** ** Search *)

Lemma py_take_nonneg {A} (k : Z) (l : list A) :
  0 <= k ->
  py_take k l = firstn (Z.to_nat (Z.min k (Z.of_nat (length l)))) l.
Proof.
  intros Hk. unfold py_take.
  destruct (Z.ltb_spec k 0) as [?|_]; [lia|].
  destruct (Z.le_gt_cases k (Z.of_nat (length l))) as [Hle|Hgt].
  - now rewrite Z.min_l by lia.
  - rewrite Z.min_r by lia. rewrite Nat2Z.id.
    rewrite firstn_all. apply firstn_all2. lia.
Qed.

Lemma py_take_neg {A} (k : Z) (l : list A) :
  k < 0 ->
  py_take k l = firstn (length l - Z.to_nat (- k)) l.
Proof.
  intros Hk. unfold py_take.
  destruct (Z.ltb_spec k 0) as [_|?]; [reflexivity|lia].
Qed.

Lemma search_hits (q : string) (k : Z) (m : Memory) :
  Mem.search q k m = (py_take k (Spec.matching q m), m).
Proof. reflexivity. Qed.

(** C8, as the code has it. For a bound [k >= 0], [search(q, k)] returns
    the first [min(k, m)] of the [m] entries whose lowercased text contains
    [q.lower().strip()], in insertion order, and leaves the memory as it
    was. *)
Theorem search_first_matches (m : Memory) (q : string) (k : Z) :
  0 <= k ->
  Mem.search q k m
  = (firstn (Z.to_nat (Z.min k (Z.of_nat (length (Spec.matching q m)))))
            (Spec.matching q m),
     m).
Proof.
  intros Hk. rewrite search_hits. now rewrite py_take_nonneg.
Qed.

Lemma search_first_matches_witness :
  Mem.search "A " 1 Sample.two_notes
  = (firstn (Z.to_nat (Z.min 1
               (Z.of_nat (length (Spec.matching "A " Sample.two_notes)))))
            (Spec.matching "A " Sample.two_notes),
     Sample.two_notes).
Proof. apply (search_first_matches Sample.two_notes "A " 1). lia. Defined.

(** For a negative bound the slice [hits[:k]] drops the last [-k] hits
    instead. *)
Lemma search_negative_bound (m : Memory) (q : string) (k : Z) :
  k < 0 ->
  Mem.search q k m
  = (firstn (length (Spec.matching q m) - Z.to_nat (- k)) (Spec.matching q m),
     m).
Proof.
  intros Hk. rewrite search_hits. now rewrite py_take_neg.
Qed.

(** C8 as stated fails at a negative bound: with two matching entries,
    [search("a", -1)] returns one entry, not the first [min(-1, 2)]. *)
Lemma search_negative_bound_counterexample :
  fst (Mem.search "a" (-1) Sample.two_notes)
  <> firstn (Z.to_nat (Z.min (-1)
               (Z.of_nat (length (Spec.matching "a" Sample.two_notes)))))
            (Spec.matching "a" Sample.two_notes).
Proof. vm_compute. discriminate. Qed.

(** ** JSON extraction *)

Section StringFacts.

Lemma find_first_index (c : ascii) (s : string) :
  PyStr.find c s
  = match Spec.first_index c s with Some i => Z.of_nat i | None => -1 end.
Proof.
  induction s as [|d s IH]; cbn [PyStr.find Spec.first_index]; [reflexivity|].
  destruct (Ascii.eqb d c); [reflexivity|].
  rewrite IH. destruct (Spec.first_index c s) as [i|].
  - destruct (Z.ltb_spec (Z.of_nat i) 0); lia.
  - reflexivity.
Qed.

Lemma rfind_last_index (c : ascii) (s : string) :
  PyStr.rfind c s
  = match Spec.last_index c s with Some i => Z.of_nat i | None => -1 end.
Proof.
  induction s as [|d s IH]; cbn [PyStr.rfind Spec.last_index]; [reflexivity|].
  rewrite IH. destruct (Spec.last_index c s) as [j|].
  - destruct (Z.leb_spec 0 (Z.of_nat j)); lia.
  - cbn. destruct (Ascii.eqb d c); reflexivity.
Qed.

(** [first_index] is the least position that holds the character. *)
Lemma first_index_least (c : ascii) (s : string) (i : nat) :
  Spec.first_index c s = Some i ->
  String.get i s = Some c
  /\ forall j, (j < i)%nat -> String.get j s <> Some c.
Proof.
  revert i. induction s as [|d s IH]; intros i; cbn [Spec.first_index];
    [discriminate|].
  destruct (Ascii.eqb_spec d c) as [->|Hne].
  - intros [= <-]. split; [reflexivity | intros j Hj; lia].
  - destruct (Spec.first_index c s) as [i'|]; [|discriminate].
    intros [= <-]. destruct (IH i' eq_refl) as [Hget Hleast].
    split; [exact Hget|].
    intros [|j] Hj; cbn; [congruence | apply Hleast; lia].
Qed.

Lemma first_index_none (c : ascii) (s : string) :
  Spec.first_index c s = None -> forall j, String.get j s <> Some c.
Proof.
  induction s as [|d s IH]; cbn [Spec.first_index]; intros Hn j.
  - now destruct j.
  - destruct (Ascii.eqb_spec d c) as [->|Hne]; [discriminate|].
    destruct (Spec.first_index c s); [discriminate|].
    destruct j as [|j]; cbn; [congruence | now apply IH].
Qed.

(** [last_index] is the greatest position that holds the character. *)
Lemma last_index_greatest (c : ascii) (s : string) (i : nat) :
  Spec.last_index c s = Some i ->
  String.get i s = Some c
  /\ forall j, (i < j)%nat -> String.get j s <> Some c.
Proof.
  revert i. induction s as [|d s IH]; intros i; cbn [Spec.last_index];
    [discriminate|].
  destruct (Spec.last_index c s) as [i'|] eqn:Hl.
  - intros [= <-]. destruct (IH i' eq_refl) as [Hget Hgreat].
    split; [exact Hget|].
    intros [|j] Hj; [lia | cbn; apply Hgreat; lia].
  - destruct (Ascii.eqb_spec d c) as [->|Hne]; [|discriminate].
    intros [= <-]. split; [reflexivity|].
    intros [|j] Hj; [lia|]. cbn.
    clear -Hl. revert j. induction s as [|e s IHs]; intros j.
    + now destruct j.
    + cbn [Spec.last_index] in Hl.
      destruct (Spec.last_index c s); [discriminate|].
      destruct (Ascii.eqb_spec e c); [discriminate|].
      destruct j as [|j]; cbn; [congruence | now apply IHs].
Qed.

Lemma last_index_lt (c : ascii) (s : string) (i : nat) :
  Spec.last_index c s = Some i -> (i < String.length s)%nat.
Proof.
  revert i. induction s as [|d s IH]; intros i; cbn [Spec.last_index];
    [discriminate|].
  destruct (Spec.last_index c s) as [i'|].
  - intros [= <-]. specialize (IH i' eq_refl). cbn. lia.
  - destruct (Ascii.eqb d c); [|discriminate]. intros [= <-]. cbn. lia.
Qed.

(** A slice between bounds that lie inside the string is a substring. *)
Lemma slice_inside (s : string) (a b : nat) :
  (a <= b)%nat -> (b <= String.length s)%nat ->
  PyStr.slice s (Z.of_nat a) (Z.of_nat b) = String.substring a (b - a) s.
Proof.
  intros Hab Hb. unfold PyStr.slice, PyStr.clamp.
  destruct (Z.ltb_spec (Z.of_nat a) 0); [lia|].
  destruct (Z.ltb_spec (Z.of_nat b) 0); [lia|].
  rewrite !Z.min_l by lia. rewrite Nat2Z.id. f_equal. lia.
Qed.

End StringFacts.

Section ExtractJson.
Context `{PyRuntime}.

Lemma braces_slice (t : string) :
  (let start := PyStr.find "{" t in
   let end_ := PyStr.rfind "}" t in
   if negb (start =? -1) && negb (end_ =? -1) && (end_ >? start)
   then PyStr.slice t start (end_ + 1) else t)
  = Spec.between_braces t.
Proof.
  cbv zeta. rewrite find_first_index, rfind_last_index.
  unfold Spec.between_braces.
  destruct (Spec.first_index "{" t) as [i|];
    destruct (Spec.last_index "}" t) as [j|] eqn:Hj; cbn [negb andb].
  - destruct (Z.eqb_spec (Z.of_nat i) (-1)); [lia|].
    destruct (Z.eqb_spec (Z.of_nat j) (-1)); [lia|]. cbn [negb andb].
    apply last_index_lt in Hj.
    destruct (Nat.ltb_spec i j) as [Hlt|Hge].
    + replace (Z.of_nat j >? Z.of_nat i) with true
        by (symmetry; apply Z.gtb_lt; lia).
      replace (Z.of_nat j + 1) with (Z.of_nat (j + 1)) by lia.
      rewrite slice_inside by lia. f_equal. lia.
    + replace (Z.of_nat j >? Z.of_nat i) with false; [reflexivity|].
      symmetry. rewrite Z.gtb_ltb. apply Z.ltb_ge. lia.
  - destruct (Z.of_nat i =? -1); reflexivity.
  - reflexivity.
  - reflexivity.
Qed.

(** C7, as the code has it. [extract_json(t)] is [json.loads] applied to
    this text: strip [t]; if the result starts with three backquotes, drop
    its first line and, when the last remaining line starts with three
    backquotes once it is stripped, drop that line too, join the lines
    with a newline and strip again; then, if a { occurs and the last }
    occurs after the first {, take the substring from the first { through
    the last }, otherwise keep the whole string. It raises exactly when
    [json.loads] raises on that text. *)
Theorem extract_json_text (t : string) :
  Matchmaker.extract_json t = json_loads (Spec.json_text_lenient t)
  /\ (Matchmaker.extract_json t = None
      <-> json_loads (Spec.json_text_lenient t) = None).
Proof.
  assert (Heq : Matchmaker.extract_json t = json_loads (Spec.json_text_lenient t)).
  { unfold Matchmaker.extract_json, Spec.json_text_lenient.
    cbv zeta. f_equal.
    rewrite <- braces_slice. cbv zeta.
    unfold Spec.without_fences.
    destruct (PyStr.startswith (PyStr.strip t) "```"); [|reflexivity].
    destruct (PyStr.splitlines (PyStr.strip t)) as [|l ls]; reflexivity. }
  split; [exact Heq | now rewrite Heq].
Qed.

End ExtractJson.

(** C7 as stated fails on a closing fence that is indented: the code
    drops it, the claim keeps it, and the text that is left is not JSON. *)
Lemma extract_json_indented_fence_counterexample :
  @Matchmaker.extract_json Ref.runtime Sample.indented_fence
  <> @json_loads Ref.runtime (Spec.json_text Sample.indented_fence).
Proof. vm_compute. discriminate. Qed.

(** ** Running computations *)

Section MonadFacts.
Context `{Outside}.

Lemma bind_ok {A B} (m : M A) (k : A -> M B) (w w1 : World) (a : A) :
  m w = (Ok a, w1) -> bind m k w = k a w1.
Proof. intros E. unfold bind. now rewrite E. Qed.

Lemma bind_raise {A B} (m : M A) (k : A -> M B) (w w1 : World) (e : exn) :
  m w = (Raise e, w1) -> bind m k w = (Raise e, w1).
Proof. intros E. unfold bind. now rewrite E. Qed.

(** What a computation that returned went through. *)
Lemma bind_inv {A B} (m : M A) (k : A -> M B) (w w2 : World) (b : B) :
  bind m k w = (Ok b, w2) ->
  exists a w1, m w = (Ok a, w1) /\ k a w1 = (Ok b, w2).
Proof.
  unfold bind. destruct (m w) as [[a|e] w1]; [eauto | discriminate].
Qed.

Lemma chat_run from client msgs temp w :
  OpenRouter.chat from client msgs temp w
  = (match llm (length (calls w)) client msgs temp with
     | Some s => Ok s
     | None => Raise (llm_error (length (calls w)) client msgs temp)
     end,
     set_calls (fun cs => cs ++ [logged from client msgs temp w]) w).
Proof.
  unfold OpenRouter.chat, logged.
  now destruct (llm (length (calls w)) client msgs temp).
Qed.

Lemma chat_answered from client msgs temp w r :
  llm (length (calls w)) client msgs temp = Some r ->
  OpenRouter.chat from client msgs temp w
  = (Ok r, set_calls (fun cs => cs ++ [mkCall from client msgs temp (Some r)]) w).
Proof. intros E. rewrite chat_run. unfold logged. now rewrite E. Qed.

Lemma chat_inv from client msgs temp w r w1 :
  OpenRouter.chat from client msgs temp w = (Ok r, w1) ->
  llm (length (calls w)) client msgs temp = Some r
  /\ w1 = set_calls (fun cs => cs ++ [mkCall from client msgs temp (Some r)]) w.
Proof.
  rewrite chat_run. unfold logged.
  destruct (llm (length (calls w)) client msgs temp); [|discriminate].
  now intros [= -> <-].
Qed.

End MonadFacts.

(** ** Dictionaries *)

Section DictFacts.

Lemma get_app (k : string) (d1 d2 : dict) :
  Dict.get k (d1 ++ d2)
  = match Dict.get k d1 with Some v => Some v | None => Dict.get k d2 end.
Proof.
  induction d1 as [|[k' v'] d1 IH]; cbn; [reflexivity|].
  now destruct (String.eqb k' k).
Qed.

Lemma get_setdefault (k k' : string) (v : value) (d : dict) :
  Dict.get k (Dict.setdefault k' v d)
  = match Dict.get k d with
    | Some x => Some x
    | None => if String.eqb k' k then Some v else None
    end.
Proof.
  unfold Dict.setdefault, Dict.has.
  destruct (Dict.get k' d) as [x|] eqn:E.
  - destruct (Dict.get k d) eqn:E'; [reflexivity|].
    destruct (String.eqb_spec k' k) as [->|]; [congruence | reflexivity].
  - rewrite get_app. cbn. reflexivity.
Qed.

End DictFacts.

(** ** Parsing with defaults *)

Section ParseFacts.
Context `{PyRuntime} `{Outside}.

Lemma score_of_response_filled (response : string) (o : dict) :
  Matchmaker.extract_json response = Some (VDict o) ->
  Spec.filled Spec.score_defaults o (Evaluator.score_of_response response).
Proof.
  intros E k. unfold Evaluator.score_of_response. rewrite E.
  rewrite !get_setdefault. destruct (Dict.get k o); [reflexivity|].
  unfold Spec.score_defaults. cbn [Dict.get].
  repeat (destruct (String.eqb _ k); [reflexivity|]). reflexivity.
Qed.

Lemma score_of_response_failure (response : string) :
  (forall o, Matchmaker.extract_json response <> Some (VDict o)) ->
  Evaluator.score_of_response response = Spec.score_failure.
Proof.
  intros Hno. unfold Evaluator.score_of_response.
  destruct (Matchmaker.extract_json response) as [[]|]; try reflexivity.
  now destruct (Hno d).
Qed.

Lemma score_of_response_keys (response k : string) :
  In k ["score_a"; "score_b"; "compatibility"; "reasons"; "quote"] ->
  is_Some (Dict.get k (Evaluator.score_of_response response)).
Proof.
  intros Hk.
  destruct (Matchmaker.extract_json response) as [v|] eqn:E.
  - destruct v as [| | | | | |o];
      try (rewrite score_of_response_failure
             by (intros o Ho; rewrite E in Ho; discriminate);
           cbn in Hk; intuition (subst; cbn; eauto)).
    rewrite (score_of_response_filled response o E).
    destruct (Dict.get k o); [eauto|].
    cbn in Hk; intuition (subst; cbn; eauto).
  - rewrite score_of_response_failure
      by (intros o Ho; rewrite E in Ho; discriminate).
    cbn in Hk; intuition (subst; cbn; eauto).
Qed.

(** C3. Once the provider has answered, [score_date_exchange] returns a
    dict that has the keys score_a, score_b, compatibility, reasons and
    quote, and nothing is raised: when the answer parses to a JSON object
    the result is that object with each missing key filled by its default
    (5, 5, 50, ["Unable to parse reasons"], the empty string); when it
    does not parse, or parses to something that is not an object, the
    result is the fixed failure score. *)
Theorem score_date_exchange_defaults (scene : string) (transcript : list Turn)
    (intake_a intake_b : value) (client : OpenRouterClient) (w : World)
    (response : string) :
  llm (length (calls w)) client
      [("user",
        Prompts.score_prompt scene (Evaluator.transcript_text_of transcript)
                             intake_a intake_b)]
      0.5%float = Some response ->
  exists score w',
    Evaluator.score_date_exchange scene transcript intake_a intake_b client w
    = (Ok score, w')
    /\ (forall k,
          In k ["score_a"; "score_b"; "compatibility"; "reasons"; "quote"] ->
          is_Some (Dict.get k score))
    /\ (forall o,
          Matchmaker.extract_json response = Some (VDict o) ->
          Spec.filled Spec.score_defaults o score)
    /\ ((forall o, Matchmaker.extract_json response <> Some (VDict o)) ->
        score = Spec.score_failure).
Proof.
  intros Hanswer. unfold Evaluator.score_date_exchange.
  rewrite (bind_ok _ _ _ _ _ (chat_answered _ _ _ _ _ _ Hanswer)).
  eexists _, _. split; [reflexivity|]. split; [|split].
  - intros k. apply score_of_response_keys.
  - apply score_of_response_filled.
  - apply score_of_response_failure.
Qed.

Lemma summary_of_filled (response : string) (o : dict) :
  Matchmaker.extract_json response = Some (VDict o) ->
  Spec.filled Spec.summary_defaults o (Matchmaker.summary_of response).
Proof.
  intros E k. unfold Matchmaker.summary_of. rewrite E.
  rewrite !get_setdefault. destruct (Dict.get k o); [reflexivity|].
  unfold Spec.summary_defaults. cbn [Dict.get].
  repeat (destruct (String.eqb _ k); [reflexivity|]). reflexivity.
Qed.

Lemma summary_of_fallback (response : string) :
  (forall o, Matchmaker.extract_json response <> Some (VDict o)) ->
  Matchmaker.summary_of response = Spec.summary_fallback response.
Proof.
  intros Hno. unfold Matchmaker.summary_of.
  destruct (Matchmaker.extract_json response) as [[]|]; try reflexivity.
  now destruct (Hno d).
Qed.

Lemma summary_of_keys (response k : string) :
  In k ["preferences"; "dealbreakers"; "dating_thesis"] ->
  is_Some (Dict.get k (Matchmaker.summary_of response)).
Proof.
  intros Hk.
  destruct (Matchmaker.extract_json response) as [v|] eqn:E.
  - destruct v as [| | | | | |o];
      try (rewrite summary_of_fallback
             by (intros o Ho; rewrite E in Ho; discriminate);
           cbn in Hk; intuition (subst; cbn; eauto)).
    rewrite (summary_of_filled response o E).
    destruct (Dict.get k o); [eauto|].
    cbn in Hk; intuition (subst; cbn; eauto).
  - rewrite summary_of_fallback
      by (intros o Ho; rewrite E in Ho; discriminate).
    cbn in Hk; intuition (subst; cbn; eauto).
Qed.

(** What [run_intake_summary] does once the provider has answered. *)
Lemma run_intake_summary_answered (self : string) (agent : MatchmakerAgent)
    (client : OpenRouterClient) (extra : option string) (w : World)
    (response : string) :
  matchmakers w !! self = Some agent ->
  llm (length (calls w)) client
      [("user", Matchmaker.intake_prompt (ma_user_profile agent) extra)]
      0.7%float = Some response ->
  let summary := Matchmaker.summary_of response in
  let written :=
    Entry (Matchmaker.intake_memory_text (ma_user_profile agent) summary)
          [("type", VStr "intake_summary");
           ("user_id", VStr (ma_user_id agent));
           ("timestamp", VFloat (clock (ticks w)))] in
  Matchmaker.run_intake_summary self client extra w
  = (Ok summary,
     set_matchmakers
       (insert self
          (ma_set_memory
             (fun m => mkMemory (_entries m ++ [written]) (_metadata m)) agent))
       (set_ticks S
          (set_calls
             (fun cs =>
                cs ++ [mkCall IntakeSummary client
                         [("user",
                           Matchmaker.intake_prompt (ma_user_profile agent) extra)]
                         0.7%float (Some response)])
             w))).
Proof.
  intros Hself Hanswer. unfold Matchmaker.run_intake_summary.
  rewrite (bind_ok _ _ w w agent)
    by (unfold Matchmaker.self_of; now rewrite Hself).
  rewrite (bind_ok _ _ _ _ _ (chat_answered _ _ _ _ _ _ Hanswer)).
  unfold bind, OpenRouter.time_time, matchmaker_write.
  cbn [matchmakers set_ticks set_calls]. rewrite Hself. reflexivity.
Qed.

(** C4. Once the provider has answered, [run_intake_summary] returns a
    dict that has the keys preferences, dealbreakers and dating_thesis:
    the parsed object with the missing keys defaulted to [], [] and the
    empty string, or, when the answer does not parse to an object, the
    fallback whose thesis is the stripped answer cut at 240 characters. In
    both cases the agent's memory ends up with exactly one entry more, of
    metadata type intake_summary, whose text carries [json.dumps] of the
    summary. *)
Theorem run_intake_summary_defaults (self : string) (agent : MatchmakerAgent)
    (client : OpenRouterClient) (extra : option string) (w : World)
    (response : string) :
  matchmakers w !! self = Some agent ->
  llm (length (calls w)) client
      [("user", Matchmaker.intake_prompt (ma_user_profile agent) extra)]
      0.7%float = Some response ->
  exists summary w' agent' md,
    Matchmaker.run_intake_summary self client extra w = (Ok summary, w')
    /\ (forall k,
          In k ["preferences"; "dealbreakers"; "dating_thesis"] ->
          is_Some (Dict.get k summary))
    /\ (forall o,
          Matchmaker.extract_json response = Some (VDict o) ->
          Spec.filled Spec.summary_defaults o summary)
    /\ ((forall o, Matchmaker.extract_json response <> Some (VDict o)) ->
        summary = Spec.summary_fallback response)
    /\ matchmakers w' !! self = Some agent'
    /\ _entries (ma_memory agent')
       = _entries (ma_memory agent)
         ++ [Entry ("Intake summary for "
                    +:+ display_name (ma_user_profile agent) +:+ ": "
                    +:+ json_dumps (VDict summary))
                   md]
    /\ Dict.get "type" md = Some (VStr "intake_summary").
Proof.
  intros Hself Hanswer.
  eexists _, _, _, _. split.
  { apply (run_intake_summary_answered _ _ _ _ _ _ Hself Hanswer). }
  split; [intros k; apply summary_of_keys|].
  split; [apply summary_of_filled|].
  split; [apply summary_of_fallback|].
  split; [cbn [matchmakers set_matchmakers]; apply lookup_insert_eq|].
  split; reflexivity.
Qed.

End ParseFacts.

Lemma score_date_exchange_defaults_witness :
  exists score w',
    @Evaluator.score_date_exchange Ref.runtime (Sample.always Sample.partial_score)
      "a cafe" [] VNone VNone Ref.client Registry.initial
    = (Ok score, w')
    /\ Dict.get "score_a" score = Some (VInt 7)
    /\ Dict.get "compatibility" score = Some (VInt 50).
Proof.
  destruct (@score_date_exchange_defaults Ref.runtime
              (Sample.always Sample.partial_score)
              "a cafe" [] VNone VNone Ref.client Registry.initial
              Sample.partial_score eq_refl)
    as (score & w' & Hrun & _ & Hfilled & _).
  exists score, w'. split; [exact Hrun|].
  assert (Hparsed : @Matchmaker.extract_json Ref.runtime Sample.partial_score
                    = Some (VDict [("score_a", VInt 7)]))
    by (vm_compute; reflexivity).
  split; rewrite (Hfilled _ Hparsed); reflexivity.
Defined.

Lemma run_intake_summary_defaults_witness :
  exists summary w',
    @Matchmaker.run_intake_summary Ref.runtime (Sample.always "no json here")
      "user_001" Ref.client None Registry.initial
    = (Ok summary, w')
    /\ Dict.get "dating_thesis" summary = Some (VStr "no json here").
Proof.
  destruct (@run_intake_summary_defaults Ref.runtime
              (Sample.always "no json here") "user_001"
              (Matchmaker.init "user_001" Sample.jordan) Ref.client None
              Registry.initial "no json here")
    as (summary & w' & agent' & md & Hrun & _ & _ & Hfallback & _).
  - vm_compute. reflexivity.
  - reflexivity.
  - exists summary, w'. split; [exact Hrun|].
    rewrite Hfallback; [reflexivity|].
    intros o. vm_compute. discriminate.
Defined.

(** ** Reading the intake summary back *)

Section IntakeSummaryFacts.
Context `{PyRuntime} `{Outside}.

Lemma py_last_nth {A} (l : list A) :
  py_last l = nth_error l (length l - 1).
Proof.
  unfold py_last. induction l as [|x l IH]; [reflexivity|].
  destruct l as [|y l]; [reflexivity|].
  cbn [map List.last] in *. rewrite IH. cbn [length].
  replace (S (S (length l)) - 1)%nat with (S (S (length l) - 1)) by lia.
  reflexivity.
Qed.

Lemma last_of_first {A} (k : nat) (l : list A) :
  (0 < k)%nat ->
  py_last (firstn k l) = nth_error l (Nat.min (length l) k - 1).
Proof.
  intros Hk. rewrite py_last_nth, length_firstn, (Nat.min_comm k).
  destruct l as [|x l]; [now destruct k|].
  rewrite nth_error_firstn.
  destruct (Nat.ltb_spec (Nat.min (length (x :: l)) k - 1) k) as [_|Hge];
    [reflexivity | cbn [length] in Hge; lia].
Qed.

Lemma embedded_json_slice (txt : string) :
  (let start := PyStr.find "{" txt in
   let end_ := PyStr.rfind "}" txt in
   if negb (start =? -1) && negb (end_ =? -1) && (end_ >? start)
   then
     match json_loads (PyStr.slice txt start (end_ + 1)) with
     | Some v => v
     | None => Evaluator.no_intake_summary
     end
   else Evaluator.no_intake_summary)
  = match Spec.embedded_json txt with
    | Some v => v
    | None => Spec.no_intake_summary
    end.
Proof.
  cbv zeta. rewrite find_first_index, rfind_last_index.
  unfold Spec.embedded_json.
  destruct (Spec.first_index "{" txt) as [i|];
    destruct (Spec.last_index "}" txt) as [j|] eqn:Hj; cbn [negb andb].
  - destruct (Z.eqb_spec (Z.of_nat i) (-1)); [lia|].
    destruct (Z.eqb_spec (Z.of_nat j) (-1)); [lia|]. cbn [negb andb].
    apply last_index_lt in Hj.
    destruct (Nat.ltb_spec i j) as [Hlt|Hge].
    + replace (Z.of_nat j >? Z.of_nat i) with true
        by (symmetry; apply Z.gtb_lt; lia).
      replace (Z.of_nat j + 1) with (Z.of_nat (j + 1)) by lia.
      rewrite slice_inside by lia.
      replace (j + 1 - i)%nat with (j - i + 1)%nat by lia. reflexivity.
    + replace (Z.of_nat j >? Z.of_nat i) with false; [reflexivity|].
      symmetry. rewrite Z.gtb_ltb. apply Z.ltb_ge. lia.
  - destruct (Z.of_nat i =? -1); reflexivity.
  - reflexivity.
  - reflexivity.
Qed.

Lemma intake_summary_in_spec (m : Memory) :
  Evaluator.intake_summary_in m = Spec.intake_summary_of m.
Proof.
  unfold Evaluator.intake_summary_in, Spec.intake_summary_of.
  rewrite search_hits. cbn [fst].
  change (Spec.matching "Intake summary" m) with (Spec.intake_entries m).
  change (py_take 5 (Spec.intake_entries m))
    with (firstn 5 (Spec.intake_entries m)).
  rewrite last_of_first by lia.
  destruct (nth_error _ _) as [e|]; [|reflexivity].
  apply embedded_json_slice.
Qed.

(** C10. [_extract_intake_summary] leaves the world as it was and
    returns: for an agent whose memory has [n] entries whose text contains
    "intake summary" whatever the case, the JSON embedded in the
    [min(n, 5)]-th oldest of them, which is the most recent one when
    [n <= 5] and the fifth oldest when [n > 5]; and the fixed "No intake
    summary available" dict when [n = 0], when the agent has no memory, or
    when no JSON can be parsed from the selected entry. *)
Theorem extract_intake_summary_selects (agent : option string) (w : World) :
  Evaluator._extract_intake_summary agent w
  = (Ok match deref w agent with
        | Some a => Spec.intake_summary_of (ma_memory a)
        | None => Spec.no_intake_summary
        end,
     w)
  /\ (forall m,
        let hits := Spec.intake_entries m in
        let selected := nth_error hits (Nat.min (length hits) 5 - 1) in
        (length hits = 0%nat -> Spec.intake_summary_of m = Spec.no_intake_summary)
        /\ ((length hits <= 5)%nat -> selected = py_last hits)
        /\ ((5 < length hits)%nat -> selected = nth_error hits 4)
        /\ (forall e,
              selected = Some e -> Spec.embedded_json (text e) = None ->
              Spec.intake_summary_of m = Spec.no_intake_summary)).
Proof.
  split.
  - unfold Evaluator._extract_intake_summary.
    destruct (deref w agent) as [a|]; [|reflexivity].
    now rewrite intake_summary_in_spec.
  - intros m hits selected. subst selected. repeat split.
    + intros Hn. unfold Spec.intake_summary_of. fold hits.
      destruct hits; [reflexivity | discriminate].
    + intros Hle. rewrite py_last_nth. f_equal. lia.
    + intros Hgt. f_equal. lia.
    + intros e Hsel Hnone. unfold Spec.intake_summary_of. fold hits.
      now rewrite Hsel, Hnone.
Qed.

End IntakeSummaryFacts.

Lemma extract_intake_summary_selects_witness :
  @Evaluator._extract_intake_summary Ref.runtime (Some "user_001")
    Sample.six_summaries
  = (Ok (VDict [("n", VInt 5)]), Sample.six_summaries).
Proof.
  etransitivity.
  - apply (proj1 (@extract_intake_summary_selects Ref.runtime (Some "user_001")
                    Sample.six_summaries)).
  - vm_compute. reflexivity.
Defined.

(** ** Effects *)

Section EffectFacts.
Context `{Outside}.

Lemma after_app (es1 es2 : list effect) (w : World) :
  after (es1 ++ es2) w = after es2 (after es1 w).
Proof. apply fold_left_app. Qed.

Lemma asked_app (es1 es2 : list effect) :
  asked (es1 ++ es2) = asked es1 ++ asked es2.
Proof. apply flat_map_app. Qed.

Lemma asked_map (cs : list Call) : asked (map Asked cs) = cs.
Proof.
  induction cs as [|c cs IH]; [reflexivity|].
  cbn [map asked flat_map app]. f_equal. exact IH.
Qed.

Lemma calls_after (es : list effect) (w : World) :
  calls (after es w) = calls w ++ asked es.
Proof.
  revert w. induction es as [|f es IH]; intros w; cbn [after fold_left].
  - cbn. now rewrite app_nil_r.
  - fold (after es (apply_effect w f)). rewrite IH.
    destruct f as [c| |e|ref e]; cbn [apply_effect asked flat_map app].
    + cbn [calls set_calls]. now rewrite <- app_assoc.
    + reflexivity.
    + reflexivity.
    + now destruct (matchmakers w !! ref).
Qed.

Lemma ticks_after (es : list effect) (w : World) :
  ticks (after es w) = (ticks w + clock_reads es)%nat.
Proof.
  revert w. induction es as [|f es IH]; intros w; cbn [after fold_left].
  - cbn. lia.
  - fold (after es (apply_effect w f)). rewrite IH.
    destruct f as [c| |e|ref e]; unfold clock_reads;
      cbn [apply_effect List.filter length ticks set_calls set_ticks
           set_evaluator]; try lia.
    destruct (matchmakers w !! ref); cbn; lia.
Qed.

Lemma users_after (es : list effect) (w : World) :
  users (after es w) = users w.
Proof.
  revert w. induction es as [|f es IH]; intros w; cbn [after fold_left];
    [reflexivity|].
  fold (after es (apply_effect w f)). rewrite IH.
  destruct f as [c| |e|ref e]; cbn; try reflexivity.
  now destruct (matchmakers w !! ref).
Qed.

Lemma sessions_after (es : list effect) (w : World) :
  sessions (after es w) = sessions w.
Proof.
  revert w. induction es as [|f es IH]; intros w; cbn [after fold_left];
    [reflexivity|].
  fold (after es (apply_effect w f)). rewrite IH.
  destruct f as [c| |e|ref e]; cbn; try reflexivity.
  now destruct (matchmakers w !! ref).
Qed.

(** The evaluator's memory after a list of effects: the entries it wrote
    come after those it had. *)
Lemma evaluator_after (es : list effect) (w : World) :
  _entries (ev_memory (evaluator (after es w)))
  = _entries (ev_memory (evaluator w)) ++ evaluator_wrote es
  /\ _metadata (ev_memory (evaluator (after es w)))
     = _metadata (ev_memory (evaluator w)).
Proof.
  revert w. induction es as [|f es IH]; intros w; cbn [after fold_left].
  - cbn. now rewrite app_nil_r.
  - fold (after es (apply_effect w f)).
    destruct (IH (apply_effect w f)) as [-> ->].
    destruct f as [c| |e|ref e];
      cbn [apply_effect evaluator_wrote flat_map app]; try (split; reflexivity).
    + cbn. now rewrite <- app_assoc.
    + now destruct (matchmakers w !! ref).
Qed.

(** A matchmaker's memory after a list of effects. *)
Lemma matchmaker_after (es : list effect) (w : World) (ref : string)
    (a : MatchmakerAgent) :
  matchmakers w !! ref = Some a ->
  exists a',
    matchmakers (after es w) !! ref = Some a'
    /\ _entries (ma_memory a')
       = _entries (ma_memory a) ++ matchmaker_wrote ref es
    /\ _metadata (ma_memory a') = _metadata (ma_memory a)
    /\ ma_user_profile a' = ma_user_profile a
    /\ ma_user_id a' = ma_user_id a.
Proof.
  revert w a. induction es as [|f es IH]; intros w a Ha; cbn [after fold_left].
  - exists a. cbn. now rewrite app_nil_r.
  - fold (after es (apply_effect w f)).
    destruct f as [c| |e|r e]; cbn [apply_effect matchmaker_wrote flat_map app].
    + apply (IH _ a). exact Ha.
    + apply (IH _ a). exact Ha.
    + apply (IH _ a). exact Ha.
    + destruct (String.eqb_spec r ref) as [->|Hne].
      * rewrite Ha.
        destruct (IH (set_matchmakers
                        (insert ref (ma_set_memory (remember e) a)) w)
                     (ma_set_memory (remember e) a))
          as (a' & Hl & He & Hm & Hp & Hi).
        { cbn. apply lookup_insert_eq. }
        exists a'. split; [exact Hl|]. rewrite He, Hm, Hp, Hi. cbn.
        now rewrite <- app_assoc.
      * destruct (matchmakers w !! r) as [b|] eqn:Hb.
        -- apply (IH _ a). cbn. rewrite lookup_insert_ne by exact Hne.
           exact Ha.
        -- apply (IH _ a). exact Ha.
Qed.

(** No effect creates or removes an agent. *)
Lemma absent_after (es : list effect) (w : World) (ref : string) :
  matchmakers w !! ref = None -> matchmakers (after es w) !! ref = None.
Proof.
  revert w. induction es as [|f es IH]; intros w Hn; cbn [after fold_left];
    [exact Hn|].
  fold (after es (apply_effect w f)). apply IH.
  destruct f as [c| |e|r e]; cbn; try exact Hn.
  destruct (matchmakers w !! r) as [b|] eqn:Hb; [|exact Hn].
  cbn. rewrite lookup_insert_ne; [exact Hn | congruence].
Qed.

Lemma deref_after (es : list effect) (w : World) (agent : option string) :
  deref (after es w) agent = None <-> deref w agent = None.
Proof.
  destruct agent as [ref|]; cbn [deref]; [|tauto].
  destruct (matchmakers w !! ref) as [a|] eqn:Ha.
  - destruct (matchmaker_after es w ref a Ha) as (a' & -> & _). split; discriminate.
  - rewrite (absent_after es w ref Ha). tauto.
Qed.

Lemma honest_nil (n : nat) : honest n [].
Proof. intros [|k] c; discriminate. Qed.

Lemma honest_app (n : nat) (cs1 cs2 : list Call) :
  honest n cs1 -> honest (n + length cs1) cs2 -> honest n (cs1 ++ cs2).
Proof.
  intros H1 H2 k c Hk.
  destruct (Nat.lt_ge_cases k (length cs1)) as [Hlt|Hge].
  - rewrite nth_error_app1 in Hk by exact Hlt. now apply H1.
  - rewrite nth_error_app2 in Hk by exact Hge.
    rewrite (H2 _ _ Hk). f_equal. lia.
Qed.

Lemma does_nil (w : World) : does w [] w.
Proof. split; [reflexivity | apply honest_nil]. Qed.

Lemma does_trans (w w1 w2 : World) (es1 es2 : list effect) :
  does w es1 w1 -> does w1 es2 w2 -> does w (es1 ++ es2) w2.
Proof.
  intros [-> H1] [-> H2]. split; [now rewrite after_app|].
  rewrite asked_app. apply honest_app; [exact H1|].
  rewrite calls_after, length_app in H2. exact H2.
Qed.

(** An effect that asks nothing is a step whatever the provider. *)
Lemma does_silent (w : World) (es : list effect) :
  asked es = [] -> does w es (after es w).
Proof. intros E. split; [reflexivity|]. rewrite E. apply honest_nil. Qed.

Lemma does_asked (w : World) (c : Call) :
  reply c = llm (length (calls w)) (client_of c) (messages c) (temperature c) ->
  does w [Asked c] (after [Asked c] w).
Proof.
  intros E. split; [reflexivity|]. intros [|[|k]] c'; cbn; try discriminate.
  intros [= <-]. rewrite E. f_equal. lia.
Qed.

End EffectFacts.

(** ** The steps of a date exchange *)

Section StepFacts.
Context `{PyRuntime} `{Outside}.

Lemma ret_inv {A} (a b : A) (w w1 : World) :
  ret a w = (Ok b, w1) -> b = a /\ w1 = w.
Proof. unfold ret. now intros [= -> ->]. Qed.

Lemma chat_does from client msgs temp w r w1 :
  OpenRouter.chat from client msgs temp w = (Ok r, w1) ->
  does w [Asked (mkCall from client msgs temp (Some r))] w1.
Proof.
  intros E. apply chat_inv in E as [Hllm ->].
  apply (does_asked w (mkCall from client msgs temp (Some r))).
  cbn. now rewrite Hllm.
Qed.

Lemma chat_any from client msgs temp w :
  exists answer,
    OpenRouter.chat from client msgs temp w
    = (match answer with
       | Some s => Ok s
       | None => Raise (llm_error (length (calls w)) client msgs temp)
       end,
       after [Asked (mkCall from client msgs temp answer)] w)
    /\ does w [Asked (mkCall from client msgs temp answer)]
            (after [Asked (mkCall from client msgs temp answer)] w).
Proof.
  exists (llm (length (calls w)) client msgs temp). split.
  - apply chat_run.
  - now apply does_asked.
Qed.

Lemma time_time_run (w : World) :
  OpenRouter.time_time w = (Ok (clock (ticks w)), after [ReadClock] w).
Proof. reflexivity. Qed.

Lemma evaluator_write_run (txt : string) (md : dict) (w : World) :
  evaluator_write txt md w = (Ok tt, after [EvaluatorWrote (Entry txt md)] w).
Proof.
  unfold evaluator_write. cbn [after fold_left apply_effect].
  unfold set_evaluator, ev_set_memory, remember. cbn [Mem.write snd].
  now rewrite or_empty_spec.
Qed.

Lemma matchmaker_write_run (ref txt : string) (md : dict) (w : World)
    (a : MatchmakerAgent) :
  matchmakers w !! ref = Some a ->
  matchmaker_write ref txt md w
  = (Ok tt, after [MatchmakerWrote ref (Entry txt md)] w).
Proof.
  intros Ha. unfold matchmaker_write. cbn [after fold_left apply_effect].
  rewrite Ha. unfold ma_set_memory, remember. cbn [Mem.write snd].
  now rewrite or_empty_spec.
Qed.

Lemma write_if_present_run (agent : option string) (txt : string) (md : dict)
    (w : World) :
  Evaluator.write_if_present agent txt md w
  = (Ok tt,
     after match agent with
           | Some ref => [MatchmakerWrote ref (Entry txt md)]
           | None => []
           end w).
Proof.
  unfold Evaluator.write_if_present.
  destruct agent as [ref|]; cbn [deref]; [|reflexivity].
  destruct (matchmakers w !! ref) as [a|] eqn:Ha.
  - now apply matchmaker_write_run with (a := a).
  - cbn [after fold_left apply_effect]. now rewrite Ha.
Qed.

Lemma extract_intake_summary_run (agent : option string) (w : World) :
  Evaluator._extract_intake_summary agent w
  = (Ok (Evaluator.intake_of w agent), w).
Proof.
  unfold Evaluator._extract_intake_summary, Evaluator.intake_of.
  now destruct (deref w agent).
Qed.

Lemma when_write_run (c : bool) (txt : string) (md : dict) (w : World) :
  when c (evaluator_write txt md) w
  = (Ok tt, after (if c then [EvaluatorWrote (Entry txt md)] else []) w).
Proof. destruct c; [apply evaluator_write_run | reflexivity]. Qed.

Lemma clock_reads_asked (cs : list Call) : clock_reads (map Asked cs) = 0%nat.
Proof. induction cs as [|c cs IH]; [reflexivity | exact IH]. Qed.

(** The delta insight always returns: a call, answered or not. *)
Lemma delta_insight_run user_a user_b intake_a intake_b scene transcript_text
    evaluator_notes client w :
  exists answer,
    Evaluator._generate_delta_insight user_a user_b intake_a intake_b scene
      transcript_text evaluator_notes client w
    = (Ok (Exchange.stripped answer),
       after [Exchange.asks client DeltaInsight
                (Prompts.delta_insight_prompt user_a user_b intake_a intake_b
                   scene transcript_text
                   (Evaluator.notes_text_of evaluator_notes))
                0.5%float answer] w)
    /\ does w [Exchange.asks client DeltaInsight
                 (Prompts.delta_insight_prompt user_a user_b intake_a intake_b
                    scene transcript_text
                    (Evaluator.notes_text_of evaluator_notes))
                 0.5%float answer]
            (after [Exchange.asks client DeltaInsight
                      (Prompts.delta_insight_prompt user_a user_b intake_a
                         intake_b scene transcript_text
                         (Evaluator.notes_text_of evaluator_notes))
                      0.5%float answer] w).
Proof.
  unfold Evaluator._generate_delta_insight, try_except, bind. cbv zeta.
  destruct (chat_any DeltaInsight client
              [("user",
                Prompts.delta_insight_prompt user_a user_b intake_a intake_b
                  scene transcript_text
                  (Evaluator.notes_text_of evaluator_notes))]
              0.5%float w) as (answer & -> & Hdoes).
  exists answer. split; [|exact Hdoes].
  now destruct answer.
Qed.

(** A reflection always returns: nothing for an absent agent, else a
    call, answered or not, and an entry when it is answered. *)
Lemma reflection_run agent self_user other_user self_intake scene
    transcript_text client ts w :
  exists o,
    (o = None <-> deref w agent = None)
    /\ Evaluator._write_matchmaker_reflection agent self_user other_user
         self_intake scene transcript_text client ts w
       = (Ok (Exchange.reflection_of o),
          after (Exchange.reflection_effects client ts scene transcript_text
                   agent self_user other_user self_intake o) w)
    /\ does w (Exchange.reflection_effects client ts scene transcript_text
                 agent self_user other_user self_intake o)
            (after (Exchange.reflection_effects client ts scene
                      transcript_text agent self_user other_user self_intake o)
                   w).
Proof.
  unfold Evaluator._write_matchmaker_reflection.
  destruct agent as [ref|]; cbn [deref].
  2:{ exists None. split; [tauto|]. split; [reflexivity | apply does_nil]. }
  destruct (matchmakers w !! ref) as [a|] eqn:Ha.
  2:{ exists None. split; [tauto|]. split; [reflexivity | apply does_nil]. }
  unfold try_except, bind.
  destruct (chat_any Reflection client
              [("user",
                Prompts.reflection_prompt self_user other_user self_intake
                  scene transcript_text)]
              0.6%float w) as (answer & -> & Hdoes).
  exists (Some answer). split; [split; discriminate|].
  destruct answer as [r|]; cbn [Exchange.reflection_effects].
  - assert (Ha' : matchmakers
                    (after [Asked (mkCall Reflection client
                              [("user",
                                Prompts.reflection_prompt self_user other_user
                                  self_intake scene transcript_text)]
                              0.6%float (Some r))] w) !! ref = Some a)
      by exact Ha.
    rewrite (matchmaker_write_run _ _ _ _ _ Ha').
    unfold ret. split.
    + reflexivity.
    + apply (does_trans _ _ _ [_] [_] Hdoes).
      apply (does_silent _ [MatchmakerWrote ref _]). reflexivity.
  - split; [reflexivity | exact Hdoes].
Qed.

(** The dialogue loop that returned asked one call per turn, each of
    them answered. *)
Lemma dialogue_loop user_a user_b intake_a intake_b scene test_moment client
    (n : nat) :
  forall i transcript running w st w1,
    for_each (seq i n)
      (Evaluator.dialogue_turn user_a user_b intake_a intake_b scene
         test_moment client)
      (transcript, running) w
    = (Ok st, w1) ->
    exists replies,
      length replies = n
      /\ fst st
         = snd (Exchange.turns_from user_a user_b intake_a intake_b client
                  scene test_moment i transcript running replies)
      /\ does w
           (map Asked
              (fst (Exchange.turns_from user_a user_b intake_a intake_b client
                      scene test_moment i transcript running replies)))
           w1.
Proof.
  induction n as [|n IH]; intros i transcript running w st w1 Hrun.
  - apply ret_inv in Hrun as [-> ->]. exists []. repeat split.
    apply does_nil.
  - cbn [seq for_each] in Hrun.
    apply bind_inv in Hrun as ([tr' run'] & w0 & Hturn & Hrest).
    unfold Evaluator.dialogue_turn in Hturn.
    apply bind_inv in Hturn as (r & w0' & Hchat & Hret).
    apply ret_inv in Hret as [[= -> ->] ->].
    apply chat_does in Hchat.
    apply IH in Hrest as (replies & Hlen & Hst & Hdoes).
    exists (r :: replies). cbn [length Exchange.turns_from].
    destruct (Exchange.turns_from user_a user_b intake_a intake_b client scene
                test_moment (S i) _ _ replies) as [cs tr] eqn:Hturns.
    cbn [fst snd map] in *.
    split; [now rewrite Hlen|]. split; [exact Hst|].
    apply (does_trans _ _ _ [_] _ Hchat Hdoes).
Qed.

(** What a date exchange that returned did: it consumed answers, one per
    call, and its result and its effects are those that [Exchange]
    computes from the answers. *)
Lemma run_date_exchange_inv user_a agent_a user_b agent_b client w e w' :
  Evaluator.run_date_exchange user_a agent_a user_b agent_b client w
  = (Ok e, w') ->
  exists R,
    length (on_turns R) = 6%nat
    /\ (on_reflection_a R = None <-> deref w agent_a = None)
    /\ (on_reflection_b R = None <-> deref w agent_b = None)
    /\ e = Exchange.result user_a user_b (Evaluator.intake_of w agent_a)
             (Evaluator.intake_of w agent_b) client R
    /\ does w
         (Exchange.effects user_a user_b agent_a agent_b
            (Evaluator.intake_of w agent_a) (Evaluator.intake_of w agent_b)
            client (clock (ticks w)) R)
         w'.
Proof.
  intros Hrun. unfold Evaluator.run_date_exchange in Hrun.
  rewrite (bind_ok _ _ _ _ _ (extract_intake_summary_run agent_a w)) in Hrun.
  rewrite (bind_ok _ _ _ _ _ (extract_intake_summary_run agent_b w)) in Hrun.
  set (intake_a := Evaluator.intake_of w agent_a) in *.
  set (intake_b := Evaluator.intake_of w agent_b) in *.
  apply bind_inv in Hrun as (scene_r & w1 & Hscene & Hrun).
  apply chat_does in Hscene.
  apply bind_inv in Hrun as (tm_r & w2 & Htm & Hrun).
  apply chat_does in Htm.
  apply bind_inv in Hrun as (st & w3 & Hloop & Hrun).
  apply dialogue_loop in Hloop as (turns & Hlen & Hst & Hturns).
  apply bind_inv in Hrun as (notes_r & w4 & Hnotes & Hrun).
  apply chat_does in Hnotes.
  rewrite (bind_ok _ _ _ _ _ (time_time_run w4)) in Hrun.
  pose proof (does_trans _ _ _ _ _ Hscene
                (does_trans _ _ _ _ _ Htm
                   (does_trans _ _ _ _ _ Hturns Hnotes))) as Hfour.
  assert (Hticks : ticks w4 = ticks w).
  { destruct Hfour as [-> _]. rewrite ticks_after.
    unfold clock_reads. rewrite !List.filter_app, !length_app.
    fold (clock_reads (map Asked
            (fst (Exchange.turns_from user_a user_b intake_a intake_b client
                    (PyStr.strip scene_r) (Evaluator.bracketed tm_r) 0 []
                    EmptyString turns)))).
    rewrite clock_reads_asked. cbn. lia. }
  rewrite Hticks in Hrun.
  set (ts := clock (ticks w)) in *.
  match type of Hrun with
  | context [Evaluator._generate_delta_insight ?ua ?ub ?ia ?ib ?sc ?tt ?en ?cl] =>
      destruct (delta_insight_run ua ub ia ib sc tt en cl
                  (after [ReadClock] w4)) as (delta & Hdelta & Hddoes)
  end.
  rewrite (bind_ok _ _ _ _ _ Hdelta) in Hrun.
  rewrite (bind_ok _ _ _ _ _ (when_write_run _ _ _ _)) in Hrun.
  rewrite (bind_ok _ _ _ _ _ (write_if_present_run _ _ _ _)) in Hrun.
  rewrite (bind_ok _ _ _ _ _ (write_if_present_run _ _ _ _)) in Hrun.
  rewrite (bind_ok _ _ _ _ _ (evaluator_write_run _ _ _)) in Hrun.
  match type of Hrun with
  | bind (Evaluator._write_matchmaker_reflection ?ag ?su ?ou ?si ?sc ?tt ?cl ?t)
         _ ?w0 = _ =>
      destruct (reflection_run ag su ou si sc tt cl t w0)
        as (oa & Hoa & Hra & Hadoes)
  end.
  rewrite (bind_ok _ _ _ _ _ Hra) in Hrun.
  match type of Hrun with
  | bind (Evaluator._write_matchmaker_reflection ?ag ?su ?ou ?si ?sc ?tt ?cl ?t)
         _ ?w0 = _ =>
      destruct (reflection_run ag su ou si sc tt cl t w0)
        as (ob & Hob & Hrb & Hbdoes)
  end.
  rewrite (bind_ok _ _ _ _ _ Hrb) in Hrun.
  apply bind_inv in Hrun as (score & w5 & Hscore & Hrun).
  unfold Evaluator.score_date_exchange in Hscore.
  apply bind_inv in Hscore as (score_r & w5' & Hchat & Hret).
  apply ret_inv in Hret as [-> ->]. apply chat_does in Hchat.
  rewrite (bind_ok _ _ _ _ _ (evaluator_write_run _ _ _)) in Hrun.
  apply ret_inv in Hrun as [-> ->].
  exists (mkReplies scene_r tm_r turns notes_r delta oa ob score_r).
  cbn [on_turns on_reflection_a on_reflection_b].
  split; [exact Hlen|].
  split; [rewrite Hoa, !deref_after; destruct Hfour as [-> _];
          now rewrite deref_after|].
  split; [rewrite Hob, !deref_after; destruct Hfour as [-> _];
          now rewrite deref_after|].
  split.
  - unfold Exchange.result, Exchange.transcript, Exchange.scene,
      Exchange.test_moment, Exchange.evaluator_notes, Exchange.delta_insight,
      Exchange.score.
    cbn [on_scene on_test_moment on_turns on_notes on_delta on_reflection_a
         on_reflection_b on_score].
    now rewrite <- Hst.
  - unfold Exchange.effects, Exchange.turn_calls, Exchange.transcript_text,
      Exchange.transcript, Exchange.scene, Exchange.test_moment,
      Exchange.evaluator_notes, Exchange.delta_insight, Exchange.score.
    cbn [on_scene on_test_moment on_turns on_notes on_delta on_reflection_a
         on_reflection_b on_score].
    rewrite <- Hst.
    apply (does_trans _ _ _ [_] _ Hscene).
    apply (does_trans _ _ _ [_] _ Htm).
    apply (does_trans _ _ _ _ _ Hturns).
    apply (does_trans _ _ _ [_] _ Hnotes).
    apply (does_trans _ _ _ [ReadClock] _ (does_silent _ [ReadClock] eq_refl)).
    apply (does_trans _ _ _ [_] _ Hddoes).
    eapply does_trans.
    { apply does_silent. now destruct (PyStr.nonempty _). }
    eapply does_trans.
    { apply does_silent. unfold Exchange.stores. now destruct agent_a. }
    eapply does_trans.
    { apply does_silent. unfold Exchange.stores. now destruct agent_b. }
    apply (does_trans _ _ _ [_] _ (does_silent _ [EvaluatorWrote _] eq_refl)).
    apply (does_trans _ _ _ _ _ Hadoes).
    apply (does_trans _ _ _ _ _ Hbdoes).
    apply (does_trans _ _ _ [_] [_] Hchat).
    apply (does_silent _ [EvaluatorWrote _]). reflexivity.
Qed.

End StepFacts.

(** ** Returning *)

Section ReturnFacts.
Context `{PyRuntime} `{Outside}.

Lemma returns_ret {A} (a : A) : returns (ret a).
Proof. intros w. now exists a, w. Qed.

Lemma returns_bind {A B} (m : M A) (k : A -> M B) :
  returns m -> (forall a, returns (k a)) -> returns (bind m k).
Proof.
  intros Hm Hk w. destruct (Hm w) as (a & w1 & E).
  destruct (Hk a w1) as (b & w2 & E'). exists b, w2.
  now rewrite (bind_ok _ _ _ _ _ E).
Qed.

Lemma returns_chat from client msgs temp :
  answers_all -> returns (OpenRouter.chat from client msgs temp).
Proof.
  intros Hall w. destruct (Hall (length (calls w)) client msgs temp) as [r Hr].
  eexists _, _. apply (chat_answered _ _ _ _ _ _ Hr).
Qed.

Lemma returns_for_each {A S} (xs : list A) (body : A -> S -> M S) :
  (forall x s, returns (body x s)) -> forall s, returns (for_each xs body s).
Proof.
  intros Hbody. induction xs as [|x xs IH]; intros s; cbn [for_each].
  - apply returns_ret.
  - apply returns_bind; [apply Hbody | exact IH].
Qed.

(** With a provider that answers, a date exchange returns. *)
Lemma run_date_exchange_returns user_a agent_a user_b agent_b client :
  answers_all ->
  returns (Evaluator.run_date_exchange user_a agent_a user_b agent_b client).
Proof.
  intros Hall. unfold Evaluator.run_date_exchange.
  apply returns_bind;
    [intros w; eexists _, _; apply extract_intake_summary_run | intros intake_a].
  apply returns_bind;
    [intros w; eexists _, _; apply extract_intake_summary_run | intros intake_b].
  apply returns_bind; [now apply returns_chat | intros scene].
  apply returns_bind; [now apply returns_chat | intros test_moment].
  apply returns_bind.
  { apply returns_for_each. intros turn [transcript running].
    unfold Evaluator.dialogue_turn.
    apply returns_bind; [now apply returns_chat | intros r; apply returns_ret]. }
  intros st.
  apply returns_bind; [now apply returns_chat | intros notes].
  apply returns_bind; [intros w; eexists _, _; apply time_time_run | intros ts].
  apply returns_bind.
  { intros w.
    destruct (delta_insight_run user_a user_b intake_a intake_b
                (PyStr.strip scene)
                (Evaluator.transcript_text_of (fst st))
                (Evaluator.evaluator_notes_of notes) client w)
      as (answer & E & _).
    eexists _, _. exact E. }
  intros delta.
  apply returns_bind;
    [intros w; eexists _, _; apply when_write_run | intros _].
  apply returns_bind;
    [intros w; eexists _, _; apply write_if_present_run | intros _].
  apply returns_bind;
    [intros w; eexists _, _; apply write_if_present_run | intros _].
  apply returns_bind;
    [intros w; eexists _, _; apply evaluator_write_run | intros _].
  apply returns_bind.
  { intros w.
    destruct (reflection_run agent_a user_a user_b intake_a (PyStr.strip scene)
                (Evaluator.transcript_text_of (fst st)) client ts w)
      as (o & _ & E & _).
    eexists _, _. exact E. }
  intros reflection_a.
  apply returns_bind.
  { intros w.
    destruct (reflection_run agent_b user_b user_a intake_b (PyStr.strip scene)
                (Evaluator.transcript_text_of (fst st)) client ts w)
      as (o & _ & E & _).
    eexists _, _. exact E. }
  intros reflection_b.
  apply returns_bind.
  { unfold Evaluator.score_date_exchange.
    apply returns_bind; [now apply returns_chat | intros r; apply returns_ret]. }
  intros score.
  apply returns_bind;
    [intros w; eexists _, _; apply evaluator_write_run | intros _].
  apply returns_ret.
Qed.

End ReturnFacts.

(** ** The transcript *)

Section TranscriptFacts.
Context `{PyRuntime} `{Outside}.

Variables (user_a user_b : User) (intake_a intake_b : value).
Variables (client : OpenRouterClient) (scene test_moment : string).

Lemma snd_let {A B C} (p : A * B) (f : A -> C) :
  snd (let '(a, b) := p in (f a, b)) = snd p.
Proof. now destruct p. Qed.

Lemma fst_let {A B C} (p : A * B) (f : A -> C) :
  fst (let '(a, b) := p in (f a, b)) = f (fst p).
Proof. now destruct p. Qed.

Lemma turns_spoken (replies : list string) :
  forall turn transcript running,
    snd (Exchange.turns_from user_a user_b intake_a intake_b client scene
           test_moment turn transcript running replies)
    = transcript ++ Exchange.spoken user_a user_b turn replies.
Proof.
  induction replies as [|r rest IH]; intros turn transcript running;
    cbn [Exchange.turns_from Exchange.spoken].
  - cbn. now rewrite app_nil_r.
  - rewrite snd_let, IH. now rewrite <- app_assoc.
Qed.

Lemma turns_nth (replies : list string) :
  forall turn transcript running k r,
    nth_error replies k = Some r ->
    exists sys,
      nth_error
        (fst (Exchange.turns_from user_a user_b intake_a intake_b client scene
                test_moment turn transcript running replies)) k
      = Some (mkCall (DialogueTurn (turn + k)) client
                [("system", sys);
                 ("user", Evaluator.user_prompt test_moment (turn + k))]
                0.7%float (Some r)).
Proof.
  induction replies as [|r0 rest IH]; intros turn transcript running k r Hk.
  - now destruct k.
  - cbn [Exchange.turns_from]. rewrite fst_let.
    destruct k as [|k]; cbn [nth_error] in *.
    + injection Hk as <-. rewrite Nat.add_0_r. eexists. reflexivity.
    + replace (turn + S k)%nat with (S turn + k)%nat by lia.
      now apply IH.
Qed.

Lemma turns_length (replies : list string) :
  forall turn transcript running,
    length (fst (Exchange.turns_from user_a user_b intake_a intake_b client
                   scene test_moment turn transcript running replies))
    = length replies.
Proof.
  induction replies as [|r rest IH]; intros turn transcript running;
    cbn [Exchange.turns_from]; [reflexivity|].
  rewrite fst_let. cbn [length]. now rewrite IH.
Qed.

Lemma spoken_nth (replies : list string) :
  forall turn k r,
    nth_error replies k = Some r ->
    nth_error (Exchange.spoken user_a user_b turn replies) k
    = Some (mkTurn (if ((turn + k) mod 2 =? 0)%nat then "A" else "B")
                   (display_name
                      (if ((turn + k) mod 2 =? 0)%nat then user_a else user_b))
                   (PyStr.strip r)).
Proof.
  induction replies as [|r0 rest IH]; intros turn k r Hk.
  - now destruct k.
  - destruct k as [|k]; cbn [Exchange.spoken nth_error] in *.
    + injection Hk as <-. now rewrite Nat.add_0_r.
    + rewrite (IH (S turn) k r Hk).
      now replace (S turn + k)%nat with (turn + S k)%nat by lia.
Qed.

Lemma spoken_length (replies : list string) :
  forall turn,
    length (Exchange.spoken user_a user_b turn replies) = length replies.
Proof.
  induction replies as [|r rest IH]; intros turn; cbn; [reflexivity|].
  now rewrite IH.
Qed.

End TranscriptFacts.

Section DateExchangeTranscript.
Context `{PyRuntime} `{Outside}.

Lemma prefix_head (c : ascii) (s : string) :
  String.prefix (String c EmptyString) s = true -> exists t, s = String c t.
Proof.
  destruct s as [|d t]; cbn; [discriminate|].
  destruct (Ascii.ascii_dec c d) as [->|]; [eauto | discriminate].
Qed.

Lemma bracketed_starts (raw : string) :
  PyStr.startswith (Evaluator.bracketed raw) "[" = true.
Proof.
  unfold Evaluator.bracketed.
  destruct (PyStr.startswith (PyStr.strip raw) "[") eqn:E; cbn [negb].
  - exact E.
  - unfold PyStr.startswith.
    change ("[" +:+ PyStr.strip raw +:+ "]")
      with (String "[" (PyStr.strip raw +:+ "]")).
    cbn [String.prefix].
    destruct (ascii_dec "[" "["); [|congruence].
    now destruct (PyStr.strip raw +:+ "]").
Qed.

Lemma contains_head (c : ascii) (t s : string) :
  PyStr.contains (String c t) s = true -> PyStr.mem_char c s = true.
Proof.
  induction s as [|d s IH]; cbn [PyStr.contains PyStr.mem_char String.prefix].
  - discriminate.
  - destruct (Ascii.ascii_dec c d) as [->|Hne].
    + intros _. now rewrite Ascii.eqb_refl.
    + cbn [orb]. intros Hc. rewrite (IH Hc). apply orb_true_r.
Qed.

(** The test moment is no part of the instruction of the other turns. *)
Lemma test_moment_apart (raw : string) :
  PyStr.contains (Evaluator.bracketed raw) "Continue the conversation naturally."
  = false.
Proof.
  destruct (prefix_head _ _ (bracketed_starts raw)) as (t & ->).
  destruct (PyStr.contains _ _) eqn:E; [|reflexivity].
  apply contains_head in E. discriminate E.
Qed.

Lemma asked_effects_start user_a user_b agent_a agent_b intake_a intake_b
    client ts R :
  exists rest,
    asked (Exchange.effects user_a user_b agent_a agent_b intake_a intake_b
             client ts R)
    = [mkCall Scene client [("user", Prompts.scene_prompt user_a user_b)]
              0.7%float (Some (on_scene R));
       mkCall TestMoment client [("user", Prompts.test_moment_prompt)]
              0.8%float (Some (on_test_moment R))]
      ++ Exchange.turn_calls user_a user_b intake_a intake_b client R
      ++ rest.
Proof.
  unfold Exchange.effects. rewrite !asked_app, asked_map.
  eexists. reflexivity.
Qed.

(** C2. With a provider that answers, [run_date_exchange] returns a
    transcript of exactly six turns whose speakers are A, B, A, B, A, B.
    Turn [i] is the call number [2 + i] of the exchange; its user prompt is
    the test moment followed by "Respond naturally to what just happened."
    at the third turn (index 2) and the fixed instruction "Continue the
    conversation naturally." at every other turn, which the test moment is
    no part of; and the text of the turn is the provider's answer to that
    call, stripped. The test moment is the bracketed answer to the call
    before the turns. *)
Theorem date_exchange_transcript (user_a : User) (agent_a : option string)
    (user_b : User) (agent_b : option string) (client : OpenRouterClient)
    (w : World) :
  answers_all ->
  exists e w' transcript test_moment,
    Evaluator.run_date_exchange user_a agent_a user_b agent_b client w
    = (Ok e, w')
    /\ Dict.get "transcript" e = Some (VList (map value_of_turn transcript))
    /\ length transcript = 6%nat
    /\ map speaker transcript = ["A"; "B"; "A"; "B"; "A"; "B"]
    /\ (exists c raw,
          nth_error (calls w') (length (calls w) + 1) = Some c
          /\ site c = TestMoment
          /\ reply c = Some raw
          /\ test_moment = Evaluator.bracketed raw)
    /\ PyStr.contains test_moment "Continue the conversation naturally." = false
    /\ forall i, (i < 6)%nat ->
         exists c sys answer,
           nth_error (calls w') (length (calls w) + 2 + i) = Some c
           /\ site c = DialogueTurn i
           /\ messages c
              = [("system", sys);
                 ("user",
                  if (i =? 2)%nat
                  then test_moment +:+ PyStr.NL
                       +:+ "Respond naturally to what just happened."
                  else "Continue the conversation naturally.")]
           /\ llm (length (calls w) + 2 + i) (client_of c) (messages c)
                  (temperature c) = Some answer
           /\ nth_error transcript i
              = Some (mkTurn (if (i mod 2 =? 0)%nat then "A" else "B")
                             (display_name
                                (if (i mod 2 =? 0)%nat then user_a else user_b))
                             (PyStr.strip answer)).
Proof.
  intros Hall.
  destruct (run_date_exchange_returns user_a agent_a user_b agent_b client
              Hall w) as (e & w' & Hrun).
  destruct (run_date_exchange_inv _ _ _ _ _ _ _ _ Hrun)
    as (R & Hlen & _ & _ & He & Hw' & Hhonest).
  exists e, w', (Exchange.spoken user_a user_b 0 (on_turns R)),
    (Evaluator.bracketed (on_test_moment R)).
  split; [exact Hrun|].
  split.
  { rewrite He. unfold Exchange.result, Exchange.transcript.
    rewrite turns_spoken. reflexivity. }
  split; [now rewrite spoken_length|].
  split.
  { destruct (on_turns R) as [|r0 [|r1 [|r2 [|r3 [|r4 [|r5 [|]]]]]]];
      try discriminate Hlen. reflexivity. }
  destruct (asked_effects_start user_a user_b agent_a agent_b
              (Evaluator.intake_of w agent_a) (Evaluator.intake_of w agent_b)
              client (clock (ticks w)) R) as (rest & Hasked).
  rewrite Hasked in Hhonest.
  assert (Hcalls : forall k,
            nth_error (calls w') (length (calls w) + k)
            = nth_error
                ([mkCall Scene client
                    [("user", Prompts.scene_prompt user_a user_b)]
                    0.7%float (Some (on_scene R));
                  mkCall TestMoment client
                    [("user", Prompts.test_moment_prompt)]
                    0.8%float (Some (on_test_moment R))]
                 ++ Exchange.turn_calls user_a user_b
                      (Evaluator.intake_of w agent_a)
                      (Evaluator.intake_of w agent_b) client R
                 ++ rest) k).
  { intros k. rewrite Hw', calls_after, Hasked.
    rewrite nth_error_app2 by lia. f_equal. lia. }
  split.
  { eexists _, _. rewrite Hcalls. cbn [nth_error app].
    split; [reflexivity|]. repeat split. }
  split; [apply test_moment_apart|].
  intros i Hi.
  destruct (nth_error (on_turns R) i) as [r|] eqn:Hr.
  2:{ apply nth_error_None in Hr. lia. }
  destruct (turns_nth user_a user_b (Evaluator.intake_of w agent_a)
              (Evaluator.intake_of w agent_b) client (Exchange.scene R)
              (Exchange.test_moment R) (on_turns R) 0 [] EmptyString i r Hr)
    as (sys & Hnth).
  fold (Exchange.turn_calls user_a user_b (Evaluator.intake_of w agent_a)
          (Evaluator.intake_of w agent_b) client R) in Hnth.
  assert (Hat : nth_error
                  ([mkCall Scene client
                      [("user", Prompts.scene_prompt user_a user_b)]
                      0.7%float (Some (on_scene R));
                    mkCall TestMoment client
                      [("user", Prompts.test_moment_prompt)]
                      0.8%float (Some (on_test_moment R))]
                   ++ Exchange.turn_calls user_a user_b
                        (Evaluator.intake_of w agent_a)
                        (Evaluator.intake_of w agent_b) client R
                   ++ rest) (2 + i)
                = Some (mkCall (DialogueTurn (0 + i)) client
                          [("system", sys);
                           ("user",
                            Evaluator.user_prompt (Exchange.test_moment R)
                              (0 + i))]
                          0.7%float (Some r))).
  { cbn [app nth_error Nat.add]. rewrite nth_error_app1; [exact Hnth|].
    apply nth_error_Some. now rewrite Hnth. }
  eexists _, sys, r.
  replace (length (calls w) + 2 + i)%nat with (length (calls w) + (2 + i))%nat
    by lia.
  rewrite Hcalls, Hat. split; [reflexivity|].
  cbn [site messages client_of temperature Nat.add].
  split; [reflexivity|]. split; [reflexivity|].
  split.
  { symmetry. apply (Hhonest (2 + i)%nat _ Hat). }
  now rewrite (spoken_nth user_a user_b (on_turns R) 0 i r Hr).
Qed.

End DateExchangeTranscript.

Lemma date_exchange_transcript_witness :
  exists e w' transcript,
    @Evaluator.run_date_exchange Ref.runtime (Sample.always " hi ")
      Sample.jordan (Some "user_001") Sample.alex (Some "user_002") Ref.client
      Registry.initial
    = (Ok e, w')
    /\ Dict.get "transcript" e = Some (VList (map value_of_turn transcript))
    /\ map speaker transcript = ["A"; "B"; "A"; "B"; "A"; "B"]
    /\ nth_error (map said transcript) 2 = Some "hi".
Proof.
  destruct (@date_exchange_transcript Ref.runtime (Sample.always " hi ")
              Sample.jordan (Some "user_001") Sample.alex (Some "user_002")
              Ref.client Registry.initial)
    as (e & w' & transcript & tm & Hrun & Htr & _ & Hsp & _ & _ & Hturn).
  - intros n c m t. exists " hi ". reflexivity.
  - exists e, w', transcript. split; [exact Hrun|]. split; [exact Htr|].
    split; [exact Hsp|].
    destruct (Hturn 2%nat) as (c & sys & answer & _ & _ & _ & Hllm & Hnth);
      [lia|].
    injection Hllm as <-.
    rewrite nth_error_map, Hnth. reflexivity.
Defined.

(** ** The pipeline *)

Section PipelineFacts.
Context `{PyRuntime} `{Outside}.




(** An intake summary that returned asked one call, read the clock and
    wrote one entry in the agent's memory. *)
Lemma run_intake_summary_inv (self : string) (client : OpenRouterClient)
    (extra : option string) (w w1 : World) (summary : dict) :
  Matchmaker.run_intake_summary self client extra w = (Ok summary, w1) ->
  exists agent response,
    matchmakers w !! self = Some agent
    /\ summary = Matchmaker.summary_of response
    /\ does w
         [Asked (mkCall IntakeSummary client
                   [("user",
                     Matchmaker.intake_prompt (ma_user_profile agent) extra)]
                   0.7%float (Some response));
          ReadClock;
          MatchmakerWrote self
            (Entry (Matchmaker.intake_memory_text (ma_user_profile agent)
                      summary)
                   [("type", VStr "intake_summary");
                    ("user_id", VStr (ma_user_id agent));
                    ("timestamp", VFloat (clock (ticks w)))])]
         w1.
Proof.
  intros Hrun. pose proof Hrun as Hrun'.
  unfold Matchmaker.run_intake_summary in Hrun'.
  apply bind_inv in Hrun' as (agent & w0 & Hself & Hrest).
  unfold Matchmaker.self_of in Hself.
  destruct (matchmakers w !! self) as [a|] eqn:Ha; [|discriminate].
  injection Hself as <- <-.
  apply bind_inv in Hrest as (response & w2 & Hchat & _).
  pose proof (chat_does _ _ _ _ _ _ _ Hchat) as Hasked.
  apply chat_inv in Hchat as [Hllm _].
  rewrite (run_intake_summary_answered _ _ _ _ _ _ Ha Hllm) in Hrun.
  injection Hrun as <- <-.
  exists a, response. split; [reflexivity|]. split; [reflexivity|].
  apply (does_trans _ _ _ [_] [_; _] Hasked).
  split; [|apply honest_nil].
  rewrite (proj1 Hasked).
  cbn [after fold_left apply_effect matchmakers set_ticks set_calls].
  now rewrite Ha.
Qed.







(** A pipeline report that returned asked one call, read the clock and
    wrote one entry in the evaluator's memory. *)
Lemma generate_pipeline_report_inv user_a agent_a user_b agent_b exchanges
    client w report w1 :
  Evaluator.generate_pipeline_report user_a agent_a user_b agent_b exchanges
    client w = (Ok report, w1) ->
  exists c raw e,
    does w [Asked c; ReadClock; EvaluatorWrote e] w1
    /\ site c = PipelineReport
    /\ reply c = Some raw
    /\ report = PyStr.strip raw.
Proof.
  unfold Evaluator.generate_pipeline_report. intros Hrun.
  rewrite (bind_ok _ _ _ _ _ (extract_intake_summary_run agent_a w)) in Hrun.
  rewrite (bind_ok _ _ _ _ _ (extract_intake_summary_run agent_b w)) in Hrun.
  apply bind_inv in Hrun as (compat & w2 & Hc & Hrun).
  unfold Evaluator.lift in Hc. injection Hc as _ <-.
  apply bind_inv in Hrun as (a_vals & w2 & Hc & Hrun).
  unfold Evaluator.lift in Hc. injection Hc as _ <-.
  apply bind_inv in Hrun as (b_vals & w2 & Hc & Hrun).
  unfold Evaluator.lift in Hc. injection Hc as _ <-.
  apply bind_inv in Hrun as (quotes & w2 & Hc & Hrun).
  unfold Evaluator.lift in Hc. injection Hc as _ <-.
  apply bind_inv in Hrun as (raw & w2 & Hchat & Hrun).
  apply chat_does in Hchat.
  rewrite (bind_ok _ _ _ _ _ (time_time_run w2)) in Hrun.
  rewrite (bind_ok _ _ _ _ _ (evaluator_write_run _ _ _)) in Hrun.
  apply ret_inv in Hrun as [-> ->].
  eexists _, raw, _. split.
  - apply (does_trans _ _ _ [_] [_; _] Hchat).
    apply (does_silent _ [ReadClock; EvaluatorWrote _]). reflexivity.
  - repeat split.
Qed.

End PipelineFacts.

Section PipelineOrder.
Context `{PyRuntime} `{Outside}.


End PipelineOrder.



(** ** Calls and state of the agent operations *)

Section FacadeFacts.
Context `{PyRuntime} `{Outside}.

Lemma evaluator_wrote_app (es1 es2 : list effect) :
  evaluator_wrote (es1 ++ es2) = evaluator_wrote es1 ++ evaluator_wrote es2.
Proof. apply flat_map_app. Qed.

Lemma evaluator_wrote_asked (cs : list Call) :
  evaluator_wrote (map Asked cs) = [].
Proof. induction cs as [|c cs IH]; [reflexivity | exact IH]. Qed.

Lemma reflection_effects_asked client ts scene transcript_text agent
    self_user other_user self_intake o w :
  (o = None <-> deref w agent = None) ->
  length (asked (Exchange.reflection_effects client ts scene transcript_text
                   agent self_user other_user self_intake o))
  = Facade.present w agent
  /\ evaluator_wrote
       (Exchange.reflection_effects client ts scene transcript_text agent
          self_user other_user self_intake o) = [].
Proof.
  intros Ho. unfold Facade.present, Exchange.reflection_effects.
  destruct agent as [ref|]; cbn [deref] in *.
  - destruct o as [[r|]|], (matchmakers w !! ref) as [a|]; try (now split).
    + destruct Ho as [_ Ho]. now specialize (Ho eq_refl).
    + destruct Ho as [_ Ho]. now specialize (Ho eq_refl).
    + destruct Ho as [Ho _]. now specialize (Ho eq_refl).
  - destruct o; now split.
Qed.

(** The calls and the evaluator's entries of a date exchange. *)
Lemma effects_counts user_a user_b agent_a agent_b intake_a intake_b client ts
    R w :
  length (on_turns R) = 6%nat ->
  (on_reflection_a R = None <-> deref w agent_a = None) ->
  (on_reflection_b R = None <-> deref w agent_b = None) ->
  let es := Exchange.effects user_a user_b agent_a agent_b intake_a intake_b
              client ts R in
  length (asked es)
  = (11 + Facade.present w agent_a + Facade.present w agent_b)%nat
  /\ (2 <= length (evaluator_wrote es) <= 3)%nat.
Proof.
  intros Hlen Ha Hb es. subst es. unfold Exchange.effects.
  rewrite !asked_app, !evaluator_wrote_app, asked_map, evaluator_wrote_asked.
  rewrite !length_app.
  destruct (reflection_effects_asked client ts (Exchange.scene R)
              (Exchange.transcript_text user_a user_b intake_a intake_b client R)
              agent_a user_a user_b intake_a (on_reflection_a R) w Ha)
    as [-> ->].
  destruct (reflection_effects_asked client ts (Exchange.scene R)
              (Exchange.transcript_text user_a user_b intake_a intake_b client R)
              agent_b user_b user_a intake_b (on_reflection_b R) w Hb)
    as [-> ->].
  unfold Exchange.turn_calls. rewrite turns_length, Hlen.
  unfold Exchange.stores.
  destruct (PyStr.nonempty _), agent_a, agent_b; cbn; lia.
Qed.

(** What a match report that returned did. *)
Lemma generate_match_report_inv user_a agent_a user_b agent_b client w report
    w1 :
  Evaluator.generate_match_report user_a agent_a user_b agent_b client w
  = (Ok report, w1) ->
  exists c e,
    does w [Asked c; ReadClock; EvaluatorWrote e] w1 /\ site c = MatchReport.
Proof.
  unfold Evaluator.generate_match_report. intros Hrun.
  rewrite (bind_ok _ _ _ _ _ (extract_intake_summary_run agent_a w)) in Hrun.
  rewrite (bind_ok _ _ _ _ _ (extract_intake_summary_run agent_b w)) in Hrun.
  apply bind_inv in Hrun as (exch & w2 & Hex & Hrun).
  assert (w2 = w) as ->.
  { unfold Evaluator._extract_latest_date_exchange in Hex.
    destruct (Evaluator.collect w agent_a _ _); [|discriminate].
    destruct (Evaluator.collect w agent_b _ _) as [[|? ?]|]; now inversion Hex. }
  apply bind_inv in Hrun as (raw & w2 & Hchat & Hrun).
  apply chat_does in Hchat.
  rewrite (bind_ok _ _ _ _ _ (time_time_run w2)) in Hrun.
  rewrite (bind_ok _ _ _ _ _ (evaluator_write_run _ _ _)) in Hrun.
  apply ret_inv in Hrun as [-> ->].
  eexists _, _. split.
  - apply (does_trans _ _ _ [_] [_; _] Hchat).
    apply (does_silent _ [ReadClock; EvaluatorWrote _]). reflexivity.
  - reflexivity.
Qed.

(** After one call, a reading of the clock and one entry of the
    evaluator. *)
Lemma one_call_one_entry (w w1 : World) (c : Call) (e : entry) :
  does w [Asked c; ReadClock; EvaluatorWrote e] w1 ->
  calls w1 = calls w ++ [c]
  /\ matchmakers w1 = matchmakers w
  /\ _entries (ev_memory (evaluator w1))
     = _entries (ev_memory (evaluator w)) ++ [e]
  /\ _metadata (ev_memory (evaluator w1)) = _metadata (ev_memory (evaluator w)).
Proof. intros [-> _]. repeat split. Qed.

(** C5, as the code has it. An agent operation reaches the provider
    through [chat] only, one request per call, but the operations differ
    in how many calls they make and in what they leave behind:
    - [process], of either agent, makes no call and changes nothing;
    - [score_date_exchange] makes exactly one call and changes no agent;
    - [run_intake_summary], when it returns, has made exactly one call
      and has added one entry to the memory of its agent, whose earlier
      entries and metadata are as they were, the evaluator being
      untouched;
    - [generate_match_report] and [generate_pipeline_report], when they
      return, have made exactly one call and have added one entry to the
      evaluator's memory, the matchmakers being untouched;
    - [run_date_exchange], when it returns, has made eleven calls and one
      more for each of the two agents that exists, and has added two or
      three entries to the evaluator's memory. *)
Theorem agent_operations_calls_and_state :
  (forall self input w,
      exists o, Matchmaker.process self input w = (o, w))
  /\ (forall input w, exists o, Evaluator.process input w = (o, w))
  /\ (forall scene transcript intake_a intake_b client w,
        exists o c w',
          Evaluator.score_date_exchange scene transcript intake_a intake_b
            client w = (o, w')
          /\ calls w' = calls w ++ [c] /\ site c = ScoreDate
          /\ matchmakers w' = matchmakers w /\ evaluator w' = evaluator w)
  /\ (forall self client extra w summary w',
        Matchmaker.run_intake_summary self client extra w = (Ok summary, w') ->
        exists c e agent agent',
          calls w' = calls w ++ [c] /\ site c = IntakeSummary
          /\ evaluator w' = evaluator w
          /\ matchmakers w !! self = Some agent
          /\ matchmakers w' = <[self := agent']> (matchmakers w)
          /\ _entries (ma_memory agent') = _entries (ma_memory agent) ++ [e]
          /\ _metadata (ma_memory agent') = _metadata (ma_memory agent))
  /\ (forall user_a agent_a user_b agent_b client w report w',
        Evaluator.generate_match_report user_a agent_a user_b agent_b client w
        = (Ok report, w') ->
        exists c e,
          calls w' = calls w ++ [c] /\ site c = MatchReport
          /\ matchmakers w' = matchmakers w
          /\ _entries (ev_memory (evaluator w'))
             = _entries (ev_memory (evaluator w)) ++ [e]
          /\ _metadata (ev_memory (evaluator w'))
             = _metadata (ev_memory (evaluator w)))
  /\ (forall user_a agent_a user_b agent_b exchanges client w report w',
        Evaluator.generate_pipeline_report user_a agent_a user_b agent_b
          exchanges client w = (Ok report, w') ->
        exists c e,
          calls w' = calls w ++ [c] /\ site c = PipelineReport
          /\ matchmakers w' = matchmakers w
          /\ _entries (ev_memory (evaluator w'))
             = _entries (ev_memory (evaluator w)) ++ [e]
          /\ _metadata (ev_memory (evaluator w'))
             = _metadata (ev_memory (evaluator w)))
  /\ (forall user_a agent_a user_b agent_b client w e w',
        Evaluator.run_date_exchange user_a agent_a user_b agent_b client w
        = (Ok e, w') ->
        exists new,
          length (calls w')
          = (length (calls w) + 11 + Facade.present w agent_a
             + Facade.present w agent_b)%nat
          /\ _entries (ev_memory (evaluator w'))
             = _entries (ev_memory (evaluator w)) ++ new
          /\ (2 <= length new <= 3)%nat).
Proof.
  split.
  { intros self input w. unfold Matchmaker.process, bind, Matchmaker.self_of.
    destruct (matchmakers w !! self); eexists; reflexivity. }
  split.
  { intros input w. eexists. reflexivity. }
  split.
  { intros scene transcript intake_a intake_b client w.
    unfold Evaluator.score_date_exchange, bind.
    destruct (chat_any ScoreDate client
                [("user",
                  Prompts.score_prompt scene
                    (Evaluator.transcript_text_of transcript) intake_a intake_b)]
                0.5%float w) as (answer & -> & _).
    destruct answer; eexists _, _, _; (split; [reflexivity|]); repeat split. }
  split.
  { intros self client extra w summary w' Hrun.
    apply run_intake_summary_inv in Hrun
      as (agent & response & Hagent & _ & -> & _).
    eexists _, _, agent, _.
    cbn [after fold_left apply_effect matchmakers set_ticks set_calls].
    rewrite Hagent. cbn [calls matchmakers evaluator set_matchmakers set_ticks
                         set_calls].
    repeat split; try reflexivity. }
  split.
  { intros user_a agent_a user_b agent_b client w report w' Hrun.
    apply generate_match_report_inv in Hrun as (c & e & Hdoes & Hsite).
    exists c, e. destruct (one_call_one_entry _ _ _ _ Hdoes) as (? & ? & ? & ?).
    repeat split; assumption. }
  split.
  { intros user_a agent_a user_b agent_b exchanges client w report w' Hrun.
    apply generate_pipeline_report_inv in Hrun
      as (c & raw & e & Hdoes & Hsite & _).
    exists c, e. destruct (one_call_one_entry _ _ _ _ Hdoes) as (? & ? & ? & ?).
    repeat split; assumption. }
  intros user_a agent_a user_b agent_b client w e w' Hrun.
  destruct (run_date_exchange_inv _ _ _ _ _ _ _ _ Hrun)
    as (R & Hlen & Hoa & Hob & _ & -> & _).
  destruct (effects_counts user_a user_b agent_a agent_b
              (Evaluator.intake_of w agent_a) (Evaluator.intake_of w agent_b)
              client (clock (ticks w)) R w Hlen Hoa Hob) as [Hcalls Hwrote].
  eexists. rewrite calls_after, length_app, Hcalls.
  split; [lia|]. split; [apply evaluator_after | exact Hwrote].
Qed.

End FacadeFacts.

(** C5 as stated fails on both counts. [run_intake_summary] leaves a
    trace: the agent's memory has an entry more. *)
Lemma intake_summary_leaves_trace_counterexample :
  ~ Facade.single_call_and_no_trace
      (@Matchmaker.run_intake_summary Ref.runtime (Sample.always "ok")
         "user_001" Ref.client None).
Proof.
  intros Hclaim. destruct (Hclaim Registry.initial) as (_ & Hsame & _).
  apply (f_equal (fun ms => ms !! "user_001")) in Hsame.
  vm_compute in Hsame. discriminate Hsame.
Qed.

(** And [run_date_exchange] makes thirteen calls, not one. *)
Lemma date_exchange_thirteen_calls :
  length (calls (snd (@Evaluator.run_date_exchange Ref.runtime
                        (Sample.always "ok") Sample.jordan (Some "user_001")
                        Sample.alex (Some "user_002") Ref.client
                        Registry.initial)))
  = 13%nat.
Proof. vm_compute. reflexivity. Qed.

Lemma agent_operations_calls_and_state_witness :
  exists c w',
    snd (@Matchmaker.run_intake_summary Ref.runtime (Sample.always "ok")
           "user_001" Ref.client None Registry.initial) = w'
    /\ calls w' = calls Registry.initial ++ [c]
    /\ site c = IntakeSummary.
Proof.
  destruct (@Matchmaker.run_intake_summary Ref.runtime (Sample.always "ok")
              "user_001" Ref.client None Registry.initial)
    as [[summary|err] w'] eqn:Hrun;
    [|vm_compute in Hrun; discriminate Hrun].
  destruct (proj1 (proj2 (proj2 (proj2
              (@agent_operations_calls_and_state Ref.runtime
                 (Sample.always "ok")))))
              _ _ _ _ _ _ Hrun)
    as (c & e & agent & agent' & Hcalls & Hsite & _).
  exists c, w'. split; [reflexivity|]. split; [exact Hcalls | exact Hsite].
Defined.

(** ** The live-intake session *)

Section LiveFacts.
Context `{PyRuntime} `{Outside}.

Lemma keeps_ret {A} (a : A) : Live.keeps_sessions (ret a).
Proof. intros w o w'. unfold ret. now intros [= _ <-]. Qed.

Lemma keeps_raise {A} (e : exn) : Live.keeps_sessions (@raise A e).
Proof. intros w o w'. unfold raise. now intros [= _ <-]. Qed.

Lemma keeps_bind {A B} (m : M A) (k : A -> M B) :
  Live.keeps_sessions m -> (forall a, Live.keeps_sessions (k a)) ->
  Live.keeps_sessions (bind m k).
Proof.
  intros Hm Hk w o w'. unfold bind.
  destruct (m w) as [[a|e] w1] eqn:E.
  - intros Hka. rewrite (Hk a _ _ _ Hka). exact (Hm _ _ _ E).
  - intros [= _ <-]. exact (Hm _ _ _ E).
Qed.

Lemma keeps_try {A} (m h : M A) :
  Live.keeps_sessions m -> Live.keeps_sessions h ->
  Live.keeps_sessions (try_except m h).
Proof.
  intros Hm Hh w o w'. unfold try_except.
  destruct (m w) as [[a|e] w1] eqn:E.
  - intros [= _ <-]. exact (Hm _ _ _ E).
  - intros Hh'. rewrite (Hh _ _ _ Hh'). exact (Hm _ _ _ E).
Qed.

Lemma keeps_chat from client msgs temp :
  Live.keeps_sessions (OpenRouter.chat from client msgs temp).
Proof. intros w o w'. rewrite chat_run. now intros [= _ <-]. Qed.

Lemma keeps_time : Live.keeps_sessions OpenRouter.time_time.
Proof. intros w o w'. now intros [= _ <-]. Qed.

Lemma keeps_new : Live.keeps_sessions OpenRouter.new.
Proof.
  unfold OpenRouter.new.
  destruct (environ "OPENROUTER_API_KEY"); [|apply keeps_raise].
  destruct (environ "OPENROUTER_MODEL"); [apply keeps_ret | apply keeps_raise].
Qed.

Lemma keeps_matchmaker_write ref txt md :
  Live.keeps_sessions (matchmaker_write ref txt md).
Proof.
  intros w o w'. unfold matchmaker_write.
  destruct (matchmakers w !! ref); now intros [= _ <-].
Qed.

Lemma keeps_self_of self : Live.keeps_sessions (Matchmaker.self_of self).
Proof.
  intros w o w'. unfold Matchmaker.self_of.
  destruct (matchmakers w !! self); now intros [= _ <-].
Qed.

Lemma keeps_run_intake_summary self client extra :
  Live.keeps_sessions (Matchmaker.run_intake_summary self client extra).
Proof.
  unfold Matchmaker.run_intake_summary.
  apply keeps_bind; [apply keeps_self_of | intros agent].
  apply keeps_bind; [apply keeps_chat | intros response].
  apply keeps_bind; [apply keeps_time | intros now].
  apply keeps_bind; [apply keeps_matchmaker_write | intros _].
  apply keeps_ret.
Qed.

Lemma keeps_generate_next_question qs ans step :
  Live.keeps_sessions (IntakeLive._generate_next_question qs ans step).
Proof.
  unfold IntakeLive._generate_next_question.
  destruct (py_last qs); [|apply keeps_raise].
  destruct (py_last ans); [|apply keeps_raise].
  apply keeps_bind; [apply keeps_new | intros client].
  assert (Hfallback :
    Live.keeps_sessions
      match
        py_index IntakeLive._FALLBACK_QUESTIONS
          (Z.max 0
             (Z.min (step - 1)
                (Z.of_nat (length IntakeLive._FALLBACK_QUESTIONS) - 1)))
      with
      | Some q => ret q
      | None => raise IndexError
      end)
    by (destruct (py_index _ _); [apply keeps_ret | apply keeps_raise]).
  apply keeps_bind.
  - apply keeps_try; [|apply keeps_ret].
    apply keeps_bind; [apply keeps_chat | intros q; apply keeps_ret].
  - intros [q|]; [|exact Hfallback].
    destruct (PyStr.nonempty q); [apply keeps_ret | exact Hfallback].
Qed.

(** *** No [ValueError] but from the two guards and from the provider *)












(** *** One answer *)

Lemma store_run (sid : string) (s : Session) (w : World) :
  IntakeLive.store sid s w = (Ok tt, set_sessions (insert sid s) w).
Proof. reflexivity. Qed.

Lemma keeps_note_answer agent sid q a step :
  Live.keeps_sessions (IntakeLive.note_answer agent sid q a step).
Proof.
  unfold IntakeLive.note_answer. destruct agent as [ref|]; [|apply keeps_ret].
  apply keeps_bind; [apply keeps_time | intros now].
  apply keeps_matchmaker_write.
Qed.


Lemma keeps_final_summary agent extra :
  Live.keeps_sessions (IntakeLive.final_summary_of agent extra).
Proof.
  unfold IntakeLive.final_summary_of. destruct agent as [ref|]; [|apply keeps_ret].
  apply keeps_bind; [apply keeps_new | intros client].
  apply keeps_run_intake_summary.
Qed.


(** What an accepted answer does to the sessions and what it returns:
    the session of the answer has moved one step on, to completion at the
    fifth answer and to a further question before; no other session has
    changed. *)
Lemma submit_answer_inv (sid answer_text : string) (w w' : World)
    (s : Session) (r : Answer) :
  sessions w !! sid = Some s -> is_complete s = false ->
  IntakeLive.submit_answer sid answer_text w = (Ok r, w') ->
  (step_index s + 1 >= 5
   /\ sessions w'
      = <[sid := IntakeLive.completed (Live.advanced answer_text s)]> (sessions w)
   /\ exists final_summary,
        r = mkAnswer sid None (step_index s + 1) true (Some final_summary))
  \/ (step_index s + 1 < 5
      /\ exists q,
           sessions w'
           = <[sid := IntakeLive.with_question q (Live.advanced answer_text s)]>
               (sessions w)
           /\ r = mkAnswer sid (Some q) (step_index s + 1) false None).
Proof.
  intros Hs Hc Hrun. unfold IntakeLive.submit_answer in Hrun.
  rewrite (bind_ok _ _ w w (Some s)) in Hrun by (now rewrite <- Hs).
  rewrite Hc in Hrun.
  rewrite (bind_ok _ _ _ _ _ (store_run _ _ _)) in Hrun.
  apply bind_inv in Hrun as (agent & w1 & Hagent & Hrun).
  injection Hagent as _ <-.
  destruct (py_index _ _) as [current_question|]; [|discriminate].
  apply bind_inv in Hrun as ([] & w2 & Hnote & Hrun).
  apply keeps_note_answer in Hnote. cbn [sessions set_sessions] in Hnote.
  rewrite (bind_ok _ _ _ _ _ (store_run _ _ _)) in Hrun.
  cbn [step_index IntakeLive.with_step IntakeLive.with_answer] in Hrun.
  destruct (Z.geb_spec (step_index s + 1) 5) as [Hge|Hlt].
  - left. split; [lia|].
    rewrite (bind_ok _ _ _ _ _ (store_run _ _ _)) in Hrun.
    apply bind_inv in Hrun as (final_summary & w3 & Hfinal & Hrun).
    apply keeps_final_summary in Hfinal.
    apply ret_inv in Hrun as [-> ->].
    split; [|eexists; reflexivity].
    rewrite Hfinal. cbn [sessions set_sessions]. rewrite Hnote.
    now rewrite !insert_insert_eq.
  - right. split; [lia|].
    apply bind_inv in Hrun as (q & w3 & Hq & Hrun).
    apply keeps_generate_next_question in Hq.
    rewrite (bind_ok _ _ _ _ _ (store_run _ _ _)) in Hrun.
    apply ret_inv in Hrun as [-> ->].
    exists q. split; [|reflexivity].
    cbn [sessions set_sessions]. rewrite Hq. cbn [sessions set_sessions].
    rewrite Hnote. now rewrite !insert_insert_eq.
Qed.

Lemma session_inv_step (answer_text : string) (s : Session) :
  Live.session_inv s -> is_complete s = false ->
  step_index s <= 4
  /\ (step_index s + 1 >= 5 ->
      Live.session_inv (IntakeLive.completed (Live.advanced answer_text s)))
  /\ (forall q, step_index s + 1 < 5 ->
      Live.session_inv
        (IntakeLive.with_question q (Live.advanced answer_text s))).
Proof.
  intros (Hstep & Hqs & Hrange & Hdone) Hc.
  assert (Hlt : step_index s <= 4).
  { destruct (Z.eq_dec (step_index s) 5) as [E|]; [|lia].
    apply Hdone in E. congruence. }
  split; [exact Hlt|]. split.
  - intros Hge. unfold Live.session_inv.
    cbn [IntakeLive.completed Live.advanced IntakeLive.with_step
         IntakeLive.with_answer step_index answers questions is_complete].
    rewrite length_app. cbn [length]. repeat split; try lia.
  - intros q Hl. unfold Live.session_inv.
    cbn [IntakeLive.with_question Live.advanced IntakeLive.with_step
         IntakeLive.with_answer step_index answers questions is_complete].
    rewrite !length_app. cbn [length]. repeat split; try lia.
    + intros E. congruence.
Qed.

(** Every session of a reachable world satisfies the invariant. *)
Lemma reachable_inv (w : World) :
  Live.reachable w ->
  forall sid s, sessions w !! sid = Some s -> Live.session_inv s.
Proof.
  induction 1 as [w Hempty|w uid Hreach IH|w w' sid0 a r Hreach IH Hrun
                  |w w' Hreach IH Hsame]; intros sid s Hs.
  - rewrite Hempty, lookup_empty in Hs. discriminate.
  - cbn [IntakeLive.start_session snd sessions set_sessions set_ticks
         set_uuids uuids ticks] in Hs.
    destruct (decide (uuid4 (uuids w) = sid)) as [<-|Hne].
    + rewrite lookup_insert_eq in Hs. injection Hs as <-.
      unfold Live.session_inv. cbn. repeat split; try lia; discriminate.
    + rewrite lookup_insert_ne in Hs by exact Hne. now apply (IH sid).
  - destruct (sessions w !! sid0) as [s0|] eqn:Hs0.
    2:{ unfold IntakeLive.submit_answer in Hrun.
        rewrite (bind_ok _ _ w w None) in Hrun by (now rewrite <- Hs0).
        discriminate. }
    destruct (is_complete s0) eqn:Hc0.
    { unfold IntakeLive.submit_answer in Hrun.
      rewrite (bind_ok _ _ w w (Some s0)) in Hrun by (now rewrite <- Hs0).
      rewrite Hc0 in Hrun. discriminate. }
    destruct (session_inv_step a s0 (IH _ _ Hs0) Hc0) as (_ & Hfin & Hnext).
    destruct (submit_answer_inv _ _ _ _ _ _ Hs0 Hc0 Hrun)
      as [(Hge & Hw' & _)|(Hlt & q & Hw' & _)]; rewrite Hw' in Hs.
    + destruct (decide (sid0 = sid)) as [<-|Hne].
      * rewrite lookup_insert_eq in Hs. injection Hs as <-. now apply Hfin.
      * rewrite lookup_insert_ne in Hs by exact Hne. now apply (IH sid).
    + destruct (decide (sid0 = sid)) as [<-|Hne].
      * rewrite lookup_insert_eq in Hs. injection Hs as <-. now apply Hnext.
      * rewrite lookup_insert_ne in Hs by exact Hne. now apply (IH sid).
  - rewrite Hsame in Hs. now apply (IH sid).
Qed.



(** *** Returning *)

Lemma py_index_inside {A} (l : list A) (i : Z) :
  0 <= i < Z.of_nat (length l) -> is_Some (py_index l i).
Proof.
  intros Hi. unfold py_index.
  destruct (Z.ltb_spec i 0); [lia|].
  destruct (Z.leb_spec 0 i); [|lia].
  destruct (Z.ltb_spec i (Z.of_nat (length l))); [|lia]. cbn [andb].
  destruct (nth_error l (Z.to_nat i)) eqn:E; [eauto|].
  apply nth_error_None in E. lia.
Qed.




Lemma present_after (es : list effect) (w : World) (ref : string) :
  is_Some (matchmakers w !! ref) -> is_Some (matchmakers (after es w) !! ref).
Proof.
  intros [a Ha]. destruct (matchmaker_after es w ref a Ha) as (a' & Ha' & _).
  eauto.
Qed.





End LiveFacts.

Lemma accepted_reachable (w : World) :
  is_Some match fst (@IntakeLive.submit_answer Ref.runtime
                       (Sample.always "ok") "session-0" "yes" w) with
          | Ok r => Some r
          | Raise _ => None
          end ->
  @Live.reachable Ref.runtime (Sample.always "ok") w ->
  @Live.reachable Ref.runtime (Sample.always "ok")
    (snd (@IntakeLive.submit_answer Ref.runtime (Sample.always "ok")
            "session-0" "yes" w)).
Proof.
  intros [r Hr] Hreach.
  destruct (@IntakeLive.submit_answer Ref.runtime (Sample.always "ok")
              "session-0" "yes" w) as [[r'|e] w'] eqn:E; [|discriminate].
  exact (Live.reach_answer _ _ _ _ _ Hreach E).
Qed.

Lemma four_answers_reachable :
  @Live.reachable Ref.runtime (Sample.always "ok") (Sample.answered 4).
Proof.
  do 4 (apply accepted_reachable; [vm_compute; eauto|]).
  apply Live.reach_start. now apply Live.reach_fresh.
Qed.



(** ** Lookups by metadata *)

Section MetadataFacts.
Context `{PyRuntime}.

(** The loop of [search_metadata] stops at the bound, which it tests only
    after a hit. *)
Lemma search_metadata_loop_spec (key : string) (v : value) (k : Z)
    (es hits : list entry) :
  hits = [] \/ Z.of_nat (length hits) < k ->
  Mem.search_metadata_loop key v k es hits
  = firstn (Z.to_nat (Z.max 1 k))
      (hits ++ List.filter
                 (fun e => py_eq (Dict.get_or key VNone (metadata e)) v) es).
Proof.
  revert hits. induction es as [|e es IH]; intros hits Hhits.
  - cbn [Mem.search_metadata_loop List.filter]. rewrite app_nil_r.
    symmetry. apply firstn_all2.
    destruct Hhits as [->|Hlt]; cbn [length]; lia.
  - cbn [Mem.search_metadata_loop List.filter].
    destruct (py_eq (Dict.get_or key VNone (metadata e)) v).
    + destruct (Z.geb_spec (Z.of_nat (length (hits ++ [e]))) k) as [Hge|Hlt].
      * rewrite length_app in Hge. cbn [length] in Hge.
        change (hits ++ e :: List.filter _ es)
          with (hits ++ [e] ++ List.filter
                  (fun e => py_eq (Dict.get_or key VNone (metadata e)) v) es).
        rewrite app_assoc.
        assert (Hlen : Z.to_nat (Z.max 1 k) = length (hits ++ [e])).
        { rewrite length_app. cbn [length].
          destruct Hhits as [->|Hlt]; cbn [length] in *; lia. }
        rewrite Hlen, firstn_app, Nat.sub_diag, firstn_all. cbn [firstn].
        now rewrite app_nil_r.
      * rewrite IH by (right; exact Hlt).
        now rewrite <- app_assoc.
    + now apply IH.
Qed.

Lemma filter_rev_comm {A} (p : A -> bool) (l : list A) :
  List.filter p (rev l) = rev (List.filter p l).
Proof.
  induction l as [|a l IH]; [reflexivity|].
  cbn [rev List.filter]. rewrite List.filter_app, IH. cbn [List.filter].
  destruct (p a); [reflexivity | now rewrite app_nil_r].
Qed.

Lemma head_rev_last {A} (l : list A) :
  match rev l with a :: _ => Some a | [] => None end = py_last l.
Proof.
  unfold py_last. induction l as [|a l IH] using rev_ind; [reflexivity|].
  rewrite rev_app_distr, map_app. cbn [map rev app].
  now rewrite last_last.
Qed.

(** X1. [search_metadata(key, value, k)] returns the entries whose
    metadata hold [value] under [key], newest first, and leaves the memory
    as it was. It returns the first [k] of them when [k >= 1]; as the bound
    is tested only after a hit was added, a bound [k <= 0] still returns
    the newest of them. *)
Theorem search_metadata_newest_first (key : string) (v : value) (k : Z)
    (m : Memory) :
  Mem.search_metadata key v k m
  = (firstn (Z.to_nat (Z.max 1 k)) (rev (MemSpec.tagged key v m)), m).
Proof.
  unfold Mem.search_metadata, MemSpec.tagged.
  rewrite search_metadata_loop_spec by now left.
  now rewrite filter_rev_comm.
Qed.

(** X2. [latest_by_type(t)] returns the entry written last among those
    whose metadata have the type [t], and [None] when there is none; the
    memory is as it was. *)
Theorem latest_by_type_newest (t : string) (m : Memory) :
  Mem.latest_by_type t m = (py_last (MemSpec.tagged "type" (VStr t) m), m).
Proof.
  unfold Mem.latest_by_type, Mem.search_metadata, MemSpec.tagged.
  rewrite search_metadata_loop_spec by now left.
  rewrite filter_rev_comm. cbn [app].
  change (Z.to_nat (Z.max 1 1)) with 1%nat.
  rewrite <- head_rev_last.
  now destruct (rev _).
Qed.

End MetadataFacts.
(** ** Round trips through the memory *)

Section MemoryRoundTrips.
Context `{PyRuntime}.

Lemma py_last_snoc {A} (l : list A) (a : A) : py_last (l ++ [a]) = Some a.
Proof. unfold py_last. rewrite map_app. cbn [map]. now rewrite last_last. Qed.

(** X3. An entry written with a type in its metadata is what
    [latest_by_type] of that type returns next, whatever the memory held
    before. *)
Theorem write_then_latest_by_type (txt t : string) (md : dict) (m : Memory) :
  Dict.get "type" md = Some (VStr t) ->
  py_eq (VStr t) (VStr t) = true ->
  fst (Mem.latest_by_type t (snd (Mem.write txt (Some md) m)))
  = Some (Entry txt md).
Proof.
  intros Hty Hrefl.
  assert (Hmd : Mem.or_empty (Some md) = md).
  { destruct md; [discriminate Hty | reflexivity]. }
  unfold Mem.latest_by_type, Mem.search_metadata, Mem.write.
  cbn [snd _entries]. rewrite Hmd.
  rewrite search_metadata_loop_spec by now left.
  rewrite rev_app_distr. cbn [rev app List.filter metadata].
  unfold Dict.get_or. rewrite Hty, Hrefl. reflexivity.
Qed.

End MemoryRoundTrips.

Lemma write_then_latest_by_type_witness :
  fst (@Mem.latest_by_type Ref.runtime "note"
         (snd (Mem.write "hello" (Some [("type", VStr "note")])
                 Sample.two_notes)))
  = Some (Entry "hello" [("type", VStr "note")]).
Proof.
  apply (@write_then_latest_by_type Ref.runtime "hello" "note"
           [("type", VStr "note")] Sample.two_notes); reflexivity.
Defined.

Section MetadataStore.

Lemma get_set_same (k : string) (v : value) (d : dict) :
  Dict.get k (Dict.set k v d) = Some v.
Proof.
  induction d as [|[k' v'] d IH]; cbn [Dict.set Dict.get].
  - now rewrite String.eqb_refl.
  - destruct (String.eqb_spec k' k) as [->|Hne]; cbn [Dict.get].
    + now rewrite String.eqb_refl.
    + destruct (String.eqb_spec k' k); [contradiction | exact IH].
Qed.

Lemma get_set_other (k k' : string) (v : value) (d : dict) :
  k' <> k -> Dict.get k' (Dict.set k v d) = Dict.get k' d.
Proof.
  intros Hne. induction d as [|[k0 v0] d IH]; cbn [Dict.set Dict.get].
  - destruct (String.eqb_spec k k'); [congruence | reflexivity].
  - destruct (String.eqb_spec k0 k) as [->|Hne0]; cbn [Dict.get].
    + destruct (String.eqb_spec k k'); [congruence | reflexivity].
    + destruct (String.eqb_spec k0 k'); [reflexivity | exact IH].
Qed.

(** X4. What [set_metadata(key, value)] stores is what [get_metadata(key)]
    returns, whatever the default; every other key reads as before, and a
    key that was never set reads as the default. *)
Theorem metadata_round_trip (key : string) (v : value) (m : Memory) :
  (forall d,
      fst (Mem.get_metadata key d (snd (Mem.set_metadata key v m))) = v)
  /\ (forall key' d,
        key' <> key ->
        fst (Mem.get_metadata key' d (snd (Mem.set_metadata key v m)))
        = fst (Mem.get_metadata key' d m))
  /\ (forall key' d, fst (Mem.get_metadata key' d Mem.init) = d).
Proof.
  split; [|split].
  - intros d. cbn [Mem.get_metadata Mem.set_metadata fst snd _metadata].
    unfold Dict.get_or. now rewrite get_set_same.
  - intros key' d Hne.
    cbn [Mem.get_metadata Mem.set_metadata fst snd _metadata].
    unfold Dict.get_or. now rewrite get_set_other.
  - reflexivity.
Qed.

End MetadataStore.

Lemma metadata_round_trip_witness :
  fst (Mem.get_metadata "user_id" VNone
         (snd (Mem.set_metadata "profile" (VInt 1)
                 (snd (Mem.set_metadata "user_id" (VStr "u") Mem.init)))))
  = VStr "u".
Proof.
  rewrite (proj1 (proj2 (metadata_round_trip "profile" (VInt 1)
                           (snd (Mem.set_metadata "user_id" (VStr "u")
                                   Mem.init))))
             "user_id" VNone) by discriminate.
  apply (proj1 (metadata_round_trip "user_id" (VStr "u") Mem.init)).
Defined.

(** ** Blank queries *)

Section BlankQuery.

Lemma isspace_lower (c : ascii) :
  PyStr.isspace (PyStr.lower_char c) = PyStr.isspace c.
Proof.
  destruct c as [[] [] [] [] [] [] [] []]; reflexivity.
Qed.

Lemma lstrip_lower (s : string) :
  PyStr.lstrip (PyStr.lower s) = PyStr.lower (PyStr.lstrip s).
Proof.
  induction s as [|c s IH]; [reflexivity|].
  cbn [PyStr.lower PyStr.lstrip]. rewrite isspace_lower.
  destruct (PyStr.isspace c); [exact IH | reflexivity].
Qed.

Lemma rstrip_lower (s : string) :
  PyStr.rstrip (PyStr.lower s) = PyStr.lower (PyStr.rstrip s).
Proof.
  induction s as [|c s IH]; [reflexivity|].
  cbn [PyStr.lower PyStr.rstrip]. rewrite IH, isspace_lower.
  destruct (PyStr.rstrip s); cbn [PyStr.lower];
    [destruct (PyStr.isspace c)|]; reflexivity.
Qed.

Lemma strip_lower (s : string) :
  PyStr.strip (PyStr.lower s) = PyStr.lower (PyStr.strip s).
Proof. unfold PyStr.strip. now rewrite lstrip_lower, rstrip_lower. Qed.

Lemma contains_empty (s : string) : PyStr.contains "" s = true.
Proof. destruct s; reflexivity. Qed.

Lemma filter_all {A} (p : A -> bool) (l : list A) :
  (forall a, p a = true) -> List.filter p l = l.
Proof.
  intros Hp. induction l as [|a l IH]; [reflexivity|].
  cbn [List.filter]. now rewrite Hp, IH.
Qed.

(** X5. A query that is empty once its whitespace is stripped matches
    every entry: [search] returns the slice [entries[:k]] of all the
    entries, in the order they were written. *)
Theorem search_blank_query (query : string) (k : Z) (m : Memory) :
  PyStr.strip query = "" ->
  Mem.search query k m = (py_take k (_entries m), m).
Proof.
  intros Hblank. unfold Mem.search.
  rewrite strip_lower, Hblank. cbn [PyStr.lower].
  rewrite filter_all; [reflexivity|].
  intros e. unfold Mem.hit. apply contains_empty.
Qed.

End BlankQuery.

Lemma search_blank_query_witness :
  Mem.search "  " 1 Sample.two_notes = ([Entry "a" []], Sample.two_notes).
Proof. apply (search_blank_query "  " 1 Sample.two_notes). reflexivity. Defined.
(** ** The next question of a live intake *)

Section NextQuestion.
Context `{PyRuntime} `{Outside}.

Lemma py_index_nth {A} (l : list A) (i : Z) (d : A) :
  0 <= i < Z.of_nat (length l) ->
  py_index l i = Some (nth (Z.to_nat i) l d).
Proof.
  intros Hi. unfold py_index.
  destruct (Z.ltb_spec i 0); [lia|].
  destruct (Z.leb_spec 0 i); [|lia].
  destruct (Z.ltb_spec i (Z.of_nat (length l))); [|lia]. cbn [andb].
  apply nth_error_nth'. lia.
Qed.

(** X6. With both environment variables set, [_generate_next_question]
    makes one request and always returns a question: the provider's
    answer, stripped, when there is one and it is not blank; otherwise,
    when the request failed or the answer was blank, the fallback question
    at index [step_index - 1], clamped into the four fallback questions. *)
Theorem next_question_or_fallback (qs ans : list string) (step : Z)
    (w : World) (prev_question prev_answer key mdl : string) :
  py_last qs = Some prev_question ->
  py_last ans = Some prev_answer ->
  environ "OPENROUTER_API_KEY" = Some key ->
  environ "OPENROUTER_MODEL" = Some mdl ->
  let client := mkClient key mdl "https://openrouter.ai/api/v1" in
  let msgs :=
    [("user", Prompts.next_question_prompt prev_question prev_answer step)] in
  let answer := llm (length (calls w)) client msgs 0.6%float in
  let fallback :=
    nth (Z.to_nat (Z.max 0 (Z.min (step - 1) 3)))
        IntakeLive._FALLBACK_QUESTIONS "" in
  IntakeLive._generate_next_question qs ans step w
  = (Ok match answer with
        | Some r =>
            if PyStr.nonempty (PyStr.strip r) then PyStr.strip r else fallback
        | None => fallback
        end,
     set_calls
       (fun cs => cs ++ [mkCall NextQuestion client msgs 0.6%float answer]) w).
Proof.
  intros Hq Ha Hkey Hmdl client msgs answer fallback.
  unfold IntakeLive._generate_next_question. rewrite Hq, Ha.
  assert (Hnew : OpenRouter.new w = (Ok client, w)).
  { unfold OpenRouter.new. now rewrite Hkey, Hmdl. }
  rewrite (bind_ok _ _ _ _ _ Hnew).
  rewrite (py_index_nth IntakeLive._FALLBACK_QUESTIONS _ "")
    by (cbn [length IntakeLive._FALLBACK_QUESTIONS]; lia).
  change (Z.of_nat (length IntakeLive._FALLBACK_QUESTIONS) - 1) with 3.
  fold fallback.
  unfold bind at 1. unfold try_except, bind at 1.
  rewrite chat_run. unfold logged. fold client msgs answer.
  destruct answer as [r|]; unfold ret; [|reflexivity].
  now destruct (PyStr.nonempty (PyStr.strip r)).
Qed.

End NextQuestion.

Lemma next_question_or_fallback_witness :
  fst (@IntakeLive._generate_next_question Scenario.silent
         [IntakeLive.first_question] ["yes"] 1 Registry.initial)
  = Ok "How do you like to handle conflict or tension when it comes up with a partner?".
Proof.
  rewrite (@next_question_or_fallback Scenario.silent
             [IntakeLive.first_question] ["yes"] 1 Registry.initial
             IntakeLive.first_question "yes" "key" "model");
    reflexivity.
Defined.
(** ** A live intake without the provider's key *)

Section MissingKey.
Context `{PyRuntime} `{Outside}.

Lemma new_without_key (w : World) :
  environ "OPENROUTER_API_KEY" = None ->
  OpenRouter.new w = (Raise (KeyError "OPENROUTER_API_KEY"), w).
Proof. intros Hkey. unfold OpenRouter.new. now rewrite Hkey. Qed.


(** The first steps of [submit_answer] on a session that is not complete:
    the answer is stored, the note is written, the step moves on. *)
Lemma submit_answer_advances (sid answer_text : string) (w : World)
    (s : Session) :
  sessions w !! sid = Some s -> is_complete s = false ->
  Live.session_inv s ->
  exists w2,
    sessions w2 = <[sid := Live.advanced answer_text s]> (sessions w)
    /\ (forall ref, is_Some (matchmakers w !! ref) ->
                    is_Some (matchmakers w2 !! ref))
    /\ (forall ref, matchmakers w !! ref = None -> matchmakers w2 !! ref = None)
    /\ calls w2 = calls w
    /\ (forall ref a,
          matchmakers w !! ref = Some a ->
          exists a',
            matchmakers w2 !! ref = Some a'
            /\ ma_user_profile a' = ma_user_profile a)
    /\ (forall a,
          matchmakers w !! s_user_id s = Some a ->
          exists a' q,
            py_index (questions s) (step_index s) = Some q
            /\ matchmakers w2 !! s_user_id s = Some a'
            /\ _entries (ma_memory a')
               = _entries (ma_memory a)
                 ++ [Entry ("Q: " +:+ q +:+ PyStr.NL +:+ "A: " +:+ answer_text)
                       [("type", VStr "intake_live");
                        ("session_id", VStr sid);
                        ("step_index", VInt (step_index s));
                        ("timestamp", VFloat (clock (ticks w)))]])
    /\ IntakeLive.submit_answer sid answer_text w
       = (if step_index s + 1 >=? 5 then
            (IntakeLive.store sid
               (IntakeLive.completed (Live.advanced answer_text s)) ;;;
             final_summary <-
               IntakeLive.final_summary_of
                 (match matchmakers w !! s_user_id s with
                  | Some _ => Some (s_user_id s)
                  | None => None
                  end)
                 (PyStr.join (PyStr.NL +:+ PyStr.NL)
                    (IntakeLive.qa_pairs_from 1 (questions s)
                       (answers s ++ [answer_text]))) ;;
             ret (mkAnswer sid None (step_index s + 1) true
                           (Some final_summary)))
          else
            (next_question <-
               IntakeLive._generate_next_question (questions s)
                 (answers s ++ [answer_text]) (step_index s + 1) ;;
             IntakeLive.store sid
               (IntakeLive.with_question next_question
                  (Live.advanced answer_text s)) ;;;
             ret (mkAnswer sid (Some next_question) (step_index s + 1) false
                           None))) w2.
Proof.
  intros Hs Hc Hinv.
  destruct (session_inv_step answer_text s Hinv Hc) as (Hle & _ & _).
  destruct Hinv as (Hstep & Hqs & Hrange & _).
  unfold IntakeLive.submit_answer.
  rewrite (bind_ok _ _ w w (Some s)) by (now rewrite <- Hs).
  rewrite Hc.
  rewrite (bind_ok _ _ _ _ _ (store_run _ _ _)).
  set (w1 := set_sessions _ w).
  set (agent := match matchmakers w !! s_user_id s with
                | Some _ => Some (s_user_id s)
                | None => None
                end).
  rewrite (bind_ok _ _ w1 w1 agent) by reflexivity.
  assert (Hagent : forall ref, agent = Some ref -> is_Some (matchmakers w1 !! ref)).
  { intros ref. subst agent. cbn [matchmakers w1 set_sessions].
    destruct (matchmakers w !! s_user_id s) eqn:E; [|discriminate].
    intros [= <-]. rewrite E. eauto. }
  cbn [questions step_index IntakeLive.with_answer].
  destruct (py_index_inside (questions s) (step_index s)) as [cq Hcq]; [lia|].
  rewrite Hcq.
  assert (Hnote : exists w2,
             IntakeLive.note_answer agent sid cq answer_text (step_index s) w1
             = (Ok tt, w2)
             /\ sessions w2 = sessions w1
             /\ (forall ref, is_Some (matchmakers w !! ref) ->
                             is_Some (matchmakers w2 !! ref))
             /\ (forall ref, matchmakers w !! ref = None ->
                             matchmakers w2 !! ref = None)
             /\ calls w2 = calls w
             /\ (forall ref a,
                   matchmakers w !! ref = Some a ->
                   exists a',
                     matchmakers w2 !! ref = Some a'
                     /\ ma_user_profile a' = ma_user_profile a)
             /\ (forall a,
                   matchmakers w !! s_user_id s = Some a ->
                   exists a',
                     matchmakers w2 !! s_user_id s = Some a'
                     /\ _entries (ma_memory a')
                        = _entries (ma_memory a)
                          ++ [Entry ("Q: " +:+ cq +:+ PyStr.NL +:+ "A: "
                                     +:+ answer_text)
                                [("type", VStr "intake_live");
                                 ("session_id", VStr sid);
                                 ("step_index", VInt (step_index s));
                                 ("timestamp", VFloat (clock (ticks w)))]])).
  { unfold IntakeLive.note_answer.
    destruct agent as [ref|] eqn:Eagent.
    2:{ exists w1. do 4 (split; [auto|]). split; [reflexivity|]. split.
        - intros r a Ha. exists a. now split.
        - intros a Ha. subst agent. now rewrite Ha in Eagent. }
    assert (ref = s_user_id s) as Href.
    { subst agent. destruct (matchmakers w !! s_user_id s); congruence. }
    destruct (Hagent ref eq_refl) as [ag Hag].
    rewrite (bind_ok _ _ _ _ _ (time_time_run w1)).
    rewrite (matchmaker_write_run _ _ _ _ ag) by exact Hag.
    eexists. split; [reflexivity|]. split; [|split; [|split; [|split; [|split]]]].
    - now rewrite !sessions_after.
    - intros r Hr. now do 2 apply present_after.
    - intros r Hr. now rewrite !absent_after.
    - rewrite !calls_after. cbn [asked flat_map app].
      now rewrite !app_nil_r.
    - intros r a Ha.
      destruct (matchmaker_after [ReadClock] w1 r a Ha)
        as (a1 & Ha1 & _ & _ & Hp1 & _).
      match goal with
      | |- exists a', matchmakers (after ?es ?w') !! _ = _ /\ _ =>
          destruct (matchmaker_after es w' r a1 Ha1)
            as (a2 & Ha2 & _ & _ & Hp2 & _)
      end.
      exists a2. split; [exact Ha2 | congruence].
    - intros a Ha. subst ref.
      match goal with
      | |- exists a', matchmakers (after [?f2] (after [?f1] ?w0)) !! _ = _ /\ _ =>
          destruct (matchmaker_after [f1; f2] w0 (s_user_id s) a Ha)
            as (a' & Ha' & Hentries & _)
      end.
      exists a'. split; [exact Ha'|]. rewrite Hentries.
      cbn [matchmaker_wrote flat_map app]. now rewrite String.eqb_refl. }
  destruct Hnote
    as (w2 & Hnote & Hsess & Hkept & Habsent & Hcalls & Hprofile & Hnoted).
  rewrite (bind_ok _ _ _ _ _ Hnote).
  rewrite (bind_ok _ _ _ _ _ (store_run _ _ _)).
  cbn [step_index IntakeLive.with_step].
  eexists. split; [|split; [|split; [|split; [|split; [|split]]]]];
    [| | | | | |reflexivity].
  - cbn [sessions set_sessions]. rewrite Hsess. subst w1.
    cbn [sessions set_sessions]. now rewrite insert_insert_eq.
  - exact Hkept.
  - exact Habsent.
  - exact Hcalls.
  - exact Hprofile.
  - intros a Ha. destruct (Hnoted a Ha) as (a' & Ha' & Hentries).
    exists a', cq. split; [reflexivity|]. split; [exact Ha' | exact Hentries].
Qed.


End MissingKey.

(** ** The live-intake endpoints *)

Section LiveEndpoints.
Context `{PyRuntime} `{Outside}.

Lemma nonempty_false (s : string) : PyStr.nonempty s = false <-> s = "".
Proof. destruct s; cbn [PyStr.nonempty]; split; intros E; congruence. Qed.

(** X8. [POST /api/intake/live/answer] rejects an answer that is blank once
    stripped with status 400, and an answer to an unknown or to a complete
    session with status 404 and the message of the [ValueError]; in each of
    the three cases nothing has changed, the session included. No
    [ValueError] escapes the endpoint. *)
Theorem submit_live_answer_errors (sid answer_text : string) (w : World) :
  (PyStr.strip answer_text = "" ->
   LiveRoutes.submit_live_answer sid answer_text w
   = (Raise (HTTPException 400 "answer_text is required"), w))
  /\ (PyStr.strip answer_text <> "" ->
      sessions w !! sid = None ->
      LiveRoutes.submit_live_answer sid answer_text w
      = (Raise (HTTPException 404 ("Session " +:+ sid +:+ " not found")), w))
  /\ (PyStr.strip answer_text <> "" ->
      forall s,
        sessions w !! sid = Some s -> is_complete s = true ->
        LiveRoutes.submit_live_answer sid answer_text w
        = (Raise (HTTPException 404
                    ("Session " +:+ sid +:+ " is already complete")), w))
  /\ (forall msg w',
        LiveRoutes.submit_live_answer sid answer_text w
        <> (Raise (ValueError msg), w')).
Proof.
  unfold LiveRoutes.submit_live_answer.
  split; [|split; [|split]].
  - intros ->. reflexivity.
  - intros Hne Hs.
    destruct (PyStr.nonempty (PyStr.strip answer_text)) eqn:E;
      [|now apply nonempty_false in E].
    cbn [negb]. unfold LiveRoutes.value_error_as_404, IntakeLive.submit_answer.
    now rewrite (bind_ok _ _ w w None) by (now rewrite <- Hs).
  - intros Hne s Hs Hc.
    destruct (PyStr.nonempty (PyStr.strip answer_text)) eqn:E;
      [|now apply nonempty_false in E].
    cbn [negb]. unfold LiveRoutes.value_error_as_404, IntakeLive.submit_answer.
    rewrite (bind_ok _ _ w w (Some s)) by (now rewrite <- Hs).
    now rewrite Hc.
  - intros msg w'.
    destruct (PyStr.nonempty (PyStr.strip answer_text)); cbn [negb];
      [|discriminate].
    unfold LiveRoutes.value_error_as_404.
    destruct (IntakeLive.submit_answer sid (PyStr.strip answer_text) w)
      as [[r|[]] w1]; discriminate.
Qed.

(** X9. [POST /api/intake/live/start] answers 404 for an unknown user and
    starts no session. For a known user it stores a session under a new id
    and returns the id with the first question and step 0; the status of
    that session is then: no question answered out of five, not complete,
    created at the time the session was started. *)
Theorem start_live_intake_then_status (uid : string) (w : World) :
  (List.find (fun u => String.eqb (user_id u) uid) (users w) = None ->
   LiveRoutes.start_live_intake uid w
   = (Raise (HTTPException 404 ("User " +:+ uid +:+ " not found")), w))
  /\ (forall u,
        List.find (fun u => String.eqb (user_id u) uid) (users w) = Some u ->
        exists w',
          LiveRoutes.start_live_intake uid w
          = (Ok (uuid4 (uuids w), IntakeLive.first_question, 0), w')
          /\ LiveRoutes.get_live_intake_status (uuid4 (uuids w)) w'
             = (Ok [("session_id", VStr (uuid4 (uuids w)));
                    ("user_id", VStr uid);
                    ("step_index", VInt 0);
                    ("total_questions", VInt 5);
                    ("questions_answered", VInt 0);
                    ("is_complete", VBool false);
                    ("created_at", VFloat (clock (ticks w)))],
                w')).
Proof.
  unfold LiveRoutes.start_live_intake, Main.user_or_404, Registry.get_user.
  split.
  - intros Hnone. unfold bind. now rewrite Hnone.
  - intros u Hu. unfold bind at 1. unfold bind at 1. rewrite Hu.
    cbn [ret]. eexists. split; [reflexivity|].
    unfold LiveRoutes.get_live_intake_status, LiveRoutes.value_error_as_404,
      IntakeLive.get_status.
    rewrite (bind_ok _ _ _ _
               (Some (mkSession (uuid4 (uuids w)) uid 0
                        [IntakeLive.first_question] [] (clock (ticks w))
                        false)))
      by (cbn [sessions set_sessions set_ticks set_uuids ticks uuids];
          now rewrite lookup_insert_eq).
    reflexivity.
Qed.

(** The key of a session is its id, in every world reached by starting
    sessions and by accepted answers. *)
Lemma reachable_ids (w : World) :
  Live.reachable w ->
  forall sid s, sessions w !! sid = Some s -> session_id s = sid.
Proof.
  induction 1 as [w Hempty|w uid Hreach IH|w w' sid0 a r Hreach IH Hrun
                  |w w' Hreach IH Hsame]; intros sid s Hs.
  - rewrite Hempty, lookup_empty in Hs. discriminate.
  - cbn [IntakeLive.start_session snd sessions set_sessions set_ticks
         set_uuids uuids ticks] in Hs.
    destruct (decide (uuid4 (uuids w) = sid)) as [<-|Hne].
    + rewrite lookup_insert_eq in Hs. now injection Hs as <-.
    + rewrite lookup_insert_ne in Hs by exact Hne. now apply (IH sid).
  - destruct (sessions w !! sid0) as [s0|] eqn:Hs0.
    2:{ unfold IntakeLive.submit_answer in Hrun.
        rewrite (bind_ok _ _ w w None) in Hrun by (now rewrite <- Hs0).
        discriminate. }
    destruct (is_complete s0) eqn:Hc0.
    { unfold IntakeLive.submit_answer in Hrun.
      rewrite (bind_ok _ _ w w (Some s0)) in Hrun by (now rewrite <- Hs0).
      rewrite Hc0 in Hrun. discriminate. }
    destruct (submit_answer_inv _ _ _ _ _ _ Hs0 Hc0 Hrun)
      as [(Hge & Hw' & _)|(Hlt & q & Hw' & _)]; rewrite Hw' in Hs.
    + destruct (decide (sid0 = sid)) as [<-|Hne].
      * rewrite lookup_insert_eq in Hs. injection Hs as <-.
        change (session_id s0 = sid0). now apply (IH sid0).
      * rewrite lookup_insert_ne in Hs by exact Hne. now apply (IH sid).
    + destruct (decide (sid0 = sid)) as [<-|Hne].
      * rewrite lookup_insert_eq in Hs. injection Hs as <-.
        change (session_id s0 = sid0). now apply (IH sid0).
      * rewrite lookup_insert_ne in Hs by exact Hne. now apply (IH sid).
  - rewrite Hsame in Hs. now apply (IH sid).
Qed.

(** X10. In every world reached by starting sessions and by accepted
    answers, the status of a session is consistent: it carries the id it
    was asked for, [questions_answered] equals [step_index], which lies
    between 0 and 5, and [is_complete] says whether it is 5. Reading the
    status changes nothing. *)
Theorem get_status_consistent (w : World) (sid : string) (s : Session) :
  Live.reachable w ->
  sessions w !! sid = Some s ->
  exists n,
    0 <= n <= 5
    /\ IntakeLive.get_status sid w
       = (Ok [("session_id", VStr sid);
              ("user_id", VStr (s_user_id s));
              ("step_index", VInt n);
              ("total_questions", VInt 5);
              ("questions_answered", VInt n);
              ("is_complete", VBool (n =? 5));
              ("created_at", VFloat (created_at s))],
          w).
Proof.
  intros Hreach Hs.
  pose proof (reachable_ids w Hreach sid s Hs) as Hid.
  destruct (reachable_inv w Hreach sid s Hs) as (Hstep & _ & Hrange & Hdone).
  exists (step_index s). split; [exact Hrange|].
  unfold IntakeLive.get_status.
  rewrite (bind_ok _ _ w w (Some s)) by (now rewrite <- Hs).
  unfold ret. rewrite Hid, <- Hstep.
  replace (is_complete s) with (step_index s =? 5); [reflexivity|].
  destruct (Z.eqb_spec (step_index s) 5) as [E|E].
  - symmetry. now apply Hdone.
  - destruct (is_complete s); [|reflexivity]. now destruct E; apply Hdone.
Qed.

End LiveEndpoints.

Lemma submit_live_answer_errors_witness :
  @LiveRoutes.submit_live_answer Ref.runtime Scenario.unset "session-9" " yes "
    Scenario.started
  = (Raise (HTTPException 404 "Session session-9 not found"), Scenario.started).
Proof.
  apply (proj1 (proj2 (@submit_live_answer_errors Ref.runtime Scenario.unset
                         "session-9" " yes " Scenario.started)));
    [discriminate | reflexivity].
Defined.

Lemma start_live_intake_then_status_witness :
  exists w',
    @LiveRoutes.start_live_intake Scenario.unset "user_002" Registry.initial
    = (Ok ("session-0", IntakeLive.first_question, 0), w')
    /\ exists status,
         LiveRoutes.get_live_intake_status "session-0" w'
         = (Ok status, w')
         /\ Dict.get "user_id" status = Some (VStr "user_002").
Proof.
  destruct (proj2 (@start_live_intake_then_status Scenario.unset "user_002"
                     Registry.initial) Sample.alex eq_refl)
    as (w' & Hstart & Hstatus).
  exists w'. split; [exact Hstart|].
  eexists. split; [exact Hstatus | reflexivity].
Defined.

Lemma get_status_consistent_witness :
  exists n status,
    0 <= n <= 5
    /\ IntakeLive.get_status "session-0" (Sample.answered 4)
       = (Ok status, Sample.answered 4)
    /\ Dict.get "step_index" status = Some (VInt n)
    /\ Dict.get "questions_answered" status = Some (VInt n)
    /\ Dict.get "is_complete" status = Some (VBool (n =? 5)).
Proof.
  assert (Hs : exists s, sessions (Sample.answered 4) !! "session-0" = Some s).
  { eexists. vm_compute. reflexivity. }
  destruct Hs as (s & Hs).
  destruct (@get_status_consistent Ref.runtime (Sample.always "ok")
              (Sample.answered 4) "session-0" s four_answers_reachable Hs)
    as (n & Hn & Hrun).
  exists n. eexists. split; [exact Hn|]. split; [exact Hrun|].
  repeat split.
Defined.
(** ** Nothing is ever taken back *)

Create HintDb grows.

Section GrowthFacts.
Context `{PyRuntime} `{Outside}.

Lemma memory_grew_refl (m : Memory) : Growth.memory_grew m m.
Proof. split; [reflexivity|]. exists []. now rewrite app_nil_r. Qed.

Lemma memory_grew_trans (m1 m2 m3 : Memory) :
  Growth.memory_grew m1 m2 -> Growth.memory_grew m2 m3 ->
  Growth.memory_grew m1 m3.
Proof.
  intros [Hmd1 [more1 He1]] [Hmd2 [more2 He2]]. split; [congruence|].
  exists (more1 ++ more2). now rewrite He2, He1, app_assoc.
Qed.

Lemma memory_grew_remember (e : entry) (m : Memory) :
  Growth.memory_grew m (remember e m).
Proof. split; [reflexivity|]. now exists [e]. Qed.

Lemma matchmaker_grew_refl (a : MatchmakerAgent) : Growth.matchmaker_grew a a.
Proof. do 4 (split; [reflexivity|]). apply memory_grew_refl. Qed.

Lemma matchmaker_grew_trans (a1 a2 a3 : MatchmakerAgent) :
  Growth.matchmaker_grew a1 a2 -> Growth.matchmaker_grew a2 a3 ->
  Growth.matchmaker_grew a1 a3.
Proof.
  intros (? & ? & ? & ? & Hm1) (? & ? & ? & ? & Hm2).
  do 4 (split; [congruence|]). exact (memory_grew_trans _ _ _ Hm1 Hm2).
Qed.

Lemma grew_refl (w : World) : Growth.grew w w.
Proof.
  split; [reflexivity|]. split; [exists []; now rewrite app_nil_r|].
  split; [reflexivity|]. split; [reflexivity|].
  split; [apply memory_grew_refl|]. split; [|auto].
  intros ref a Ha. exists a. split; [exact Ha | apply matchmaker_grew_refl].
Qed.

Lemma grew_trans (w1 w2 w3 : World) :
  Growth.grew w1 w2 -> Growth.grew w2 w3 -> Growth.grew w1 w3.
Proof.
  intros (Hu1 & [c1 Hc1] & Hn1 & Hr1 & Hm1 & Hp1 & Ha1)
         (Hu2 & [c2 Hc2] & Hn2 & Hr2 & Hm2 & Hp2 & Ha2).
  split; [congruence|]. split.
  { exists (c1 ++ c2). now rewrite Hc2, Hc1, app_assoc. }
  split; [congruence|]. split; [congruence|]. split.
  { exact (memory_grew_trans _ _ _ Hm1 Hm2). }
  split.
  - intros ref a Ha. destruct (Hp1 ref a Ha) as (a' & Ha' & Hg1).
    destruct (Hp2 ref a' Ha') as (a'' & Ha'' & Hg2).
    exists a''. split; [exact Ha''|]. exact (matchmaker_grew_trans _ _ _ Hg1 Hg2).
  - auto.
Qed.

(** The sessions, the clock and the counter of ids are not part of what
    has to grow. *)
Lemma grew_sessions (f : gmap string Session -> gmap string Session)
    (w : World) : Growth.grew w (set_sessions f w).
Proof. exact (grew_refl w). Qed.

Lemma grew_ticks (f : nat -> nat) (w : World) : Growth.grew w (set_ticks f w).
Proof. exact (grew_refl w). Qed.

Lemma grew_uuids (f : nat -> nat) (w : World) : Growth.grew w (set_uuids f w).
Proof. exact (grew_refl w). Qed.

Lemma grew_effect (f : effect) (w : World) : Growth.grew w (apply_effect w f).
Proof.
  destruct f as [c| |e|ref e]; cbn [apply_effect].
  - destruct (grew_refl w) as (Hu & _ & Hrest).
    split; [exact Hu|]. split; [now exists [c] | exact Hrest].
  - apply grew_ticks.
  - destruct (grew_refl w) as (Hu & Hc & Hn & Hr & _ & Hrest).
    repeat (split; [assumption|]). split; [|exact Hrest].
    apply memory_grew_remember.
  - destruct (matchmakers w !! ref) as [a|] eqn:Ha; [|apply grew_refl].
    destruct (grew_refl w) as (Hu & Hc & Hn & Hr & Hm & _ & _).
    repeat (split; [assumption|]). split.
    + intros ref' a' Ha'. cbn [matchmakers set_matchmakers].
      destruct (decide (ref = ref')) as [<-|Hne].
      * rewrite lookup_insert_eq. eexists. split; [reflexivity|].
        assert (a' = a) as -> by congruence.
        repeat split. exists [e]. reflexivity.
      * rewrite lookup_insert_ne by exact Hne.
        exists a'. split; [exact Ha' | apply matchmaker_grew_refl].
    + intros ref' Hnone. cbn [matchmakers set_matchmakers].
      rewrite lookup_insert_ne by congruence. exact Hnone.
Qed.

Lemma grew_after (es : list effect) (w : World) : Growth.grew w (after es w).
Proof.
  revert w. induction es as [|f es IH]; intros w; [apply grew_refl|].
  cbn [after fold_left].
  exact (grew_trans _ _ _ (grew_effect f w) (IH (apply_effect w f))).
Qed.

(** A computation that amounts to a list of effects only grows the
    world. *)
Lemma grows_effects {A} (m : M A) :
  (forall w, exists o es, m w = (o, after es w)) -> Growth.only_grows m.
Proof.
  intros Hm w o w' Hrun. destruct (Hm w) as (o' & es & E).
  rewrite E in Hrun. injection Hrun as _ <-. apply grew_after.
Qed.

(** *** The steps *)

Lemma grows_ret {A} (a : A) : Growth.only_grows (ret a).
Proof. intros w o w'. unfold ret. intros [= _ <-]. apply grew_refl. Qed.

Lemma grows_raise {A} (e : exn) : Growth.only_grows (@raise A e).
Proof. intros w o w'. unfold raise. intros [= _ <-]. apply grew_refl. Qed.

Lemma grows_lift {A} (o : outcome A) : Growth.only_grows (Evaluator.lift o).
Proof. intros w o' w'. intros [= _ <-]. apply grew_refl. Qed.

Lemma grows_bind {A B} (m : M A) (k : A -> M B) :
  Growth.only_grows m -> (forall a, Growth.only_grows (k a)) ->
  Growth.only_grows (bind m k).
Proof.
  intros Hm Hk w o w'. unfold bind.
  destruct (m w) as [[a|e] w1] eqn:E.
  - intros Hka. exact (grew_trans _ _ _ (Hm _ _ _ E) (Hk a _ _ _ Hka)).
  - intros [= _ <-]. exact (Hm _ _ _ E).
Qed.

Lemma grows_try {A} (m h : M A) :
  Growth.only_grows m -> Growth.only_grows h ->
  Growth.only_grows (try_except m h).
Proof.
  intros Hm Hh w o w'. unfold try_except.
  destruct (m w) as [[a|e] w1] eqn:E.
  - intros [= _ <-]. exact (Hm _ _ _ E).
  - intros Hh'. exact (grew_trans _ _ _ (Hm _ _ _ E) (Hh _ _ _ Hh')).
Qed.

Lemma grows_when (c : bool) (m : M unit) :
  Growth.only_grows m -> Growth.only_grows (when c m).
Proof. intros Hm. destruct c; [exact Hm | apply grows_ret]. Qed.

Lemma grows_for_each {A S} (xs : list A) (body : A -> S -> M S) (s : S) :
  (forall x s, Growth.only_grows (body x s)) ->
  Growth.only_grows (for_each xs body s).
Proof.
  intros Hbody. revert s. induction xs as [|x xs IH]; intros s.
  - apply grows_ret.
  - cbn [for_each]. apply grows_bind; [apply Hbody | exact IH].
Qed.

Lemma grows_chat from client msgs temp :
  Growth.only_grows (OpenRouter.chat from client msgs temp).
Proof.
  apply grows_effects. intros w. rewrite chat_run.
  eexists _, [Asked _]. reflexivity.
Qed.

Lemma grows_time : Growth.only_grows OpenRouter.time_time.
Proof. intros w o w'. intros [= _ <-]. exact (grew_refl w). Qed.

Lemma grows_new : Growth.only_grows OpenRouter.new.
Proof.
  unfold OpenRouter.new.
  destruct (environ "OPENROUTER_API_KEY"); [|apply grows_raise].
  destruct (environ "OPENROUTER_MODEL"); [apply grows_ret | apply grows_raise].
Qed.

Lemma grows_evaluator_write txt md :
  Growth.only_grows (evaluator_write txt md).
Proof.
  apply grows_effects. intros w. eexists _, _. apply evaluator_write_run.
Qed.

Lemma grows_matchmaker_write ref txt md :
  Growth.only_grows (matchmaker_write ref txt md).
Proof.
  apply grows_effects. intros w.
  destruct (matchmakers w !! ref) as [a|] eqn:Ha.
  - eexists _, _. exact (matchmaker_write_run _ _ _ _ a Ha).
  - exists (Raise AttributeError), []. unfold matchmaker_write. now rewrite Ha.
Qed.

Lemma grows_write_if_present agent txt md :
  Growth.only_grows (Evaluator.write_if_present agent txt md).
Proof.
  apply grows_effects. intros w. eexists _, _. apply write_if_present_run.
Qed.

Lemma grows_self_of self : Growth.only_grows (Matchmaker.self_of self).
Proof.
  intros w o w'. unfold Matchmaker.self_of.
  destruct (matchmakers w !! self); intros [= _ <-]; apply grew_refl.
Qed.

Lemma grows_extract_intake_summary agent :
  Growth.only_grows (Evaluator._extract_intake_summary agent).
Proof.
  intros w o w'. rewrite extract_intake_summary_run. intros [= _ <-].
  apply grew_refl.
Qed.

Lemma grows_extract_latest agent_a agent_b user_a user_b :
  Growth.only_grows
    (Evaluator._extract_latest_date_exchange agent_a agent_b user_a user_b).
Proof.
  intros w o w'. unfold Evaluator._extract_latest_date_exchange.
  destruct (Evaluator.collect w agent_a _ _);
    [|intros [= _ <-]; apply grew_refl].
  destruct (Evaluator.collect w agent_b _ _) as [[|? ?]|];
    intros [= _ <-]; apply grew_refl.
Qed.

Lemma grows_get_user uid : Growth.only_grows (Registry.get_user uid).
Proof. intros w o w'. intros [= _ <-]. apply grew_refl. Qed.

Lemma grows_get_matchmaker uid :
  Growth.only_grows (Registry.get_matchmaker uid).
Proof. intros w o w'. intros [= _ <-]. apply grew_refl. Qed.

Lemma grows_has_intake agent :
  Growth.only_grows (Main._agent_has_intake_summary agent).
Proof.
  intros w o w'. unfold Main._agent_has_intake_summary.
  destruct (deref w agent); [|intros [= _ <-]; apply grew_refl].
  destruct (existsb _ _); [intros [= _ <-]; apply grew_refl|].
  destruct (fst _); intros [= _ <-]; apply grew_refl.
Qed.

Lemma grows_store sid s : Growth.only_grows (IntakeLive.store sid s).
Proof. intros w o w'. intros [= _ <-]. exact (grew_refl w). Qed.

Lemma grows_start_session uid :
  Growth.only_grows (IntakeLive.start_session uid).
Proof. intros w o w'. intros [= _ <-]. exact (grew_refl w). Qed.

Lemma grows_lookup_session sid :
  Growth.only_grows (fun w : World => (Ok (sessions w !! sid), w)).
Proof. intros w o w'. intros [= _ <-]. apply grew_refl. Qed.

Lemma grows_value_error_as_404 {A} (m : M A) :
  Growth.only_grows m -> Growth.only_grows (LiveRoutes.value_error_as_404 m).
Proof.
  intros Hm w o w'. unfold LiveRoutes.value_error_as_404.
  destruct (m w) as [[a|e] w1] eqn:E.
  - intros [= _ <-]. exact (Hm _ _ _ E).
  - destruct e; intros [= _ <-]; exact (Hm _ _ _ E).
Qed.

#[local] Hint Resolve grows_ret grows_raise grows_lift grows_chat grows_time grows_new
  grows_evaluator_write grows_matchmaker_write grows_write_if_present
  grows_self_of grows_extract_intake_summary grows_extract_latest
  grows_get_user grows_get_matchmaker grows_has_intake grows_store
  grows_start_session grows_lookup_session : grows.

(** One step of a proof that a computation only grows the world: by the
    shape of the computation. *)
Ltac grows_step :=
  lazymatch goal with
  | |- Growth.only_grows (bind _ _) => apply grows_bind; [|intros ?]
  | |- Growth.only_grows (try_except _ _) => apply grows_try
  | |- Growth.only_grows (when _ _) => apply grows_when
  | |- Growth.only_grows (for_each _ _ _) => apply grows_for_each; intros ? ?
  | |- Growth.only_grows (LiveRoutes.value_error_as_404 _) =>
      apply grows_value_error_as_404
  | |- Growth.only_grows (if ?c then _ else _) => destruct c
  | |- Growth.only_grows (match ?x with _ => _ end) => destruct x
  | |- Growth.only_grows _ => solve [auto with grows]
  end.

Ltac grows := repeat grows_step.

Lemma grows_run_intake_summary self client extra :
  Growth.only_grows (Matchmaker.run_intake_summary self client extra).
Proof. unfold Matchmaker.run_intake_summary. grows. Qed.

Lemma grows_score_date_exchange scene transcript intake_a intake_b client :
  Growth.only_grows
    (Evaluator.score_date_exchange scene transcript intake_a intake_b client).
Proof. unfold Evaluator.score_date_exchange. grows. Qed.

Lemma grows_delta_insight user_a user_b intake_a intake_b scene transcript_text
    evaluator_notes client :
  Growth.only_grows
    (Evaluator._generate_delta_insight user_a user_b intake_a intake_b scene
       transcript_text evaluator_notes client).
Proof. unfold Evaluator._generate_delta_insight. grows. Qed.

Lemma grows_reflection agent self_user other_user self_intake scene
    transcript_text client ts :
  Growth.only_grows
    (Evaluator._write_matchmaker_reflection agent self_user other_user
       self_intake scene transcript_text client ts).
Proof.
  intros w o w'. unfold Evaluator._write_matchmaker_reflection.
  destruct agent as [ref|]; [|intros [= _ <-]; apply grew_refl].
  destruct (deref w (Some ref)); [|intros [= _ <-]; apply grew_refl].
  revert w o w'.
  change (Growth.only_grows
            (try_except
               (reflection <- OpenRouter.chat Reflection client
                                [("user",
                                  Prompts.reflection_prompt self_user other_user
                                    self_intake scene transcript_text)]
                                0.6%float ;;
                matchmaker_write ref
                  (Evaluator.reflection_text other_user (PyStr.strip reflection))
                  (Evaluator.partner_metadata "matchmaker_reflection" other_user
                     ts) ;;;
                ret (PyStr.strip reflection))
               (ret EmptyString))).
  grows.
Qed.

Lemma grows_dialogue_turn user_a user_b intake_a intake_b scene test_moment
    client turn st :
  Growth.only_grows
    (Evaluator.dialogue_turn user_a user_b intake_a intake_b scene test_moment
       client turn st).
Proof. unfold Evaluator.dialogue_turn. destruct st. grows. Qed.

#[local] Hint Resolve grows_run_intake_summary grows_score_date_exchange
  grows_delta_insight grows_reflection grows_dialogue_turn : grows.

Lemma grows_date_exchange user_a agent_a user_b agent_b client :
  Growth.only_grows
    (Evaluator.run_date_exchange user_a agent_a user_b agent_b client).
Proof. unfold Evaluator.run_date_exchange. grows. Qed.

Lemma grows_pipeline_report user_a agent_a user_b agent_b exchanges client :
  Growth.only_grows
    (Evaluator.generate_pipeline_report user_a agent_a user_b agent_b
       exchanges client).
Proof. unfold Evaluator.generate_pipeline_report. grows. Qed.

Lemma grows_match_report user_a agent_a user_b agent_b client :
  Growth.only_grows
    (Evaluator.generate_match_report user_a agent_a user_b agent_b client).
Proof. unfold Evaluator.generate_match_report. grows. Qed.

Lemma grows_user_or_404 uid : Growth.only_grows (Main.user_or_404 uid).
Proof. unfold Main.user_or_404. grows. Qed.

Lemma grows_matchmaker_or_404 uid what :
  Growth.only_grows (Main.matchmaker_or_404 uid what).
Proof. unfold Main.matchmaker_or_404. grows. Qed.

#[local] Hint Resolve grows_date_exchange grows_pipeline_report grows_match_report
  grows_user_or_404 grows_matchmaker_or_404 : grows.

Lemma grows_ensure_intake agent client :
  Growth.only_grows (Main.ensure_intake agent client).
Proof. unfold Main.ensure_intake. grows. Qed.

Lemma grows_pipeline_round user_a agent_a user_b agent_b client n exchanges :
  Growth.only_grows
    (Main.pipeline_round user_a agent_a user_b agent_b client n exchanges).
Proof. unfold Main.pipeline_round. grows. Qed.

Lemma grows_next_question qs ans step :
  Growth.only_grows (IntakeLive._generate_next_question qs ans step).
Proof. unfold IntakeLive._generate_next_question. grows. Qed.

Lemma grows_note_answer agent sid q a step :
  Growth.only_grows (IntakeLive.note_answer agent sid q a step).
Proof. unfold IntakeLive.note_answer. grows. Qed.

Lemma grows_final_summary agent extra :
  Growth.only_grows (IntakeLive.final_summary_of agent extra).
Proof. unfold IntakeLive.final_summary_of. grows. Qed.

#[local] Hint Resolve grows_ensure_intake grows_pipeline_round grows_next_question
  grows_note_answer grows_final_summary : grows.

Lemma grows_submit_answer sid answer_text :
  Growth.only_grows (IntakeLive.submit_answer sid answer_text).
Proof. unfold IntakeLive.submit_answer. grows. Qed.

Lemma grows_get_status sid : Growth.only_grows (IntakeLive.get_status sid).
Proof. unfold IntakeLive.get_status. grows. Qed.

#[local] Hint Resolve grows_submit_answer grows_get_status : grows.

(** X11. No request takes anything back. Whether it returns or raises,
    each endpoint of the application leaves a world that has only grown:
    the users and the agents are the same, no agent was added or removed,
    the name, role, user and memory metadata of each agent are as they
    were, every memory entry that existed is still there, unchanged and in
    its place, before the new ones, and the history of calls to the
    provider was only extended. *)
Theorem requests_only_grow :
  (forall uid, Growth.only_grows (Main.create_intake uid))
  /\ (forall a b, Growth.only_grows (Main.generate_report a b))
  /\ (forall a b, Growth.only_grows (Main.run_date_exchange a b))
  /\ (forall a b, Growth.only_grows (Main.run_pipeline a b))
  /\ (forall uid, Growth.only_grows (LiveRoutes.start_live_intake uid))
  /\ (forall sid answer_text,
        Growth.only_grows (LiveRoutes.submit_live_answer sid answer_text))
  /\ (forall sid, Growth.only_grows (LiveRoutes.get_live_intake_status sid)).
Proof.
  split; [|split; [|split; [|split; [|split; [|split]]]]]; intros.
  - unfold Main.create_intake. grows.
  - unfold Main.generate_report. grows.
  - unfold Main.run_date_exchange. grows.
  - unfold Main.run_pipeline. grows.
  - unfold LiveRoutes.start_live_intake. grows.
  - unfold LiveRoutes.submit_live_answer. grows.
  - unfold LiveRoutes.get_live_intake_status. grows.
Qed.

End GrowthFacts.

Lemma requests_only_grow_witness :
  Growth.grew Registry.initial
    (snd (@Main.run_date_exchange Ref.runtime (Sample.always "ok")
            "user_001" "user_002" Registry.initial)).
Proof.
  eapply (proj1 (proj2 (proj2 (@requests_only_grow Ref.runtime
                                 (Sample.always "ok"))))).
  apply surjective_pairing.
Defined.
(** ** An intake summary is found again *)

Section IntakeFound.
Context `{PyRuntime} `{Outside}.

Lemma prefix_app (p s : string) : String.prefix p (p +:+ s) = true.
Proof.
  induction p as [|c p IH]; [now destruct s|].
  change (String c p +:+ s) with (String c (p +:+ s)).
  cbn [String.prefix]. now destruct (ascii_dec c c).
Qed.

Lemma contains_app (p s : string) : PyStr.contains p (p +:+ s) = true.
Proof.
  destruct (p +:+ s) eqn:E; cbn [PyStr.contains];
    rewrite <- E, prefix_app; reflexivity.
Qed.

Lemma lower_app (s t : string) :
  PyStr.lower (s +:+ t) = PyStr.lower s +:+ PyStr.lower t.
Proof.
  induction s as [|c s IH]; [reflexivity|].
  change (String c s +:+ t) with (String c (s +:+ t)).
  cbn [PyStr.lower]. now rewrite IH.
Qed.

(** The text of an intake entry is a hit of the query "Intake summary". *)
Lemma intake_memory_text_hit (user : User) (summary md : dict) :
  Mem.hit (PyStr.strip (PyStr.lower "Intake summary"))
          (Entry (Matchmaker.intake_memory_text user summary) md) = true.
Proof.
  unfold Mem.hit, Matchmaker.intake_memory_text. cbn [text].
  rewrite lower_app.
  change (PyStr.strip (PyStr.lower "Intake summary")) with "intake summary".
  match goal with
  | |- context [PyStr.lower "Intake summary for " +:+ ?r] =>
      change (PyStr.lower "Intake summary for " +:+ r)
        with ("intake summary" +:+ (" for " +:+ r))
  end.
  apply contains_app.
Qed.

Lemma has_intake_of_hit (w : World) (ref : string) (a : MatchmakerAgent)
    (e : entry) :
  matchmakers w !! ref = Some a ->
  In e (_entries (ma_memory a)) ->
  Mem.hit (PyStr.strip (PyStr.lower "Intake summary")) e = true ->
  Main._agent_has_intake_summary (Some ref) w = (Ok true, w).
Proof.
  intros Ha Hin Hhit. unfold Main._agent_has_intake_summary. cbn [deref].
  rewrite Ha. destruct (existsb _ _); [reflexivity|].
  unfold Mem.search. cbn [fst].
  assert (Hfound : In e (List.filter
                           (Mem.hit (PyStr.strip (PyStr.lower "Intake summary")))
                           (_entries (ma_memory a))))
    by (apply filter_In; now split).
  destruct (List.filter _ _) as [|x l]; [contradiction | reflexivity].
Qed.

(** X12. An intake summary that was run is found from then on. Once
    [run_intake_summary] has returned for an agent,
    [_agent_has_intake_summary] holds of that agent in the world it left and
    in every world that has only grown since; there the guard of the date
    and pipeline endpoints runs no further intake: it makes no call and
    changes nothing. *)
Theorem intake_summary_stays_found (self : string) (client : OpenRouterClient)
    (extra : option string) (w w1 w2 : World) (summary : dict) :
  Matchmaker.run_intake_summary self client extra w = (Ok summary, w1) ->
  Growth.grew w1 w2 ->
  Main._agent_has_intake_summary (Some self) w2 = (Ok true, w2)
  /\ forall client',
       Main.ensure_intake (Some self) client' w2 = (Ok tt, w2).
Proof.
  intros Hrun Hgrew.
  apply run_intake_summary_inv in Hrun
    as (agent & response & Hagent & _ & [-> _]).
  set (es := [Asked _; ReadClock; MatchmakerWrote self _]) in *.
  destruct (matchmaker_after es w self agent Hagent)
    as (a1 & Ha1 & Hentries & _).
  destruct Hgrew as (_ & _ & _ & _ & _ & Hkept & _).
  destruct (Hkept self a1 Ha1) as (a2 & Ha2 & _ & _ & _ & _ & _ & more & Hmore).
  assert (Hfound : Main._agent_has_intake_summary (Some self) w2
                   = (Ok true, w2)).
  { eapply (has_intake_of_hit w2 self a2); [exact Ha2| |].
    - rewrite Hmore, Hentries. apply in_or_app. left. apply in_or_app. right.
      subst es. cbn [matchmaker_wrote flat_map app].
      rewrite String.eqb_refl. left. reflexivity.
    - apply intake_memory_text_hit. }
  split; [exact Hfound|].
  intros client'. unfold Main.ensure_intake.
  now rewrite (bind_ok _ _ _ _ _ Hfound).
Qed.

End IntakeFound.

Lemma intake_summary_stays_found_witness :
  fst (@Main._agent_has_intake_summary Ref.runtime (Some "user_001")
         (snd (@Matchmaker.run_intake_summary Ref.runtime (Sample.always "ok")
                 "user_001" Ref.client None Registry.initial)))
  = Ok true.
Proof.
  destruct (@Matchmaker.run_intake_summary Ref.runtime (Sample.always "ok")
              "user_001" Ref.client None Registry.initial)
    as [[summary|e] w1] eqn:E; [|vm_compute in E; discriminate E].
  cbn [snd].
  now rewrite (proj1 (@intake_summary_stays_found Ref.runtime
                        (Sample.always "ok") "user_001" Ref.client None
                        Registry.initial w1 w1 summary E
                        (@grew_refl w1))).
Defined.
(** ** Requests that fail before they start *)

Section FailEarly.
Context `{PyRuntime} `{Outside}.

Lemma user_or_404_known (uid : string) (w : World) (u : User) :
  List.find (fun u => String.eqb (user_id u) uid) (users w) = Some u ->
  Main.user_or_404 uid w = (Ok u, w).
Proof.
  intros Hu. unfold Main.user_or_404, Registry.get_user, bind.
  now rewrite Hu.
Qed.

Lemma user_or_404_unknown (uid : string) (w : World) :
  List.find (fun u => String.eqb (user_id u) uid) (users w) = None ->
  Main.user_or_404 uid w
  = (Raise (HTTPException 404 ("User " +:+ uid +:+ " not found")), w).
Proof.
  intros Hu. unfold Main.user_or_404, Registry.get_user, bind.
  now rewrite Hu.
Qed.

Lemma matchmaker_or_404_known (uid what : string) (w : World)
    (a : MatchmakerAgent) :
  matchmakers w !! uid = Some a ->
  Main.matchmaker_or_404 uid what w = (Ok (Some uid), w).
Proof.
  intros Ha. unfold Main.matchmaker_or_404, Registry.get_matchmaker, bind.
  now rewrite Ha.
Qed.

(** X13. The three endpoints on a pair of users check their inputs in
    order and before anything else: an unknown first user is a 404 that
    names it; with the first user known, an unknown second user is a 404
    that names the second; with both users and their agents there, a
    missing OPENROUTER_API_KEY is a [KeyError]. In each case no call was
    made to the provider and nothing has changed. *)
Theorem pair_endpoints_fail_early (user_a_id user_b_id : string) (w : World) :
  let known uid :=
    List.find (fun u => String.eqb (user_id u) uid) (users w) in
  let fails (e : exn) :=
    Main.generate_report user_a_id user_b_id w = (Raise e, w)
    /\ Main.run_date_exchange user_a_id user_b_id w = (Raise e, w)
    /\ Main.run_pipeline user_a_id user_b_id w = (Raise e, w) in
  (known user_a_id = None ->
   fails (HTTPException 404 ("User " +:+ user_a_id +:+ " not found")))
  /\ (is_Some (known user_a_id) -> known user_b_id = None ->
      fails (HTTPException 404 ("User " +:+ user_b_id +:+ " not found")))
  /\ (is_Some (known user_a_id) -> is_Some (known user_b_id) ->
      is_Some (matchmakers w !! user_a_id) ->
      is_Some (matchmakers w !! user_b_id) ->
      environ "OPENROUTER_API_KEY" = None ->
      fails (KeyError "OPENROUTER_API_KEY")).
Proof.
  intros known fails. subst known fails. cbv beta.
  unfold Main.generate_report, Main.run_date_exchange, Main.run_pipeline.
  split; [|split].
  - intros Ha. pose proof (user_or_404_unknown _ _ Ha) as Ea.
    repeat split; unfold bind at 1; now rewrite Ea.
  - intros [ua Ha] Hb.
    pose proof (user_or_404_known _ _ _ Ha) as Ea.
    pose proof (user_or_404_unknown _ _ Hb) as Eb.
    repeat split; rewrite (bind_ok _ _ _ _ _ Ea); unfold bind at 1;
      now rewrite Eb.
  - intros [ua Ha] [ub Hb] [ma Hma] [mb Hmb] Hkey.
    pose proof (user_or_404_known _ _ _ Ha) as Ea.
    pose proof (user_or_404_known _ _ _ Hb) as Eb.
    pose proof (new_without_key w Hkey) as Enew.
    repeat split;
      rewrite (bind_ok _ _ _ _ _ Ea), (bind_ok _ _ _ _ _ Eb),
        (bind_ok _ _ _ _ _ (matchmaker_or_404_known _ _ _ _ Hma)),
        (bind_ok _ _ _ _ _ (matchmaker_or_404_known _ _ _ _ Hmb));
      unfold bind at 1; now rewrite Enew.
Qed.

End FailEarly.

Lemma pair_endpoints_fail_early_witness :
  @Main.run_pipeline Ref.runtime Scenario.unset "user_001" "user_009"
    Registry.initial
  = (Raise (HTTPException 404 "User user_009 not found"), Registry.initial).
Proof.
  apply (proj1 (proj2 (@pair_endpoints_fail_early Ref.runtime Scenario.unset
                         "user_001" "user_009" Registry.initial)));
    [cbn; eauto | reflexivity].
Defined.
(** ** When the provider fails *)

Section ProviderFailure.
Context `{PyRuntime} `{Outside}.

Lemma chat_failed from client msgs temp w :
  llm (length (calls w)) client msgs temp = None ->
  OpenRouter.chat from client msgs temp w
  = (Raise (llm_error (length (calls w)) client msgs temp),
     set_calls (fun cs => cs ++ [mkCall from client msgs temp None]) w).
Proof. intros E. rewrite chat_run. unfold logged. now rewrite E. Qed.

(** X14. The request to the provider is outside the [try] of
    [run_intake_summary] and of [score_date_exchange]: when it fails, the
    error it raised escapes, whatever its type, there is no fallback summary and no default score; the
    failed call is the only trace, no memory has an entry more and the
    clock was not read. *)
Theorem provider_failure_escapes (client : OpenRouterClient) (w : World) :
  (forall self agent extra,
      matchmakers w !! self = Some agent ->
      let msgs :=
        [("user", Matchmaker.intake_prompt (ma_user_profile agent) extra)] in
      llm (length (calls w)) client msgs 0.7%float = None ->
      Matchmaker.run_intake_summary self client extra w
      = (Raise (llm_error (length (calls w)) client msgs 0.7%float),
         set_calls
           (fun cs => cs ++ [mkCall IntakeSummary client msgs 0.7%float None])
           w))
  /\ (forall scene transcript intake_a intake_b,
        let msgs :=
          [("user",
            Prompts.score_prompt scene (Evaluator.transcript_text_of transcript)
              intake_a intake_b)] in
        llm (length (calls w)) client msgs 0.5%float = None ->
        Evaluator.score_date_exchange scene transcript intake_a intake_b
          client w
        = (Raise (llm_error (length (calls w)) client msgs 0.5%float),
           set_calls
             (fun cs => cs ++ [mkCall ScoreDate client msgs 0.5%float None])
             w)).
Proof.
  split.
  - intros self agent extra Hagent msgs Hfail.
    unfold Matchmaker.run_intake_summary.
    rewrite (bind_ok _ _ w w agent)
      by (unfold Matchmaker.self_of; now rewrite Hagent).
    unfold bind. now rewrite (chat_failed _ _ _ _ _ Hfail).
  - intros scene transcript intake_a intake_b msgs Hfail.
    unfold Evaluator.score_date_exchange, bind.
    now rewrite (chat_failed _ _ _ _ _ Hfail).
Qed.

(** X15. The two best-effort steps of a date exchange never raise.
    [_generate_delta_insight] makes one request and returns the stripped
    answer, or the empty string when the request fails.
    [_write_matchmaker_reflection], for an agent that exists, makes one
    request and, when it is answered, writes the stripped reflection into
    that agent's memory and returns it; when the request fails it returns
    the empty string and writes nothing. For no agent, or an agent that
    does not exist, it returns the empty string without a request. *)
Theorem best_effort_steps_never_raise (client : OpenRouterClient) (w : World) :
  (forall user_a user_b intake_a intake_b scene transcript_text notes,
      let msgs :=
        [("user",
          Prompts.delta_insight_prompt user_a user_b intake_a intake_b scene
            transcript_text (Evaluator.notes_text_of notes))] in
      let answer := llm (length (calls w)) client msgs 0.5%float in
      Evaluator._generate_delta_insight user_a user_b intake_a intake_b scene
        transcript_text notes client w
      = (Ok match answer with Some r => PyStr.strip r | None => "" end,
         after [Asked (mkCall DeltaInsight client msgs 0.5%float answer)] w))
  /\ (forall ref agent self_user other_user self_intake scene transcript_text
             ts,
        matchmakers w !! ref = Some agent ->
        let msgs :=
          [("user",
            Prompts.reflection_prompt self_user other_user self_intake scene
              transcript_text)] in
        let answer := llm (length (calls w)) client msgs 0.6%float in
        Evaluator._write_matchmaker_reflection (Some ref) self_user other_user
          self_intake scene transcript_text client ts w
        = match answer with
          | Some r =>
              (Ok (PyStr.strip r),
               after [Asked (mkCall Reflection client msgs 0.6%float (Some r));
                      MatchmakerWrote ref
                        (Entry (Evaluator.reflection_text other_user
                                  (PyStr.strip r))
                               (Evaluator.partner_metadata
                                  "matchmaker_reflection" other_user ts))]
                     w)
          | None =>
              (Ok "",
               after [Asked (mkCall Reflection client msgs 0.6%float None)] w)
          end)
  /\ (forall agent self_user other_user self_intake scene transcript_text ts,
        deref w agent = None ->
        Evaluator._write_matchmaker_reflection agent self_user other_user
          self_intake scene transcript_text client ts w
        = (Ok "", w)).
Proof.
  split; [|split].
  - intros user_a user_b intake_a intake_b scene transcript_text notes msgs
      answer.
    unfold Evaluator._generate_delta_insight, try_except, bind.
    rewrite chat_run. unfold logged. fold msgs. fold answer.
    now destruct answer.
  - intros ref agent self_user other_user self_intake scene transcript_text ts
      Hagent msgs answer.
    unfold Evaluator._write_matchmaker_reflection. cbn [deref].
    rewrite Hagent. unfold try_except, bind at 1.
    rewrite chat_run. unfold logged. fold msgs. fold answer.
    destruct answer as [r|]; [|reflexivity].
    assert (Hagent' :
              matchmakers
                (set_calls
                   (fun cs => cs ++ [mkCall Reflection client msgs 0.6%float
                                       (Some r)]) w) !! ref = Some agent)
      by exact Hagent.
    unfold bind. rewrite (matchmaker_write_run _ _ _ _ _ Hagent').
    reflexivity.
  - intros agent self_user other_user self_intake scene transcript_text ts
      Hnone.
    unfold Evaluator._write_matchmaker_reflection.
    destruct agent as [ref|]; [|reflexivity]. now rewrite Hnone.
Qed.

End ProviderFailure.

Lemma provider_failure_escapes_witness :
  exists w',
    @Matchmaker.run_intake_summary Ref.runtime Scenario.silent "user_001"
      Ref.client None Registry.initial
    = (Raise HTTPError, w')
    /\ matchmakers w' = matchmakers Registry.initial
    /\ ticks w' = 0%nat.
Proof.
  eexists. split.
  - apply (proj1 (@provider_failure_escapes Ref.runtime Scenario.silent
                    Ref.client Registry.initial)
             "user_001" (Matchmaker.init "user_001" Sample.jordan) None);
      reflexivity.
  - split; reflexivity.
Defined.

Lemma best_effort_steps_never_raise_witness :
  @Evaluator._write_matchmaker_reflection Ref.runtime Scenario.silent
    (Some "user_001") Sample.jordan Sample.alex VNone "a cafe" "" Ref.client
    0%float Registry.initial
  = (Ok "",
     set_calls
       (fun cs =>
          cs ++ [mkCall Reflection Ref.client
                   [("user",
                     @Prompts.reflection_prompt Ref.runtime Sample.jordan
                       Sample.alex VNone "a cafe" "")]
                   0.6%float None])
       Registry.initial).
Proof.
  apply (proj1 (proj2 (@best_effort_steps_never_raise Ref.runtime
                         Scenario.silent Ref.client Registry.initial))
           "user_001" (Matchmaker.init "user_001" Sample.jordan)).
  reflexivity.
Defined.
(** ** Scores that are not numbers *)

Section PipelineReportErrors.
Context `{PyRuntime} `{Outside}.

Lemma floats_of_conversion_error (k : string) (scores : list value) :
  Forall (fun s => exists d, s = VDict d) scores ->
  Exists (fun s => exists d,
            s = VDict d /\ py_float (Dict.get_or k (VInt 0) d) = None)
         scores ->
  Evaluator.floats_of k scores = Raise ConversionError.
Proof.
  intros Hdicts Hbad.
  induction scores as [|s scores IH]; [inversion Hbad|].
  apply Forall_cons_iff in Hdicts as [[d ->] Hdicts].
  cbn [Evaluator.floats_of Evaluator.value_get].
  destruct (py_float (Dict.get_or k (VInt 0) d)) as [f|] eqn:Ef;
    [|reflexivity].
  apply Exists_cons in Hbad as [(d' & [= <-] & Hnone)|Hbad]; [congruence|].
  now rewrite (IH Hdicts Hbad).
Qed.

Lemma score_or_empty_dict (e score : dict) :
  Dict.get "score" e = Some (VDict score) -> score <> [] ->
  Evaluator.score_or_empty e = VDict score.
Proof.
  intros Hscore Hne. unfold Evaluator.score_or_empty. rewrite Hscore.
  now destruct score.
Qed.

(** X16. The scores of a date exchange are not validated. When the
    provider's score object carries a compatibility that [float] rejects,
    [score_date_exchange] keeps that value, and a pipeline report over
    exchanges one of which has this score raises the conversion error
    before it asks the provider: no call is made, nothing is written. *)
Theorem pipeline_report_rejects_unvalidated_score (user_a user_b : User)
    (agent_a agent_b : option string) (exchanges : list dict)
    (client : OpenRouterClient) (w : World) (bad parsed : dict)
    (response : string) (v : value) :
  Forall (fun e => exists score,
            Dict.get "score" e = Some (VDict score) /\ score <> [])
         exchanges ->
  In bad exchanges ->
  Dict.get "score" bad = Some (VDict (Evaluator.score_of_response response)) ->
  Matchmaker.extract_json response = Some (VDict parsed) ->
  Dict.get "compatibility" parsed = Some v ->
  py_float v = None ->
  Dict.get "compatibility" (Evaluator.score_of_response response) = Some v
  /\ Evaluator.generate_pipeline_report user_a agent_a user_b agent_b
       exchanges client w
     = (Raise ConversionError, w).
Proof.
  intros Hscores Hin Hbad Hparsed Hv Hfloat.
  assert (Hkept : Dict.get "compatibility"
                    (Evaluator.score_of_response response) = Some v).
  { rewrite (score_of_response_filled response parsed Hparsed).
    now rewrite Hv. }
  split; [exact Hkept|].
  unfold Evaluator.generate_pipeline_report.
  rewrite (bind_ok _ _ _ _ _ (extract_intake_summary_run agent_a w)).
  rewrite (bind_ok _ _ _ _ _ (extract_intake_summary_run agent_b w)).
  unfold bind at 1. unfold Evaluator.lift at 1.
  rewrite floats_of_conversion_error; [reflexivity| |].
  - apply List.Forall_forall. intros s Hs.
    apply in_map_iff in Hs as (e & <- & He).
    rewrite List.Forall_forall in Hscores.
    destruct (Hscores e He) as (score & Hscore & Hne). exists score.
    now apply score_or_empty_dict.
  - apply List.Exists_exists.
    exists (VDict (Evaluator.score_of_response response)). split.
    + apply in_map_iff. exists bad. split; [|exact Hin].
      apply score_or_empty_dict; [exact Hbad|].
      intros E. rewrite E in Hkept. discriminate.
    + eexists. split; [reflexivity|].
      unfold Dict.get_or. now rewrite Hkept.
Qed.

End PipelineReportErrors.

Lemma pipeline_report_rejects_unvalidated_score_witness :
  @Evaluator.generate_pipeline_report Ref.runtime (Sample.always "ok")
    Sample.jordan (Some "user_001") Sample.alex (Some "user_002")
    [[("score", VDict (@Evaluator.score_of_response Ref.runtime Scenario.worded_score))]]
    Ref.client Registry.initial
  = (Raise ConversionError, Registry.initial).
Proof.
  assert (Hparsed : @Matchmaker.extract_json Ref.runtime Scenario.worded_score
                    = Some (VDict [("compatibility", VStr "high")]))
    by (vm_compute; reflexivity).
  apply (proj2 (@pipeline_report_rejects_unvalidated_score Ref.runtime
                  (Sample.always "ok") Sample.jordan Sample.alex
                  (Some "user_001") (Some "user_002")
                  [[("score",
                     VDict (@Evaluator.score_of_response Ref.runtime
                              Scenario.worded_score))]]
                  Ref.client Registry.initial
                  [("score",
                    VDict (@Evaluator.score_of_response Ref.runtime
                             Scenario.worded_score))]
                  [("compatibility", VStr "high")] Scenario.worded_score (VStr "high")
                  ltac:(repeat constructor; eexists; split;
                        [reflexivity | vm_compute; discriminate])
                  ltac:(now left) eq_refl Hparsed eq_refl eq_refl)).
Defined.

(** ** Every user has an agent *)

Section RegistryFacts.
Context `{PyRuntime} `{Outside}.

(** X17. In the registry as it is built, and in every world that has only
    grown from it, a user that the lookup finds has a matchmaker, made for
    that user's id and profile: the endpoints' answer 404 "Matchmaker for
    ... not found" cannot occur once the user was found. *)
Theorem known_user_has_matchmaker (w : World) (uid what : string) (u : User) :
  Growth.grew Registry.initial w ->
  Main.user_or_404 uid w = (Ok u, w) ->
  Main.matchmaker_or_404 uid what w = (Ok (Some uid), w)
  /\ exists a,
       matchmakers w !! uid = Some a
       /\ ma_user_id a = uid /\ ma_user_profile a = u.
Proof.
  intros (Husers & _ & _ & _ & _ & Hkept & _) Hu.
  unfold Main.user_or_404, Registry.get_user, bind in Hu.
  rewrite Husers in Hu.
  destruct (List.find _ (users Registry.initial)) as [u'|] eqn:E;
    [|discriminate].
  injection Hu as ->.
  apply find_some in E as [Hin Heq]. apply String.eqb_eq in Heq. subst uid.
  assert (Hinit : exists a,
             matchmakers Registry.initial !! user_id u = Some a
             /\ ma_user_id a = user_id u /\ ma_user_profile a = u).
  { cbn [users Registry.initial] in Hin.
    destruct Hin as [<-|[<-|[<-|[]]]]; eexists; (split; [|split]);
      reflexivity || (vm_compute; reflexivity). }
  destruct Hinit as (a & Ha & Hid & Hprofile).
  destruct (Hkept _ a Ha) as (a' & Ha' & _ & _ & Hid' & Hprofile' & _).
  split.
  - exact (matchmaker_or_404_known _ _ _ _ Ha').
  - exists a'. split; [exact Ha'|]. split; congruence.
Qed.

End RegistryFacts.

Lemma known_user_has_matchmaker_witness :
  @Main.matchmaker_or_404 "user_003" "Matchmaker for " Registry.initial
  = (Ok (Some "user_003"), Registry.initial).
Proof.
  eapply (proj1 (known_user_has_matchmaker Registry.initial "user_003" _ _
                   (@grew_refl Registry.initial) _)).
  Unshelve. 2: reflexivity.
Defined.
(** ** The summary at the end of a live intake *)

Section FinalSummary.
Context `{PyRuntime} `{Outside}.

Lemma qa_pairs_length (i : Z) (qs ans : list string) :
  length (IntakeLive.qa_pairs_from i qs ans)
  = Nat.min (length qs) (length ans).
Proof.
  revert i ans. induction qs as [|q qs IH]; intros i [|a ans];
    cbn [IntakeLive.qa_pairs_from length Nat.min]; try reflexivity.
  now rewrite IH.
Qed.

(** X18. The fifth answer of a live intake, for a user with an agent and
    with the environment set, asks the provider for the intake summary
    with all five questions and answers as live notes, the answer just
    given included: the one call it makes carries the intake prompt whose
    extra context is the five numbered pairs joined by blank lines, and
    what [submit_answer] returns as [final_summary] is the summary made of
    the provider's answer to it. *)
Theorem final_summary_uses_all_answers (sid answer_text : string) (w : World)
    (s : Session) (agent : MatchmakerAgent) (key mdl response : string) :
  sessions w !! sid = Some s ->
  is_complete s = false ->
  Live.session_inv s ->
  step_index s = 4 ->
  matchmakers w !! s_user_id s = Some agent ->
  environ "OPENROUTER_API_KEY" = Some key ->
  environ "OPENROUTER_MODEL" = Some mdl ->
  let client := mkClient key mdl "https://openrouter.ai/api/v1" in
  let pairs :=
    IntakeLive.qa_pairs_from 1 (questions s) (answers s ++ [answer_text]) in
  let prompt :=
    Matchmaker.intake_prompt (ma_user_profile agent)
      (Some (PyStr.join (PyStr.NL +:+ PyStr.NL) pairs)) in
  llm (length (calls w)) client [("user", prompt)] 0.7%float = Some response ->
  length pairs = 5%nat
  /\ exists w',
       IntakeLive.submit_answer sid answer_text w
       = (Ok (mkAnswer sid None 5 true
                (Some (Matchmaker.summary_of response))), w')
       /\ calls w'
          = calls w ++ [mkCall IntakeSummary client [("user", prompt)]
                          0.7%float (Some response)].
Proof.
  intros Hs Hc Hinv Hfour Hagent Hkey Hmdl client pairs prompt Hanswer.
  pose proof Hinv as (Hstep & Hqs & _ & _).
  split.
  { subst pairs. rewrite qa_pairs_length, length_app. cbn [length]. lia. }
  destruct (submit_answer_advances sid answer_text w s Hs Hc Hinv)
    as (w2 & _ & _ & _ & Hcalls & Hprofile & _ & Hrun).
  rewrite Hrun, Hfour. change (4 + 1 >=? 5) with true. cbv iota.
  rewrite (bind_ok _ _ _ _ _ (store_run _ _ _)).
  rewrite Hagent. cbn [IntakeLive.final_summary_of].
  set (w3 := set_sessions _ w2).
  assert (Hnew : OpenRouter.new w3 = (Ok client, w3)).
  { unfold OpenRouter.new. now rewrite Hkey, Hmdl. }
  destruct (Hprofile _ _ Hagent) as (agent' & Hagent' & Hsame).
  assert (Hanswer' :
            llm (length (calls w3)) client
                [("user",
                  Matchmaker.intake_prompt (ma_user_profile agent')
                    (Some (PyStr.join (PyStr.NL +:+ PyStr.NL) pairs)))]
                0.7%float = Some response).
  { cbn [calls w3 set_sessions]. now rewrite Hcalls, Hsame. }
  unfold bind at 1. rewrite (bind_ok _ _ _ _ _ Hnew).
  rewrite (run_intake_summary_answered (s_user_id s) agent' client _ w3
             response Hagent' Hanswer').
  eexists. split; [reflexivity|].
  cbn [calls set_matchmakers set_ticks set_calls w3 set_sessions].
  now rewrite Hcalls, Hsame.
Qed.

End FinalSummary.

Lemma final_summary_uses_all_answers_witness :
  exists w',
    @IntakeLive.submit_answer Ref.runtime (Sample.always "ok") "session-0"
      "yes" (Sample.answered 4)
    = (Ok (mkAnswer "session-0" None 5 true
             (Some (@Matchmaker.summary_of Ref.runtime "ok"))), w').
Proof.
  assert (Hs : exists s,
             sessions (Sample.answered 4) !! "session-0" = Some s
             /\ is_complete s = false /\ step_index s = 4
             /\ s_user_id s = "user_001").
  { eexists. split; [vm_compute; reflexivity | repeat split]. }
  destruct Hs as (s & Hs & Hc & Hstep & Huser).
  assert (Hagent : exists agent,
             matchmakers (Sample.answered 4) !! s_user_id s = Some agent).
  { rewrite Huser. eexists. vm_compute. reflexivity. }
  destruct Hagent as (agent & Hagent).
  destruct (@final_summary_uses_all_answers Ref.runtime (Sample.always "ok")
              "session-0" "yes" (Sample.answered 4) s agent "key" "model" "ok"
              Hs Hc
              (@reachable_inv Ref.runtime (Sample.always "ok") _
                 four_answers_reachable _ _ Hs)
              Hstep Hagent eq_refl eq_refl eq_refl)
    as (_ & w' & Hrun & _).
  exists w'. exact Hrun.
Defined.
(** ** The chunks of a streamed answer *)

Section ChunkFacts.

Lemma substring_none (n : nat) (s : string) : String.substring n 0 s = "".
Proof.
  revert n. induction s as [|c s IH]; intros [|n]; cbn [String.substring];
    try reflexivity.
  apply IH.
Qed.

Lemma string_app_cons (c : ascii) (s t : string) :
  String c s +:+ t = String c (s +:+ t).
Proof. reflexivity. Qed.

Lemma substring_split (i a b : nat) (s : string) :
  String.substring i (a + b) s
  = String.substring i a s +:+ String.substring (i + a) b s.
Proof.
  revert i a. induction s as [|c s IH]; intros i a.
  - destruct i, a, b; reflexivity.
  - destruct i as [|i].
    + destruct a as [|a].
      * cbn [Nat.add]. now rewrite substring_none.
      * cbn [Nat.add String.substring]. rewrite string_app_cons.
        f_equal. exact (IH 0%nat a).
    + cbn [Nat.add String.substring]. apply IH.
Qed.

Lemma substring_length (i m : nat) (s : string) :
  (i + m <= String.length s)%nat ->
  String.length (String.substring i m s) = m.
Proof.
  revert i m. induction s as [|c s IH]; intros i m Hle; cbn [String.length] in Hle.
  - assert (i = 0 /\ m = 0)%nat as [-> ->] by lia. reflexivity.
  - destruct i as [|i].
    + destruct m as [|m]; [reflexivity|]. cbn [String.substring String.length].
      f_equal. apply IH. lia.
    + cbn [String.substring]. apply IH. lia.
Qed.

Lemma substring_whole (s : string) :
  String.substring 0 (String.length s) s = s.
Proof.
  induction s as [|c s IH]; [reflexivity|].
  cbn [String.length String.substring]. now rewrite IH.
Qed.

Lemma string_app_nil_r (s : string) : s +:+ "" = s.
Proof.
  induction s as [|c s IH]; [reflexivity|].
  change (String c s +:+ "") with (String c (s +:+ "")). now rewrite IH.
Qed.

Lemma concat_cons (x : string) (l : list string) :
  String.concat "" (x :: l) = x +:+ String.concat "" l.
Proof.
  destruct l as [|y l]; cbn [String.concat].
  - now rewrite string_app_nil_r.
  - reflexivity.
Qed.

Lemma slice_from (s : string) (i k : nat) :
  (i <= String.length s)%nat ->
  PyStr.slice s (Z.of_nat i) (Z.of_nat i + Z.of_nat k)
  = String.substring i (Nat.min k (String.length s - i)) s.
Proof.
  intros Hi. unfold PyStr.slice, PyStr.clamp.
  destruct (Z.ltb_spec (Z.of_nat i) 0); [lia|].
  destruct (Z.ltb_spec (Z.of_nat i + Z.of_nat k) 0); [lia|].
  f_equal; lia.
Qed.

(** The chunks from an offset on: they rebuild the rest of the text, none
    is empty or longer than the chunk size, and there are as many as the
    rest needs. *)
Lemma chunks_from (s : string) (fuel i : nat) :
  (i <= String.length s)%nat ->
  (String.length s - i <= fuel)%nat ->
  let l :=
    map (fun j => PyStr.slice s j (j + ChatStream.chunk_size))
        (ChatStream.range_from fuel (Z.of_nat i)
           (Z.of_nat (String.length s)) ChatStream.chunk_size) in
  String.concat "" l = String.substring i (String.length s - i) s
  /\ Forall (fun chunk => (1 <= String.length chunk <= 60)%nat) l
  /\ length l = ((String.length s - i + 59) / 60)%nat.
Proof.
  revert i. induction fuel as [|fuel IH]; intros i Hi Hfuel l; subst l.
  - cbn [ChatStream.range_from map String.concat length].
    replace (String.length s - i)%nat with 0%nat by lia.
    rewrite substring_none. repeat split. constructor.
  - cbn [ChatStream.range_from].
    destruct (Z.ltb_spec (Z.of_nat i) (Z.of_nat (String.length s)))
      as [Hlt|Hge].
    2:{ replace (String.length s - i)%nat with 0%nat by lia.
        rewrite substring_none. cbn [map String.concat length].
        repeat split. constructor. }
    cbn [map]. rewrite concat_cons.
    change ChatStream.chunk_size with (Z.of_nat 60).
    rewrite slice_from by lia.
    destruct (Nat.le_gt_cases (i + 60) (String.length s)) as [Hfull|Hlast].
    + rewrite <- Nat2Z.inj_add.
      destruct (IH (i + 60)%nat ltac:(lia) ltac:(lia)) as (Hcat & Hall & Hlen).
      change (Z.of_nat 60) with ChatStream.chunk_size.
      rewrite Hcat. rewrite Nat.min_l by lia. split; [|split].
      * replace (String.length s - i)%nat
          with (60 + (String.length s - (i + 60)))%nat by lia.
        now rewrite substring_split.
      * constructor; [|exact Hall].
        rewrite substring_length by lia. lia.
      * cbn [length]. rewrite Hlen.
        replace (String.length s - i + 59)%nat
          with (1 * 60 + (String.length s - (i + 60) + 59))%nat by lia.
        now rewrite Nat.div_add_l by lia.
    + rewrite Nat.min_r by lia.
      assert (Hnil : ChatStream.range_from fuel (Z.of_nat i + Z.of_nat 60)
                       (Z.of_nat (String.length s)) (Z.of_nat 60) = []).
      { destruct fuel as [|fuel']; [reflexivity|].
        cbn [ChatStream.range_from].
        destruct (Z.ltb_spec (Z.of_nat i + Z.of_nat 60)
                    (Z.of_nat (String.length s))); [lia | reflexivity]. }
      rewrite Hnil. cbn [map String.concat length].
      rewrite string_app_nil_r. split; [reflexivity|]. split.
      * constructor; [|constructor]. rewrite substring_length by lia. lia.
      * apply Nat.div_unique with (r := (String.length s - i - 1)%nat); lia.
Qed.

(** X19. The answer streamed by [chat_stream] is cut into chunks that,
    concatenated in the order they are sent, give back the answer; no chunk
    is empty, none has more than 60 characters, and there are
    [ceil(len / 60)] of them, none for an empty answer. *)
Theorem chunks_rebuild_response (response_text : string) :
  String.concat "" (ChatStream.chunks response_text) = response_text
  /\ Forall (fun chunk => (1 <= String.length chunk <= 60)%nat)
            (ChatStream.chunks response_text)
  /\ length (ChatStream.chunks response_text)
     = ((String.length response_text + 59) / 60)%nat.
Proof.
  unfold ChatStream.chunks, ChatStream.py_range.
  rewrite Z.sub_0_r, Nat2Z.id.
  destruct (chunks_from response_text (String.length response_text) 0)
    as (Hcat & Hall & Hlen); [lia | lia |].
  rewrite Nat.sub_0_r in Hcat, Hlen.
  rewrite substring_whole in Hcat. now repeat split.
Qed.

End ChunkFacts.
(** ** The configuration of a request to Letta *)

Section LettaFacts.
Context `{Outside}.

Lemma rstrip_chars_end (chars s t : string) (c : ascii) :
  PyStr.mem_char c chars = true ->
  Letta.rstrip_chars chars s <> t +:+ String c "".
Proof.
  intros Hc. revert t. induction s as [|d s IH]; intros t.
  - destruct t; discriminate.
  - cbn [Letta.rstrip_chars].
    destruct (Letta.rstrip_chars chars s) as [|e r] eqn:E.
    + destruct (PyStr.mem_char d chars) eqn:Hd.
      * destruct t; discriminate.
      * destruct t as [|x t].
        -- intros [= -> ]. congruence.
        -- rewrite string_app_cons. intros [= _ Ht]. destruct t; discriminate.
    + destruct t as [|x t].
      * discriminate.
      * rewrite string_app_cons. intros [= _ Ht]. exact (IH t Ht).
Qed.

(** X20. [_get_letta_config] returns a base address and a key only when
    both are set and not empty, the address taken from LETTA_BASE_URL with
    every trailing slash removed: what it returns does not end with a
    slash. When the address is unset, empty or made of
    slashes only, or the key is unset or empty, it raises
    [RuntimeError]. *)
Theorem letta_config_normalised :
  match Letta._get_letta_config with
  | Letta.Returned (base_url, api_key) =>
      base_url = Letta.rstrip_chars "/" (Letta.getenv "LETTA_BASE_URL")
      /\ api_key = Letta.getenv "LETTA_API_KEY"
      /\ base_url <> "" /\ api_key <> ""
      /\ forall t, base_url <> t +:+ "/"
  | Letta.RuntimeError _ =>
      Letta.rstrip_chars "/" (Letta.getenv "LETTA_BASE_URL") = ""
      \/ Letta.getenv "LETTA_API_KEY" = ""
  | Letta.HTTPError _ _ => False
  end.
Proof.
  unfold Letta._get_letta_config.
  destruct (Letta.rstrip_chars "/" (Letta.getenv "LETTA_BASE_URL"))
    as [|c r] eqn:Ebase.
  - left. reflexivity.
  - destruct (Letta.getenv "LETTA_API_KEY") as [|d k] eqn:Ekey.
    + right. reflexivity.
    + cbn [PyStr.nonempty negb orb].
      repeat split; try discriminate.
      intros t. rewrite <- Ebase. now apply rstrip_chars_end.
Qed.

(** X21. [_agent_id_for_user] returns an agent id for the three demo
    users only: the value, not empty, of the environment variable of that
    user. For every other user id, whatever the environment, and for a
    demo user whose variable is unset or empty, it raises the 400 that
    names the user. *)
Theorem letta_agent_id_for_demo_users (uid : string) :
  match Letta._agent_id_for_user uid with
  | Letta.Returned agent_id =>
      agent_id <> ""
      /\ ((uid = "user_001"
           /\ environ "LETTA_MATCHMAKER_A_ID" = Some agent_id)
          \/ (uid = "user_002"
              /\ environ "LETTA_MATCHMAKER_B_ID" = Some agent_id)
          \/ (uid = "user_003"
              /\ environ "LETTA_MATCHMAKER_C_ID" = Some agent_id))
  | Letta.HTTPError status detail =>
      status = 400
      /\ detail = "No Letta agent ID configured for " +:+ uid
      /\ (uid = "user_001" ->
          Letta.getenv "LETTA_MATCHMAKER_A_ID" = "")
      /\ (uid = "user_002" ->
          Letta.getenv "LETTA_MATCHMAKER_B_ID" = "")
      /\ (uid = "user_003" ->
          Letta.getenv "LETTA_MATCHMAKER_C_ID" = "")
  | Letta.RuntimeError _ => False
  end.
Proof.
  unfold Letta._agent_id_for_user. cbn [Letta.get].
  unfold Letta.getenv.
  destruct (String.eqb_spec "user_001" uid) as [<-|H1].
  { destruct (environ "LETTA_MATCHMAKER_A_ID") as [[|c v]|];
      cbn [PyStr.nonempty negb]; repeat split; try discriminate; auto. }
  destruct (String.eqb_spec "user_002" uid) as [<-|H2].
  { destruct (environ "LETTA_MATCHMAKER_B_ID") as [[|c v]|];
      cbn [PyStr.nonempty negb]; repeat split; try discriminate; auto. }
  destruct (String.eqb_spec "user_003" uid) as [<-|H3].
  { destruct (environ "LETTA_MATCHMAKER_C_ID") as [[|c v]|];
      cbn [PyStr.nonempty negb]; repeat split; try discriminate; auto 6. }
  cbn [PyStr.nonempty negb]. repeat split; congruence.
Qed.

End LettaFacts.

Lemma letta_config_normalised_witness :
  @Letta._get_letta_config LettaScenario.configured
  = Letta.Returned ("http://letta", "secret")
  /\ forall t, "http://letta" <> t +:+ "/".
Proof.
  split; [reflexivity|].
  exact (proj2 (proj2 (proj2 (proj2
           (@letta_config_normalised LettaScenario.configured))))).
Defined.

Lemma letta_agent_id_for_demo_users_witness :
  @Letta._agent_id_for_user LettaScenario.configured "user_001"
  = Letta.Returned "agent-a"
  /\ "agent-a" <> "".
Proof.
  split; [reflexivity|].
  exact (proj1 (@letta_agent_id_for_demo_users LettaScenario.configured
                  "user_001")).
Defined.
(** ** Short quotes *)

Section QuoteFacts.
Context `{PyRuntime} `{Outside}.










End QuoteFacts.

(** ** A match report before any date *)

Section MatchReportFacts.
Context `{PyRuntime} `{Outside}.

Lemma collect_loop_skips (partner_id : string) (es : list entry)
    (candidates : list (float * string)) :
  (forall e, In e es ->
             py_eq (Dict.get_or "type" VNone (metadata e))
                   (VStr "date_exchange") = false) ->
  Evaluator.collect_loop partner_id es candidates = Ok candidates.
Proof.
  induction es as [|e es IH]; intros Hno; [reflexivity|].
  cbn [Evaluator.collect_loop]. rewrite (Hno e) by now left.
  cbn [negb]. apply IH. intros e' He'. apply Hno. now right.
Qed.

(** X23. When no entry of either agent's memory has the type
    date_exchange, [_extract_latest_date_exchange] returns [None], and
    [generate_match_report] asks the provider once, with the prompt that
    has no quote clause, built from both intake summaries. When the
    provider answers, the evaluator's memory gets one entry, of type
    match_report, that holds the answer as it came, while the stripped
    answer is returned; when the request fails, the error escapes and
    nothing is written. *)
Theorem match_report_without_date_exchange (user_a user_b : User)
    (agent_a agent_b : option string) (client : OpenRouterClient) (w : World) :
  (forall agent a e,
      agent = agent_a \/ agent = agent_b ->
      deref w agent = Some a ->
      In e (_entries (ma_memory a)) ->
      py_eq (Dict.get_or "type" VNone (metadata e)) (VStr "date_exchange")
      = false) ->
  Evaluator._extract_latest_date_exchange agent_a agent_b user_a user_b w
  = (Ok None, w)
  /\ let msgs :=
       [("user",
         Prompts.match_report_prompt user_a user_b
           (Evaluator.intake_of w agent_a) (Evaluator.intake_of w agent_b)
           "")] in
     let answer := llm (length (calls w)) client msgs 0.7%float in
     Evaluator.generate_match_report user_a agent_a user_b agent_b client w
     = match answer with
       | Some report =>
           (Ok (PyStr.strip report),
            after [Asked (mkCall MatchReport client msgs 0.7%float
                            (Some report));
                   ReadClock;
                   EvaluatorWrote
                     (Entry (Evaluator.headline "Match evaluation" user_a
                               user_b +:+ report)
                            (Evaluator.pair_metadata "match_report" user_a
                               user_b (clock (ticks w))))]
                  w)
       | None =>
           (Raise (llm_error (length (calls w)) client msgs 0.7%float),
            after [Asked (mkCall MatchReport client msgs 0.7%float None)] w)
       end.
Proof.
  intros Hno.
  assert (Hcollect : forall agent pid cands,
             agent = agent_a \/ agent = agent_b ->
             Evaluator.collect w agent pid cands = Ok cands).
  { intros agent pid cands Hagent. unfold Evaluator.collect.
    destruct (deref w agent) as [a|] eqn:Ea; [|reflexivity].
    apply collect_loop_skips. intros e He.
    exact (Hno agent a e Hagent Ea He). }
  assert (Hnone : Evaluator._extract_latest_date_exchange agent_a agent_b
                    user_a user_b w = (Ok None, w)).
  { unfold Evaluator._extract_latest_date_exchange.
    rewrite (Hcollect agent_a) by now left.
    now rewrite (Hcollect agent_b) by now right. }
  split; [exact Hnone|].
  intros msgs answer. unfold Evaluator.generate_match_report.
  rewrite (bind_ok _ _ _ _ _ (extract_intake_summary_run agent_a w)).
  rewrite (bind_ok _ _ _ _ _ (extract_intake_summary_run agent_b w)).
  rewrite (bind_ok _ _ _ _ _ Hnone).
  unfold bind at 1. rewrite chat_run. unfold logged.
  fold msgs. fold answer.
  destruct answer as [report|]; [|reflexivity].
  rewrite (bind_ok _ _ _ _ _ (time_time_run _)).
  now rewrite (bind_ok _ _ _ _ _ (evaluator_write_run _ _ _)).
Qed.

End MatchReportFacts.

Lemma match_report_without_date_exchange_witness :
  fst (@Evaluator.generate_match_report Ref.runtime (Sample.always " fine ")
         Sample.jordan (Some "user_001") Sample.alex (Some "user_002")
         Ref.client Registry.initial)
  = Ok "fine".
Proof.
  rewrite (proj2 (@match_report_without_date_exchange Ref.runtime
                    (Sample.always " fine ") Sample.jordan Sample.alex
                    (Some "user_001") (Some "user_002") Ref.client
                    Registry.initial
                    ltac:(intros agent a e [->| ->] [= <-] [])));
    reflexivity.
Defined.
(** ** Every accepted answer is noted *)

Section AnswerNoted.
Context `{PyRuntime} `{Outside}.

(** X24. An answer that [submit_answer] accepts is noted in the memory of
    the user's agent: the entry that follows the entries the agent had
    pairs the question at the session's step index with the answer given,
    under the type intake_live, the session id, the step index and the
    time; whatever the rest of the call adds comes after it. *)
Theorem accepted_answer_is_noted (sid answer_text : string) (w w' : World)
    (s : Session) (a : MatchmakerAgent) (r : Answer) :
  sessions w !! sid = Some s ->
  Live.session_inv s ->
  matchmakers w !! s_user_id s = Some a ->
  IntakeLive.submit_answer sid answer_text w = (Ok r, w') ->
  exists q a' more,
    py_index (questions s) (step_index s) = Some q
    /\ matchmakers w' !! s_user_id s = Some a'
    /\ _entries (ma_memory a')
       = _entries (ma_memory a)
         ++ Entry ("Q: " +:+ q +:+ PyStr.NL +:+ "A: " +:+ answer_text)
              [("type", VStr "intake_live");
               ("session_id", VStr sid);
               ("step_index", VInt (step_index s));
               ("timestamp", VFloat (clock (ticks w)))]
            :: more.
Proof.
  intros Hs Hinv Ha Hrun.
  assert (Hc : is_complete s = false).
  { destruct (is_complete s) eqn:Hc; [|reflexivity].
    unfold IntakeLive.submit_answer in Hrun.
    rewrite (bind_ok _ _ w w (Some s)) in Hrun by (now rewrite <- Hs).
    rewrite Hc in Hrun. discriminate. }
  destruct (submit_answer_advances sid answer_text w s Hs Hc Hinv)
    as (w2 & _ & _ & _ & _ & _ & Hnoted & Hadv).
  destruct (Hnoted a Ha) as (a2 & q & Hq & Ha2 & Hentries).
  rewrite Hadv in Hrun.
  assert (Hgrew : Growth.grew w2 w').
  { revert Hrun.
    match goal with
    | |- ?m w2 = _ -> _ =>
        assert (Hm : Growth.only_grows m); [|exact (Hm w2 (Ok r) w')]
    end.
    destruct (step_index s + 1 >=? 5).
    - apply grows_bind; [apply grows_store | intros _].
      apply grows_bind; [apply grows_final_summary | intros fs].
      apply grows_ret.
    - apply grows_bind; [apply grows_next_question | intros nq].
      apply grows_bind; [apply grows_store | intros _].
      apply grows_ret. }
  destruct Hgrew as (_ & _ & _ & _ & _ & Hkept & _).
  destruct (Hkept _ a2 Ha2) as (a' & Ha' & _ & _ & _ & _ & _ & more & Hmore).
  exists q, a', more. split; [exact Hq|]. split; [exact Ha'|].
  now rewrite Hmore, Hentries, <- app_assoc.
Qed.

End AnswerNoted.

Lemma accepted_answer_is_noted_witness :
  exists q a' more,
    matchmakers (Sample.answered 1) !! "user_001" = Some a'
    /\ _entries (ma_memory a')
       = Entry ("Q: " +:+ q +:+ PyStr.NL +:+ "A: yes")
           [("type", VStr "intake_live");
            ("session_id", VStr "session-0");
            ("step_index", VInt 0);
            ("timestamp", VFloat (@clock (Sample.always "ok") 1))]
         :: more.
Proof.
  destruct (@IntakeLive.submit_answer Ref.runtime (Sample.always "ok")
              "session-0" "yes" (Sample.answered 0))
    as [[r|e] w'] eqn:E; [|vm_compute in E; discriminate E].
  destruct (@accepted_answer_is_noted Ref.runtime (Sample.always "ok")
              "session-0" "yes" (Sample.answered 0) w'
              (mkSession "session-0" "user_001" 0 [IntakeLive.first_question]
                 [] 0%float false)
              (Matchmaker.init "user_001" Sample.jordan) r
              eq_refl
              ltac:(repeat split; cbn; try lia; discriminate)
              eq_refl E)
    as (q & a' & more & _ & Ha' & Hentries).
  exists q, a', more.
  change (Sample.answered 1)
    with (snd (@IntakeLive.submit_answer Ref.runtime (Sample.always "ok")
                 "session-0" "yes" (Sample.answered 0))).
  rewrite E. split; [exact Ha' | exact Hentries].
Defined.
(** ** The entries of one date exchange *)

Section ExchangeEntries.
Context `{PyRuntime} `{Outside}.

Lemma evaluator_wrote_all (P : entry -> Prop) (Q : string -> entry -> Prop)
    (es : list effect) :
  Forall (Stamp.written_as P Q) es -> Forall P (evaluator_wrote es).
Proof.
  induction 1 as [|f es Hf Hes IH]; [constructor|].
  destruct f; cbn [evaluator_wrote flat_map app] in *; try exact IH.
  constructor; [exact Hf | exact IH].
Qed.

Lemma matchmaker_wrote_all (P : entry -> Prop) (Q : string -> entry -> Prop)
    (ref : string) (es : list effect) :
  Forall (Stamp.written_as P Q) es -> Forall (Q ref) (matchmaker_wrote ref es).
Proof.
  induction 1 as [|f es Hf Hes IH]; [constructor|].
  destruct f as [c| |e|r e]; cbn [matchmaker_wrote flat_map app] in *;
    try exact IH.
  destruct (String.eqb_spec r ref) as [->|Hne]; [|exact IH].
  constructor; [exact Hf | exact IH].
Qed.

Lemma asked_written (P : entry -> Prop) (Q : string -> entry -> Prop)
    (cs : list Call) :
  Forall (Stamp.written_as P Q) (map Asked cs).
Proof. induction cs; constructor; [exact I | assumption]. Qed.

Lemma clock_reads_app (es1 es2 : list effect) :
  clock_reads (es1 ++ es2) = (clock_reads es1 + clock_reads es2)%nat.
Proof. unfold clock_reads. now rewrite List.filter_app, length_app. Qed.

Lemma stamped_pair (ts : float) (types : list string) (type txt : string)
    (user_a user_b : User) :
  In type types ->
  Stamp.stamped ts types
    (Entry txt (Evaluator.pair_metadata type user_a user_b ts)).
Proof. intros Hin. split; [reflexivity|]. exists type. now split. Qed.

Lemma stamped_partner (ts : float) (types : list string) (type txt : string)
    (partner : User) :
  In type types ->
  Stamp.stamped ts types
    (Entry txt (Evaluator.partner_metadata type partner ts)).
Proof. intros Hin. split; [reflexivity|]. exists type. now split. Qed.

(** The writes among the effects of a date exchange. *)
Lemma exchange_writes user_a user_b agent_a agent_b intake_a intake_b client ts
    R :
  Forall
    (Stamp.written_as
       (Stamp.stamped ts
          ["date_delta_insight"; "date_exchange_eval"; "date_score"])
       (fun ref e =>
          Stamp.stamped ts ["date_exchange"; "matchmaker_reflection"] e
          /\ (agent_a = Some ref \/ agent_b = Some ref)))
    (Exchange.effects user_a user_b agent_a agent_b intake_a intake_b client
       ts R).
Proof.
  assert (Hpair : forall type txt,
             In type ["date_delta_insight"; "date_exchange_eval"; "date_score"] ->
             Forall
               (Stamp.written_as
                  (Stamp.stamped ts
                     ["date_delta_insight"; "date_exchange_eval"; "date_score"])
                  (fun ref e =>
                     Stamp.stamped ts ["date_exchange"; "matchmaker_reflection"] e
                     /\ (agent_a = Some ref \/ agent_b = Some ref)))
               [EvaluatorWrote
                  (Entry txt (Evaluator.pair_metadata type user_a user_b ts))]).
  { intros type txt Hin. apply List.Forall_cons; [|apply List.Forall_nil].
    now apply stamped_pair. }
  assert (Hpartner : forall ref type txt partner,
             In type ["date_exchange"; "matchmaker_reflection"] ->
             agent_a = Some ref \/ agent_b = Some ref ->
             Forall
               (Stamp.written_as
                  (Stamp.stamped ts
                     ["date_delta_insight"; "date_exchange_eval"; "date_score"])
                  (fun ref e =>
                     Stamp.stamped ts ["date_exchange"; "matchmaker_reflection"] e
                     /\ (agent_a = Some ref \/ agent_b = Some ref)))
               [MatchmakerWrote ref
                  (Entry txt (Evaluator.partner_metadata type partner ts))]).
  { intros ref type txt partner Hin Hagent.
    apply List.Forall_cons; [|apply List.Forall_nil].
    split; [now apply stamped_partner | exact Hagent]. }
  unfold Exchange.effects.
  repeat (apply Forall_app; split).
  - apply (asked_written _ _ [_; _]).
  - apply asked_written.
  - apply List.Forall_cons; [exact I|]. apply List.Forall_cons; [exact I|].
    apply (asked_written _ _ [_]).
  - destruct (PyStr.nonempty _); [|apply List.Forall_nil].
    apply Hpair. now left.
  - unfold Exchange.stores. destruct agent_a as [ref|]; [|apply List.Forall_nil].
    apply Hpartner; now left.
  - unfold Exchange.stores. destruct agent_b as [ref|]; [|apply List.Forall_nil].
    apply Hpartner; [now left | now right].
  - apply Hpair. right. now left.
  - unfold Exchange.reflection_effects.
    destruct agent_a as [ref|]; [|apply List.Forall_nil].
    destruct (on_reflection_a R) as [[r|]|]; [| |apply List.Forall_nil].
    + apply List.Forall_cons; [exact I|]. apply Hpartner; [right|]; now left.
    + apply (asked_written _ _ [_]).
  - unfold Exchange.reflection_effects.
    destruct agent_b as [ref|]; [|apply List.Forall_nil].
    destruct (on_reflection_b R) as [[r|]|]; [| |apply List.Forall_nil].
    + apply List.Forall_cons; [exact I|].
      apply Hpartner; [right; now left | now right].
    + apply (asked_written _ _ [_]).
  - apply List.Forall_cons; [exact I|]. apply Hpair. right. right. now left.
Qed.

Lemma exchange_clock_reads user_a user_b agent_a agent_b intake_a intake_b
    client ts R :
  clock_reads
    (Exchange.effects user_a user_b agent_a agent_b intake_a intake_b client
       ts R) = 1%nat.
Proof.
  unfold Exchange.effects. rewrite !clock_reads_app, clock_reads_asked.
  unfold Exchange.stores, Exchange.reflection_effects.
  destruct (PyStr.nonempty _), agent_a, agent_b, (on_reflection_a R) as [[?|]|],
    (on_reflection_b R) as [[?|]|]; reflexivity.
Qed.

(** X25. A date exchange that returns has read the clock once, and every
    entry it has written carries that one time. What it added to the
    evaluator's memory are entries of the types date_delta_insight,
    date_exchange_eval and date_score; what it added to a matchmaker's
    memory are entries of the types date_exchange and
    matchmaker_reflection; and it added nothing to the memory of a
    matchmaker that is neither of its two agents. *)
Theorem date_exchange_entries_share_timestamp (user_a user_b : User)
    (agent_a agent_b : option string) (client : OpenRouterClient)
    (w w' : World) (e : dict) :
  Evaluator.run_date_exchange user_a agent_a user_b agent_b client w
  = (Ok e, w') ->
  let ts := clock (ticks w) in
  ticks w' = S (ticks w)
  /\ (exists new,
        _entries (ev_memory (evaluator w'))
        = _entries (ev_memory (evaluator w)) ++ new
        /\ Forall (Stamp.stamped ts
                     ["date_delta_insight"; "date_exchange_eval"; "date_score"])
                  new)
  /\ (forall ref a,
        matchmakers w !! ref = Some a ->
        exists a' new,
          matchmakers w' !! ref = Some a'
          /\ _entries (ma_memory a') = _entries (ma_memory a) ++ new
          /\ Forall (Stamp.stamped ts ["date_exchange"; "matchmaker_reflection"])
                    new
          /\ (agent_a <> Some ref -> agent_b <> Some ref -> new = [])).
Proof.
  intros Hrun ts.
  apply run_date_exchange_inv in Hrun as (R & _ & _ & _ & _ & [-> _]).
  fold ts.
  set (es := Exchange.effects _ _ _ _ _ _ _ _ _).
  pose proof (exchange_writes user_a user_b agent_a agent_b
                (Evaluator.intake_of w agent_a) (Evaluator.intake_of w agent_b)
                client ts R) as Hwrites.
  fold es in Hwrites.
  split; [|split].
  - rewrite ticks_after. unfold es. rewrite exchange_clock_reads. lia.
  - exists (evaluator_wrote es). split; [apply evaluator_after|].
    exact (evaluator_wrote_all _ _ _ Hwrites).
  - intros ref a Ha.
    destruct (matchmaker_after es w ref a Ha) as (a' & Ha' & Hentries & _).
    exists a', (matchmaker_wrote ref es).
    split; [exact Ha'|]. split; [exact Hentries|].
    pose proof (matchmaker_wrote_all _ _ ref _ Hwrites) as Hall.
    split.
    + eapply List.Forall_impl; [|exact Hall]. now intros x [Hx _].
    + intros Hna Hnb. destruct (matchmaker_wrote ref es) as [|x l];
        [reflexivity|].
      apply Forall_cons_iff in Hall as [[_ [Hx|Hx]] _]; contradiction.
Qed.

End ExchangeEntries.

Lemma date_exchange_entries_share_timestamp_witness :
  ticks (snd (@Evaluator.run_date_exchange Ref.runtime (Sample.always "ok")
                Sample.jordan (Some "user_001") Sample.alex (Some "user_002")
                Ref.client Registry.initial))
  = 1%nat.
Proof.
  destruct (@Evaluator.run_date_exchange Ref.runtime (Sample.always "ok")
              Sample.jordan (Some "user_001") Sample.alex (Some "user_002")
              Ref.client Registry.initial)
    as [[e|x] w'] eqn:E.
  - exact (proj1 (@date_exchange_entries_share_timestamp Ref.runtime
                    (Sample.always "ok") Sample.jordan Sample.alex
                    (Some "user_001") (Some "user_002") Ref.client
                    Registry.initial w' e E)).
  - destruct (@run_date_exchange_returns Ref.runtime (Sample.always "ok")
                Sample.jordan (Some "user_001") Sample.alex (Some "user_002")
                Ref.client ltac:(intros n c m t; eexists; reflexivity)
                Registry.initial) as (e' & w'' & E').
    rewrite E in E'. discriminate E'.
Defined.
